(** * Taxi-data quality checks and quarantine (dead-letter queue)

    A shallow embedding of [src/transform/data_quality.py]
    ([DataQualityChecker]) and of [src/transform/glue_etl_job.py] (the ETL
    driver), together with the properties of the validation pipeline.

    Modelling choices, all visible in the definitions below:
    - a Spark [DataFrame] is its column list and its list of rows; a row
      maps column names to values, and [VNull] is SQL's NULL;
    - a PySpark [Column] expression is a syntax tree, as in PySpark, and
      [eval] gives it Spark SQL's three-valued meaning;
    - a double is the rational it denotes ([Q]), and every arithmetic
      result is rounded to the nearest binary64 double ([fl]); the sign of
      zero and NaN are not held, an infinity is held as [2^1024];
    - a timestamp is its microseconds since the epoch ([Z]), as Spark
      holds it, read in UTC; the clock counts microseconds too;
    - a column name resolves when it is, letter for letter, a column of
      the DataFrame: Spark also resolves a name that differs by case, or
      that an ancestor of the DataFrame holds; columns have no declared
      type, so a comparison between values of different kinds is NULL,
      where Spark goes by the types of the columns to cast the values or
      to refuse the query. The properties of a call's result are stated
      for the calls that return;
    - rows carry a tag [rid] that no operation reads: it only lets a
      statement say which input record an output record descends from;
    - DataFrames are evaluated eagerly, and the clock does not advance
      inside one call;
    - Python's mutable [self.quality_metrics], the object store, and the
      lines printed are fields of [State], threaded by the monad [M];
      exceptions are the [Raise] results of [M];
    - of the source's [print] calls, those of the dead-letter-queue
      writers and of the final write of [main] are modelled; the others
      are left out, except the percentages of the summaries, whose
      computation can raise;
    - of [main], steps 2 to 6 are modelled, on the batch step 1 has read;
      the statistics printed after the final write are left out. *)

From Stdlib Require Import QArith ZArith Bool Qround Qabs Qcanon.
From stdpp Require Import gmap strings list fin_maps pretty.

Local Open Scope string_scope.
Local Open Scope list_scope.
Local Open Scope Z_scope.

(** ** Values and Spark SQL's three-valued operators *)

Inductive value : Type :=
| VNull
| VBool (b : bool)
| VNum (q : Q)     (* a long, or the rational a double denotes *)
| VTime (t : Z)    (* microseconds since the epoch *)
| VStr (s : string).

Definition is_null (v : value) : bool :=
  match v with VNull => true | _ => false end.

(** [df.filter(c)] keeps a row only when [c] is TRUE: FALSE and NULL both
    drop it. *)
Definition is_true (v : value) : bool :=
  match v with VBool true => true | _ => false end.

Definition sql_and (a b : value) : value :=
  match a, b with
  | VBool false, _ => VBool false
  | _, VBool false => VBool false
  | VBool true, VBool true => VBool true
  | _, _ => VNull
  end.

Definition sql_or (a b : value) : value :=
  match a, b with
  | VBool true, _ => VBool true
  | _, VBool true => VBool true
  | VBool false, VBool false => VBool false
  | _, _ => VNull
  end.

Definition sql_not (a : value) : value :=
  match a with
  | VBool b => VBool (negb b)
  | _ => VNull
  end.

(** Ordering of two values of one type; [None] when either side is NULL.
    Values of different types are not compared: Spark decides by the types
    of the two columns, before it reads a record, whether to cast or to
    raise an [AnalysisException], and columns have no declared type
    here. *)
Definition sql_compare (a b : value) : option comparison :=
  match a, b with
  | VNum x, VNum y => Some (x ?= y)%Q
  | VTime x, VTime y => Some (x ?= y)%Z
  | VStr x, VStr y => Some (String.compare x y)
  | VBool x, VBool y => Some (Bool.compare x y)
  | _, _ => None
  end.

Definition sql_ge (a b : value) : value :=
  match sql_compare a b with
  | Some Lt => VBool false
  | Some _ => VBool true
  | None => VNull
  end.

Definition sql_le (a b : value) : value :=
  match sql_compare a b with
  | Some Gt => VBool false
  | Some _ => VBool true
  | None => VNull
  end.

Definition sql_gt (a b : value) : value :=
  match sql_compare a b with
  | Some Gt => VBool true
  | Some _ => VBool false
  | None => VNull
  end.

(** ** Double arithmetic (IEEE 754 binary64, round to nearest, ties to
    even) *)

(** [2^e] for any integer [e]. *)
Definition pow2 (e : Z) : Q :=
  if 0 <=? e then inject_Z (2 ^ e) else 1 # Z.to_pos (2 ^ (- e)).

(** The integer nearest to [x], the even one of the two on a tie. *)
Definition round_half_even (x : Q) : Z :=
  let f := Qfloor x in
  match (x - inject_Z f ?= 1 # 2)%Q with
  | Lt => f
  | Gt => f + 1
  | Eq => if Z.even f then f else f + 1
  end.

(** [floor (log2 a)] for [a > 0]. *)
Definition binade (a : Q) : Z :=
  let e := Z.log2 (Qnum a) - Z.log2 (Zpos (Qden a)) in
  if Qle_bool (pow2 e) a then e else e - 1.

(** The double nearest to [q]: 53 significant bits down to the exponent
    -1074 of the subnormals (so a small enough [q] rounds to zero), and
    the infinity, held as [2^1024], from the overflow threshold on. *)
Definition fl (q : Q) : Q :=
  if Qeq_bool q 0 then 0%Q
  else
    let a := Qabs q in
    let e := Z.max (binade a - 52) (-1074) in
    let m := round_half_even (a / pow2 e) in
    let r := (inject_Z m * pow2 e)%Q in
    let r := if Qle_bool (pow2 1024) r then pow2 1024 else r in
    Qred (if Qle_bool 0 q then r else - r).

(** The three operations on two numbers taken as doubles: a double
    operand is itself, a long operand is cast to the nearest double. *)
Definition double_sub (x y : Q) : Q := fl (fl x - fl y).
Definition double_mul (x y : Q) : Q := fl (fl x * fl y).
Definition double_div (x y : Q) : Q := fl (fl x / fl y).

(** The source subtracts longs only (two [unix_timestamp] results), whose
    difference is below [2^53]: there [double_sub] is the exact
    difference. *)
Definition sql_sub (a b : value) : value :=
  match a, b with
  | VNum x, VNum y => VNum (double_sub x y)
  | _, _ => VNull
  end.

Definition sql_mul (a b : value) : value :=
  match a, b with
  | VNum x, VNum y => VNum (double_mul x y)
  | _, _ => VNull
  end.

(** Division by zero is NULL in Spark SQL (non-ANSI mode). *)
Definition sql_div (a b : value) : value :=
  match a, b with
  | VNum x, VNum y => if Qeq_bool y 0 then VNull else VNum (double_div x y)
  | _, _ => VNull
  end.

(** ** Calendar: year and month of a timestamp (proleptic Gregorian, UTC)

    A timestamp counts microseconds; [seconds_of] is its whole-second
    Unix time, the fraction of the second dropped. *)

Definition seconds_of (micros : Z) : Z := micros / 1000000.

Definition civil_from_secs (secs : Z) : Z * Z * Z :=
  let days := secs / 86400 in
  let z := days + 719468 in
  let era := z / 146097 in
  let doe := z - era * 146097 in
  let yoe := (doe - doe / 1460 + doe / 36524 - doe / 146096) / 365 in
  let doy := doe - (365 * yoe + yoe / 4 - yoe / 100) in
  let mp := (5 * doy + 2) / 153 in
  let m := if mp <? 10 then mp + 3 else mp - 9 in
  let y := yoe + era * 400 in
  let d := doy - (153 * mp + 2) / 5 + 1 in
  (if m <=? 2 then y + 1 else y, m, d).

Definition year_of (t : Z) : Z := (civil_from_secs (seconds_of t)).1.1.
Definition month_of (t : Z) : Z := (civil_from_secs (seconds_of t)).1.2.
Definition day_of (t : Z) : Z := (civil_from_secs (seconds_of t)).2.
Definition hour_of (t : Z) : Z := (seconds_of t `mod` 86400) / 3600.
Definition minute_of (t : Z) : Z := (seconds_of t `mod` 3600) / 60.
Definition second_of (t : Z) : Z := seconds_of t `mod` 60.

(** [f"{n:02d}"] *)
Definition pad2 (n : Z) : string :=
  if n <? 10 then "0" +:+ pretty n else pretty n.

(** [datetime.strftime('%Y%m%d_%H%M%S')] *)
Definition strftime_run_id (t : Z) : string :=
  pretty (year_of t) +:+ pad2 (month_of t) +:+ pad2 (day_of t)
  +:+ "_" +:+ pad2 (hour_of t) +:+ pad2 (minute_of t)
  +:+ pad2 (second_of t).

(** [F.unix_timestamp(c)]: the whole seconds of a timestamp, a long. *)
Definition sql_unix_timestamp (a : value) : value :=
  match a with VTime t => VNum (inject_Z (seconds_of t)) | _ => VNull end.

Definition sql_year (a : value) : value :=
  match a with VTime t => VNum (inject_Z (year_of t)) | _ => VNull end.

Definition sql_month (a : value) : value :=
  match a with VTime t => VNum (inject_Z (month_of t)) | _ => VNull end.

(** ** Column expressions ([pyspark.sql.Column], built by [F.col], [F.lit],
    the overloaded operators, [F.when(..).otherwise(..)], ...) *)

Inductive Column : Type :=
| col (name : string)
| lit (v : value)
| current_timestamp
| isNull (c : Column)
| c_and (a b : Column)
| c_or (a b : Column)
| c_not (a : Column)
| c_ge (a b : Column)
| c_le (a b : Column)
| c_gt (a b : Column)
| c_sub (a b : Column)
| c_mul (a b : Column)
| c_div (a b : Column)
| when_otherwise (c a b : Column)
| unix_timestamp (a : Column)
| year (a : Column)
| month (a : Column).

Declare Scope col_scope.
Delimit Scope col_scope with col.
Bind Scope col_scope with Column.
Infix ".&" := c_and (at level 41, left associativity) : col_scope.
Infix ".|" := c_or (at level 51, left associativity) : col_scope.
Notation ".~ a" := (c_not a) (at level 36, right associativity) : col_scope.
Infix ".>=" := c_ge (at level 31, no associativity) : col_scope.
Infix ".<=" := c_le (at level 31, no associativity) : col_scope.
Infix ".>" := c_gt (at level 31, no associativity) : col_scope.
Infix ".-" := c_sub (at level 26, left associativity) : col_scope.
Infix ".*" := c_mul (at level 23, left associativity) : col_scope.
Infix "./" := c_div (at level 23, left associativity) : col_scope.

Definition num (q : Q) : Column := lit (VNum q).

(** ** Rows and DataFrames *)

Record Row : Type := mkRow { rid : nat; cells : gmap string value }.

Record DataFrame : Type := mkDF { columns : list string; rows : list Row }.

Definition row_get (r : Row) (name : string) : value :=
  default VNull (cells r !! name).

Fixpoint eval (now : Z) (r : Row) (c : Column) : value :=
  match c with
  | col name => row_get r name
  | lit v => v
  | current_timestamp => VTime now
  | isNull a => VBool (is_null (eval now r a))
  | c_and a b => sql_and (eval now r a) (eval now r b)
  | c_or a b => sql_or (eval now r a) (eval now r b)
  | c_not a => sql_not (eval now r a)
  | c_ge a b => sql_ge (eval now r a) (eval now r b)
  | c_le a b => sql_le (eval now r a) (eval now r b)
  | c_gt a b => sql_gt (eval now r a) (eval now r b)
  | c_sub a b => sql_sub (eval now r a) (eval now r b)
  | c_mul a b => sql_mul (eval now r a) (eval now r b)
  | c_div a b => sql_div (eval now r a) (eval now r b)
  | when_otherwise c a b =>
      if is_true (eval now r c) then eval now r a else eval now r b
  | unix_timestamp a => sql_unix_timestamp (eval now r a)
  | year a => sql_year (eval now r a)
  | month a => sql_month (eval now r a)
  end.

(** The column names an expression refers to; Spark's analyser raises when
    one of them is not a column of the DataFrame. *)
Fixpoint references (c : Column) : list string :=
  match c with
  | col name => [name]
  | lit _ | current_timestamp => []
  | isNull a | c_not a | unix_timestamp a | year a | month a =>
      references a
  | c_and a b | c_or a b | c_ge a b | c_le a b | c_gt a b
  | c_sub a b | c_mul a b | c_div a b => references a ++ references b
  | when_otherwise c a b => references c ++ references a ++ references b
  end.

Definition has_column (df : DataFrame) (name : string) : bool :=
  bool_decide (name ∈ columns df).

(** Names are matched exactly (Spark's default also matches names that
    differ by case). *)
Definition resolves (df : DataFrame) (c : Column) : bool :=
  forallb (has_column df) (references c).

Definition count (df : DataFrame) : Z := Z.of_nat (length (rows df)).

Definition rids (df : DataFrame) : list nat := map rid (rows df).

(** ** Exceptions, state and the monad of the pipeline *)

Inductive exn : Type :=
| ZeroDivisionError
| AnalysisException (what : string)
| S3WriteError (path : string).

Inductive result (A : Type) : Type :=
| Ok (a : A)
| Raise (e : exn).
Arguments Ok {A} a.
Arguments Raise {A} e.

Record State : Type := mkState {
  clock : Z;
  quality_metrics : gmap string Z;
  s3 : gmap string DataFrame;
  s3_writes : list string;
  s3_unwritable : string -> bool;
  stdout : list string
}.

Definition M (A : Type) : Type := State -> State * result A.

Definition ret {A} (a : A) : M A := fun st => (st, Ok a).

Definition bind {A B} (m : M A) (k : A -> M B) : M B :=
  fun st =>
    match m st with
    | (st', Ok a) => k a st'
    | (st', Raise e) => (st', Raise e)
    end.

Definition raise {A} (e : exn) : M A := fun st => (st, Raise e).

(** [try: m except Exception as e: h e] *)
Definition try_except {A} (m : M A) (h : exn -> M A) : M A :=
  fun st =>
    match m st with
    | (st', Ok a) => (st', Ok a)
    | (st', Raise e) => h e st'
    end.

Notation "x <- m ;; k" := (bind m (fun x => k))
  (at level 62, m at next level, right associativity).
Notation "m ;;; k" := (bind m (fun _ => k))
  (at level 62, right associativity).

Definition datetime_now : M Z := fun st => (st, Ok (clock st)).

Definition print (line : string) : M unit :=
  fun st =>
    (mkState (clock st) (quality_metrics st) (s3 st) (s3_writes st)
       (s3_unwritable st) (stdout st ++ [line]), Ok tt).

(** [self.quality_metrics[key] = n] *)
Definition set_metric (key : string) (n : Z) : M unit :=
  fun st =>
    (mkState (clock st) (<[key := n]> (quality_metrics st)) (s3 st)
       (s3_writes st) (s3_unwritable st) (stdout st), Ok tt).

(** Python's true division of two integers. *)
Definition py_div (a b : Z) : M Q :=
  if b =? 0 then raise ZeroDivisionError
  else ret (inject_Z a / inject_Z b)%Q.

Fixpoint foldM {A B} (f : A -> B -> M A) (l : list B) (a : A) : M A :=
  match l with
  | [] => ret a
  | x :: l' => a' <- f a x ;; foldM f l' a'
  end.

(** ** DataFrame operations *)

Definition keeps (now : Z) (c : Column) (r : Row) : bool :=
  is_true (eval now r c).

(** [df.filter(c)] *)
Definition df_filter (c : Column) (df : DataFrame) : M DataFrame :=
  now <- datetime_now ;;
  if resolves df c
  then ret (mkDF (columns df) (List.filter (keeps now c) (rows df)))
  else raise (AnalysisException "cannot resolve column").

Definition set_cell (now : Z) (name : string) (c : Column) (r : Row) : Row :=
  mkRow (rid r) (<[name := eval now r c]> (cells r)).

(** [df.withColumn(name, c)]: replaces the column when it exists, appends
    it otherwise. *)
Definition withColumn (name : string) (c : Column) (df : DataFrame)
  : M DataFrame :=
  now <- datetime_now ;;
  if resolves df c
  then ret (mkDF (if has_column df name then columns df
                  else columns df ++ [name])
                 (map (set_cell now name c) (rows df)))
  else raise (AnalysisException "cannot resolve column").

(** [spark.createDataFrame([], schema)] *)
Definition createDataFrame (data : list Row) (schema : list string)
  : DataFrame := mkDF schema data.

(** A row of a DataFrame with columns [from], read by position under the
    column names [to]. *)
Definition rename_row (from to : list string) (r : Row) : Row :=
  mkRow (rid r) (list_to_map (zip to (map (row_get r) from))).

(** [a.union(b)]: by position; the column counts must agree. *)
Definition df_union (a b : DataFrame) : M DataFrame :=
  if (length (columns a) =? length (columns b))%nat
  then ret (mkDF (columns a)
              (rows a ++ map (rename_row (columns b) (columns a)) (rows b)))
  else raise (AnalysisException "union: different number of columns").

(** [a.unionByName(b, allowMissingColumns=True)]: a column missing on one
    side reads NULL there, which is what [row_get] answers. *)
Definition union_by_name (a b : DataFrame) : DataFrame :=
  mkDF (columns a ++ List.filter (fun c => negb (has_column a c)) (columns b))
       (rows a ++ rows b).

Definition unionByName (a b : DataFrame) : M DataFrame :=
  ret (union_by_name a b).

(** [df.write.mode('overwrite').parquet(path)]: a call that reaches the
    store is recorded in [s3_writes]; it either raises or replaces what
    the path held. *)
Definition write_overwrite (path : string) (df : DataFrame) : M unit :=
  fun st =>
    let calls := s3_writes st ++ [path] in
    if s3_unwritable st path
    then (mkState (clock st) (quality_metrics st) (s3 st) calls
            (s3_unwritable st) (stdout st), Raise (S3WriteError path))
    else (mkState (clock st) (quality_metrics st) (<[path := df]> (s3 st))
            calls (s3_unwritable st) (stdout st), Ok tt).

(** [df.write.mode('append').partitionBy(..).parquet(path)]: the rows are
    added to those the path holds. *)
Definition write_append (path : string) (df : DataFrame) : M unit :=
  fun st =>
    let calls := s3_writes st ++ [path] in
    if s3_unwritable st path
    then (mkState (clock st) (quality_metrics st) (s3 st) calls
            (s3_unwritable st) (stdout st), Raise (S3WriteError path))
    else
      let old := default (mkDF (columns df) []) (s3 st !! path) in
      (mkState (clock st) (quality_metrics st)
         (<[path := mkDF (columns old) (rows old ++ rows df)]> (s3 st))
         calls (s3_unwritable st) (stdout st), Ok tt).

Definition dlq_path (bucket_name : string) (now : Z) (run_id : string)
  : string :=
  "s3://" +:+ bucket_name +:+ "/dead-letter-queue/taxi/year="
  +:+ pretty (year_of now) +:+ "/month=" +:+ pad2 (month_of now)
  +:+ "/run_id=" +:+ run_id +:+ "/".

Definition exn_message (e : exn) : string :=
  match e with
  | ZeroDivisionError => "division by zero"
  | AnalysisException what => what
  | S3WriteError path => "cannot write " +:+ path
  end.

(** ** [src/transform/data_quality.py] *)

Module DataQualityChecker.

Definition REQUIRED_FIELDS : list string :=
  [ "tpep_pickup_datetime"; "tpep_dropoff_datetime"; "passenger_count";
    "trip_distance"; "fare_amount"; "total_amount" ].

(** The dictionary, in its insertion order (the order [items()] yields). *)
Definition NUMERIC_RANGES : list (string * (Q * Q)) :=
  [ ("passenger_count", (1, 6)%Q);
    ("trip_distance", (1 # 10, 100)%Q);
    ("fare_amount", (1 # 100, 500)%Q);
    ("total_amount", (1 # 100, 1000)%Q);
    ("tip_amount", (0, 200)%Q);
    ("tolls_amount", (0, 100)%Q);
    ("extra", (0, 10)%Q);
    ("mta_tax", (0, 1)%Q) ].

(** The loop of [check_null_values] that builds [null_condition]. *)
Definition null_condition_of (fields : list string) (df : DataFrame)
  : option Column :=
  fold_left
    (fun null_condition field =>
       if has_column df field then
         let field_condition := isNull (col field) in
         match null_condition with
         | None => Some field_condition
         | Some c => Some (c .| field_condition)%col
         end
       else null_condition)
    fields None.

Definition check_null_values (df : DataFrame)
  : M (DataFrame * DataFrame) :=
  match null_condition_of REQUIRED_FIELDS df with
  | None => ret (df, createDataFrame [] (columns df))
  | Some null_condition =>
      d <- df_filter null_condition df ;;
      d <- withColumn "failure_reason"
             (lit (VStr "null_in_required_field")) d ;;
      invalid_df <- withColumn "failed_at" current_timestamp d ;;
      valid_df <- df_filter (.~ null_condition)%col df ;;
      let invalid_count := count invalid_df in
      set_metric "null_violations" invalid_count ;;;
      ret (valid_df, invalid_df)
  end.

(** The loop of [validate_numeric_ranges] that builds [range_condition]. *)
Definition range_condition_of (ranges : list (string * (Q * Q)))
    (df : DataFrame) : Column :=
  fold_left
    (fun range_condition '(field, (min_val, max_val)) =>
       if has_column df field then
         (range_condition
          .& (col field .>= num min_val .& col field .<= num max_val))%col
       else range_condition)
    ranges (lit (VBool true)).

Definition validate_numeric_ranges (df : DataFrame)
  : M (DataFrame * DataFrame) :=
  let range_condition := range_condition_of NUMERIC_RANGES df in
  d <- df_filter (.~ range_condition)%col df ;;
  d <- withColumn "failure_reason"
         (lit (VStr "numeric_range_violation")) d ;;
  invalid_df <- withColumn "failed_at" current_timestamp d ;;
  valid_df <- df_filter range_condition df ;;
  let invalid_count := count invalid_df in
  set_metric "range_violations" invalid_count ;;;
  ret (valid_df, invalid_df).

Definition validate_datetime_logic (df : DataFrame)
  : M (DataFrame * DataFrame) :=
  if negb (has_column df "tpep_pickup_datetime")
     || negb (has_column df "tpep_dropoff_datetime")
  then ret (df, createDataFrame [] (columns df))
  else
    let datetime_condition :=
      (col "tpep_dropoff_datetime" .> col "tpep_pickup_datetime")%col in
    d <- df_filter (.~ datetime_condition)%col df ;;
    d <- withColumn "failure_reason"
           (lit (VStr "invalid_datetime_sequence")) d ;;
    invalid_df <- withColumn "failed_at" current_timestamp d ;;
    valid_df <- df_filter datetime_condition df ;;
    let invalid_count := count invalid_df in
    set_metric "datetime_violations" invalid_count ;;;
    ret (valid_df, invalid_df).

(** The source's defaults are [min_minutes=1.0], [max_minutes=300.0]. *)
Definition validate_trip_duration (df : DataFrame)
    (min_minutes max_minutes : Q) : M (DataFrame * DataFrame) :=
  if negb (has_column df "trip_duration_minutes")
  then ret (df, createDataFrame [] (columns df))
  else
    let duration_condition :=
      (col "trip_duration_minutes" .>= num min_minutes
       .& col "trip_duration_minutes" .<= num max_minutes)%col in
    d <- df_filter (.~ duration_condition)%col df ;;
    d <- withColumn "failure_reason"
           (lit (VStr "invalid_trip_duration")) d ;;
    invalid_df <- withColumn "failed_at" current_timestamp d ;;
    valid_df <- df_filter duration_condition df ;;
    let invalid_count := count invalid_df in
    set_metric "duration_violations" invalid_count ;;;
    ret (valid_df, invalid_df).

(** The source's default is [max_percentage=100.0]. *)
Definition validate_tip_percentage (df : DataFrame) (max_percentage : Q)
  : M (DataFrame * DataFrame) :=
  if negb (has_column df "tip_percentage")
  then ret (df, createDataFrame [] (columns df))
  else
    let tip_condition :=
      (col "tip_percentage" .>= num 0
       .& col "tip_percentage" .<= num max_percentage)%col in
    d <- df_filter (.~ tip_condition)%col df ;;
    d <- withColumn "failure_reason"
           (lit (VStr "invalid_tip_percentage")) d ;;
    invalid_df <- withColumn "failed_at" current_timestamp d ;;
    valid_df <- df_filter tip_condition df ;;
    let invalid_count := count invalid_df in
    set_metric "tip_percentage_violations" invalid_count ;;;
    ret (valid_df, invalid_df).

(** [if invalid.count() > 0: invalid_dfs.append(invalid)] *)
Definition append_if_any (invalid_dfs : list DataFrame)
    (invalid : DataFrame) : list DataFrame :=
  if 0 <? count invalid then invalid_dfs ++ [invalid] else invalid_dfs.

Definition run_all_checks (df : DataFrame)
  : M (DataFrame * list DataFrame) :=
  let initial_count := count df in
  let invalid_dfs := [] in
  p <- check_null_values df ;;
  let df := p.1 in
  let invalid_dfs := append_if_any invalid_dfs p.2 in
  p <- validate_numeric_ranges df ;;
  let df := p.1 in
  let invalid_dfs := append_if_any invalid_dfs p.2 in
  p <- validate_datetime_logic df ;;
  let df := p.1 in
  let invalid_dfs := append_if_any invalid_dfs p.2 in
  q <- (if has_column df "trip_duration_minutes" then
          p <- validate_trip_duration df 1 300 ;;
          ret (p.1, append_if_any invalid_dfs p.2)
        else ret (df, invalid_dfs)) ;;
  let df := q.1 in
  let invalid_dfs := q.2 in
  q <- (if has_column df "tip_percentage" then
          p <- validate_tip_percentage df 100 ;;
          ret (p.1, append_if_any invalid_dfs p.2)
        else ret (df, invalid_dfs)) ;;
  let df := q.1 in
  let invalid_dfs := q.2 in
  let final_count := count df in
  let rejected_count := initial_count - final_count in
  (* the summary prints rejected_count/initial_count*100 *)
  py_div rejected_count initial_count ;;;
  ret (df, invalid_dfs).

(** The loop of [write_to_dead_letter_queue] that combines the batches. *)
Definition combine_step (combined_invalid : option DataFrame)
    (invalid_df : DataFrame) : M (option DataFrame) :=
  if 0 <? count invalid_df then
    match combined_invalid with
    | None => ret (Some invalid_df)
    | Some c => u <- df_union c invalid_df ;; ret (Some u)
    end
  else ret combined_invalid.

Definition all_empty (invalid_dfs : list DataFrame) : bool :=
  forallb (fun df => count df =? 0) invalid_dfs.

Definition write_to_dead_letter_queue (bucket_name : string)
    (invalid_dfs : list DataFrame) (run_id : option string) : M unit :=
  if bool_decide (invalid_dfs = []) || all_empty invalid_dfs
  then print "No failed records to write to DLQ"
  else
    print "Writing failed records to dead-letter queue..." ;;;
    combined_invalid <- foldM combine_step invalid_dfs None ;;
    match combined_invalid with
    | None => print "No failed records to write"
    | Some combined_invalid =>
        if count combined_invalid =? 0
        then print "No failed records to write"
        else
          now <- datetime_now ;;
          let run_id :=
            match run_id with
            | None => strftime_run_id now
            | Some run_id => run_id
            end in
          combined_invalid <-
            withColumn "run_id" (lit (VStr run_id)) combined_invalid ;;
          let dlq_path := dlq_path bucket_name now run_id in
          print ("Writing " +:+ pretty (count combined_invalid)
                 +:+ " failed records to: " +:+ dlq_path) ;;;
          try_except
            (write_overwrite dlq_path combined_invalid ;;;
             print "Failed records written successfully to DLQ")
            (fun e =>
               print ("Error writing to DLQ: " +:+ exn_message e) ;;;
               raise e)
    end.

(** [return self.quality_metrics.copy()] *)
Definition get_quality_metrics : M (gmap string Z) :=
  fun st => (st, Ok (quality_metrics st)).

End DataQualityChecker.

(** ** [src/transform/glue_etl_job.py] *)

Module glue_etl_job.

Definition add_derived_columns (df : DataFrame) : M DataFrame :=
  df <- withColumn "trip_duration_minutes"
          ((unix_timestamp (col "tpep_dropoff_datetime")
            .- unix_timestamp (col "tpep_pickup_datetime")) ./ num 60)%col
          df ;;
  df <- withColumn "tip_percentage"
          (when_otherwise (col "fare_amount" .> num 0)
             (col "tip_amount" ./ col "fare_amount" .* num 100)
             (num 0))%col
          df ;;
  df <- withColumn "quality_check_timestamp" current_timestamp df ;;
  df <- withColumn "year" (year (col "tpep_pickup_datetime")) df ;;
  df <- withColumn "month" (month (col "tpep_pickup_datetime")) df ;;
  df <- withColumn "processed_at" current_timestamp df ;;
  df <- withColumn "etl_job_name" (lit (VStr "job-process-taxi-data")) df ;;
  ret df.

Definition filter_condition : Column :=
  (col "trip_distance" .> num 0
   .& col "fare_amount" .> num 0
   .& col "passenger_count" .> num 0
   .& col "tpep_dropoff_datetime" .> col "tpep_pickup_datetime")%col.

Definition filter_invalid_records (df : DataFrame) : M DataFrame :=
  let initial_count := count df in
  df <- df_filter filter_condition df ;;
  let final_count := count df in
  let removed_count := initial_count - final_count in
  (* the report prints removed_count/initial_count*100 *)
  py_div removed_count initial_count ;;;
  ret df.

Definition required_fields : list string :=
  [ "tpep_pickup_datetime"; "tpep_dropoff_datetime"; "passenger_count";
    "trip_distance"; "fare_amount" ].

Definition range_condition : Column :=
  (col "passenger_count" .>= num 1 .& col "passenger_count" .<= num 6
   .& col "trip_distance" .>= num (1 # 10)
   .& col "trip_distance" .<= num 100
   .& col "fare_amount" .>= num (1 # 100)
   .& col "fare_amount" .<= num 500)%col.

Definition duration_condition : Column :=
  (col "trip_duration_minutes" .>= num 1
   .& col "trip_duration_minutes" .<= num 300)%col.

Definition tip_condition : Column :=
  (col "tip_percentage" .>= num 0 .& col "tip_percentage" .<= num 100)%col.

Definition append_if_any (invalid_dfs : list DataFrame)
    (invalid : DataFrame) : list DataFrame :=
  if 0 <? count invalid then invalid_dfs ++ [invalid] else invalid_dfs.

Definition run_data_quality_checks (df : DataFrame)
    (bucket_name run_id : string) : M (DataFrame * list DataFrame) :=
  let initial_count := count df in
  let invalid_dfs := [] in
  (* Check 1 *)
  q <- match DataQualityChecker.null_condition_of required_fields df with
       | Some null_condition =>
           d <- df_filter null_condition df ;;
           d <- withColumn "failure_reason"
                  (lit (VStr "null_in_required_field")) d ;;
           invalid_nulls <- withColumn "failed_at" current_timestamp d ;;
           let invalid_dfs := append_if_any invalid_dfs invalid_nulls in
           df <- df_filter (.~ null_condition)%col df ;;
           ret (df, invalid_dfs)
       | None => ret (df, invalid_dfs)
       end ;;
  let df := q.1 in
  let invalid_dfs := q.2 in
  (* Check 2 *)
  d <- df_filter (.~ range_condition)%col df ;;
  d <- withColumn "failure_reason"
         (lit (VStr "numeric_range_violation")) d ;;
  invalid_ranges <- withColumn "failed_at" current_timestamp d ;;
  let invalid_dfs := append_if_any invalid_dfs invalid_ranges in
  df <- df_filter range_condition df ;;
  (* Check 3 *)
  q <- (if has_column df "trip_duration_minutes" then
          d <- df_filter (.~ duration_condition)%col df ;;
          d <- withColumn "failure_reason"
                 (lit (VStr "invalid_trip_duration")) d ;;
          invalid_duration <- withColumn "failed_at" current_timestamp d ;;
          let invalid_dfs := append_if_any invalid_dfs invalid_duration in
          df <- df_filter duration_condition df ;;
          ret (df, invalid_dfs)
        else ret (df, invalid_dfs)) ;;
  let df := q.1 in
  let invalid_dfs := q.2 in
  (* Check 4 *)
  q <- (if has_column df "tip_percentage" then
          d <- df_filter (.~ tip_condition)%col df ;;
          d <- withColumn "failure_reason"
                 (lit (VStr "invalid_tip_percentage")) d ;;
          invalid_tip <- withColumn "failed_at" current_timestamp d ;;
          let invalid_dfs := append_if_any invalid_dfs invalid_tip in
          df <- df_filter tip_condition df ;;
          ret (df, invalid_dfs)
        else ret (df, invalid_dfs)) ;;
  let df := q.1 in
  let invalid_dfs := q.2 in
  let final_count := count df in
  let rejected_count := initial_count - final_count in
  (* the summary prints rejected_count/initial_count*100 *)
  py_div rejected_count initial_count ;;;
  ret (df, invalid_dfs).

Definition combine_step (combined_invalid : option DataFrame)
    (invalid_df : DataFrame) : M (option DataFrame) :=
  if 0 <? count invalid_df then
    match combined_invalid with
    | None => ret (Some invalid_df)
    | Some c => u <- unionByName c invalid_df ;; ret (Some u)
    end
  else ret combined_invalid.

Definition write_to_dead_letter_queue (invalid_dfs : list DataFrame)
    (bucket_name run_id : string) : M unit :=
  if bool_decide (invalid_dfs = [])
     || DataQualityChecker.all_empty invalid_dfs
  then print "No failed records to write to DLQ"
  else
    print "Writing failed records to dead-letter queue..." ;;;
    combined_invalid <- foldM combine_step invalid_dfs None ;;
    match combined_invalid with
    | None => print "No failed records to write"
    | Some combined_invalid =>
        if count combined_invalid =? 0
        then print "No failed records to write"
        else
          combined_invalid <-
            withColumn "run_id" (lit (VStr run_id)) combined_invalid ;;
          now <- datetime_now ;;
          let dlq_path := dlq_path bucket_name now run_id in
          print ("Writing " +:+ pretty (count combined_invalid)
                 +:+ " failed records to: " +:+ dlq_path) ;;;
          try_except
            (write_overwrite dlq_path combined_invalid ;;;
             print "Failed records written successfully to DLQ")
            (fun e =>
               print ("Error writing to DLQ: " +:+ exn_message e) ;;;
               print "Continuing job execution despite DLQ write failure")
    end.

Definition target_path (bucket_name target_prefix : string) : string :=
  "s3://" +:+ bucket_name +:+ "/" +:+ target_prefix.

(** Steps 2 to 6 of [main], on the batch [raw] that step 1 has read. *)
Definition main (bucket_name target_prefix : string) (raw : DataFrame)
  : M unit :=
  now <- datetime_now ;;
  let run_id := strftime_run_id now in
  df <- add_derived_columns raw ;;
  df <- filter_invalid_records df ;;
  p <- run_data_quality_checks df bucket_name run_id ;;
  let df := p.1 in
  let invalid_dfs := p.2 in
  write_to_dead_letter_queue invalid_dfs bucket_name run_id ;;;
  try_except
    (write_append (target_path bucket_name target_prefix) df ;;;
     print "Data written successfully!")
    (fun e =>
       print ("Error writing processed data: " +:+ exn_message e) ;;;
       raise e).

End glue_etl_job.

(** ** The pattern shared by the five rules

    Every rule filters the batch twice, once by the condition of the
    invalid records (which it tags) and once by the condition of the valid
    ones, and stores the invalid count under its metric. Four rules pass
    [.~ c] and [c]; [check_null_values] passes [c] and [.~ c]. *)

Definition split_by (invalid_cond valid_cond : Column)
    (reason metric : string) (df : DataFrame) : M (DataFrame * DataFrame) :=
  d <- df_filter invalid_cond df ;;
  d <- withColumn "failure_reason" (lit (VStr reason)) d ;;
  invalid_df <- withColumn "failed_at" current_timestamp d ;;
  valid_df <- df_filter valid_cond df ;;
  let invalid_count := count invalid_df in
  set_metric metric invalid_count ;;;
  ret (valid_df, invalid_df).

Definition with_metric (key : string) (n : Z) (st : State) : State :=
  mkState (clock st) (<[key := n]> (quality_metrics st)) (s3 st)
    (s3_writes st) (s3_unwritable st) (stdout st).

(** The tag a rule puts on an invalid record. *)
Definition tag_row (now : Z) (reason : string) (r : Row) : Row :=
  set_cell now "failed_at" current_timestamp
    (set_cell now "failure_reason" (lit (VStr reason)) r).

Definition tagged_columns (cols : list string) : list string :=
  let cols1 :=
    if bool_decide ("failure_reason" ∈ cols) then cols
    else cols ++ ["failure_reason"] in
  if bool_decide ("failed_at" ∈ cols1) then cols1 else cols1 ++ ["failed_at"].

(** What a rule evaluation answers when its two conditions resolve. *)
Definition rule_outcome (invalid_cond valid_cond : Column)
    (reason metric : string) (df : DataFrame) (st : State)
  : State * result (DataFrame * DataFrame) :=
  let now := clock st in
  let invalid :=
    mkDF (tagged_columns (columns df))
         (map (tag_row now reason)
              (List.filter (keeps now invalid_cond) (rows df))) in
  let valid :=
    mkDF (columns df) (List.filter (keeps now valid_cond) (rows df)) in
  (with_metric metric (count invalid) st, Ok (valid, invalid)).

(** The DataFrame [df.withColumn(name, c)] answers when [c] resolves. *)
Definition with_col (now : Z) (name : string) (c : Column) (df : DataFrame)
  : DataFrame :=
  mkDF (if has_column df name then columns df else columns df ++ [name])
       (map (set_cell now name c) (rows df)).

(** What [add_derived_columns] computes for the record [r], read off the
    result record [r']: the duration in minutes between the whole-second
    Unix times of the two timestamps (absent when a timestamp is), the tip
    percentage, both in double arithmetic, and the other cells as they
    were. *)
Definition derived_names : list string :=
  [ "trip_duration_minutes"; "tip_percentage"; "quality_check_timestamp";
    "year"; "month"; "processed_at"; "etl_job_name" ].

Record derived_ok (r r' : Row) : Prop := {
  derived_rid : rid r' = rid r;
  derived_duration :
    forall p d,
      row_get r "tpep_pickup_datetime" = VTime p ->
      row_get r "tpep_dropoff_datetime" = VTime d ->
      row_get r' "trip_duration_minutes"
      = VNum (double_div
                (double_sub (inject_Z (seconds_of d))
                   (inject_Z (seconds_of p))) 60);
  derived_duration_absent :
    row_get r "tpep_pickup_datetime" = VNull \/
    row_get r "tpep_dropoff_datetime" = VNull ->
    row_get r' "trip_duration_minutes" = VNull;
  derived_tip :
    forall f t,
      row_get r "fare_amount" = VNum f -> (0 < f)%Q ->
      row_get r "tip_amount" = VNum t ->
      row_get r' "tip_percentage" = VNum (double_mul (double_div t f) 100);
  derived_tip_absent :
    forall f,
      row_get r "fare_amount" = VNum f -> (0 < f)%Q ->
      row_get r "tip_amount" = VNull ->
      row_get r' "tip_percentage" = VNull;
  derived_tip_zero :
    forall f,
      row_get r "fare_amount" = VNum f -> ~ (0 < f)%Q ->
      row_get r' "tip_percentage" = VNum 0;
  derived_tip_zero_null :
    row_get r "fare_amount" = VNull ->
    row_get r' "tip_percentage" = VNum 0;
  derived_others :
    forall name, name ∉ derived_names -> row_get r' name = row_get r name
}.

(** The other five derived cells of a record of [add_derived_columns]:
    the two time stamps are the time of the run, the job name is the
    constant of the source, and the partition columns are the year and
    the month of the pickup (absent when the pickup is). *)
Record stamped_ok (now : Z) (r r' : Row) : Prop := {
  stamped_rid : rid r' = rid r;
  stamped_checked :
    row_get r' "quality_check_timestamp" = VTime now;
  stamped_processed : row_get r' "processed_at" = VTime now;
  stamped_job : row_get r' "etl_job_name" = VStr "job-process-taxi-data";
  stamped_partition :
    forall p,
      row_get r "tpep_pickup_datetime" = VTime p ->
      row_get r' "year" = VNum (inject_Z (year_of p)) /\
      row_get r' "month" = VNum (inject_Z (month_of p));
  stamped_partition_absent :
    row_get r "tpep_pickup_datetime" = VNull ->
    row_get r' "year" = VNull /\ row_get r' "month" = VNull
}.


(** The seven [withColumn] calls, on one record. *)
Definition derive_row (now : Z) (r : Row) : Row :=
  set_cell now "etl_job_name" (lit (VStr "job-process-taxi-data"))
    (set_cell now "processed_at" current_timestamp
       (set_cell now "month" (month (col "tpep_pickup_datetime"))
          (set_cell now "year" (year (col "tpep_pickup_datetime"))
             (set_cell now "quality_check_timestamp" current_timestamp
                (set_cell now "tip_percentage"
                   (when_otherwise (col "fare_amount" .> num 0)
                      (col "tip_amount" ./ col "fare_amount" .* num 100)
                      (num 0))%col
                   (set_cell now "trip_duration_minutes"
                      ((unix_timestamp (col "tpep_dropoff_datetime")
                        .- unix_timestamp (col "tpep_pickup_datetime"))
                       ./ num 60)%col r)))))).

(** The record identities held by a list of batches. *)
Definition all_rids (invs : list DataFrame) : list nat :=
  concat (map rids invs).

Definition rids_opt (o : option DataFrame) : list nat :=
  match o with Some d => rids d | None => [] end.

(** The combining loop of the driver's writer, which cannot raise. *)
Definition combine_by_name (acc : option DataFrame) (d : DataFrame)
  : option DataFrame :=
  if 0 <? count d then
    Some (match acc with None => d | Some c => union_by_name c d end)
  else acc.

(** [within l d]: every record of [d] carries an identity of [l]. *)
Definition within (l : list nat) (d : DataFrame) : Prop := rids d ⊆ l.

(** How a call of a dead-letter-queue writer leaves the store: untouched
    without a write call; untouched after a write call that raised; or
    holding, at [path], a non-empty batch of records drawn from [invs]. *)
Definition dlq_outcome (st st' : State) (path : string) (invs : list DataFrame) : Prop :=
  (s3_writes st' = s3_writes st /\ s3 st' = s3 st) \/
  (s3_writes st' = s3_writes st ++ [path] /\ s3 st' = s3 st /\
   s3_unwritable st path = true) \/
  (s3_writes st' = s3_writes st ++ [path] /\ s3_unwritable st path = false /\
   exists d, s3 st' = <[path := d]> (s3 st) /\ rids d ⊆ all_rids invs /\ 0 < count d).

(** A record that breaks one of the four conditions of
    [filter_invalid_records]: a distance, fare or passenger count that is
    not positive, or a dropoff that is not strictly after the pickup. *)
Definition violates_basic_filter (r : Row) : Prop :=
  (exists v, row_get r "trip_distance" = VNum v /\ (v <= 0)%Q) \/
  (exists v, row_get r "fare_amount" = VNum v /\ (v <= 0)%Q) \/
  (exists v, row_get r "passenger_count" = VNum v /\ (v <= 0)%Q) \/
  (exists p d, row_get r "tpep_pickup_datetime" = VTime p /\
               row_get r "tpep_dropoff_datetime" = VTime d /\ d <= p).

(** The same for the writer of [DataQualityChecker], with what the call
    answers: a write call that raised is raised again, after its message
    has been printed. *)
Definition checker_dlq_outcome (st st' : State) (res : result unit)
    (path : string) : Prop :=
  (s3_writes st' = s3_writes st /\ s3 st' = s3 st) \/
  (s3_writes st' = s3_writes st ++ [path] /\ s3 st' = s3 st /\
   s3_unwritable st path = true /\ res = Raise (S3WriteError path) /\
   exists out,
     stdout st' = out ++ ["Error writing to DLQ: "
                          +:+ exn_message (S3WriteError path)]) \/
  (s3_writes st' = s3_writes st ++ [path] /\ s3_unwritable st path = false /\
   res = Ok tt /\
   exists d, s3 st' = <[path := d]> (s3 st) /\ 0 < count d).

(** [sum(metrics.values())] *)
Definition metrics_sum (m : gmap string Z) : Z :=
  map_fold (fun _ v acc => v + acc) 0 m.

(** Sample data: a batch with the columns of the tests' schema. *)
Definition row_of (id : nat) (l : list (string * value)) : Row :=
  mkRow id (list_to_map l).

Definition sample_columns : list string :=
  [ "tpep_pickup_datetime"; "tpep_dropoff_datetime"; "passenger_count";
    "trip_distance"; "fare_amount"; "tip_amount"; "total_amount";
    "tolls_amount"; "extra"; "mta_tax" ].

(** 2023-01-01 12:00:00 UTC. *)
Definition base_time : Z := 1672574400000000.

Definition sample_row (id : nat) (pickup dropoff passengers distance fare
    tip total : value) : Row :=
  row_of id
    [ ("tpep_pickup_datetime", pickup); ("tpep_dropoff_datetime", dropoff);
      ("passenger_count", passengers); ("trip_distance", distance);
      ("fare_amount", fare); ("tip_amount", tip); ("total_amount", total);
      ("tolls_amount", VNum (1 # 2)); ("extra", VNum (1 # 2));
      ("mta_tax", VNum (1 # 2)) ].

(** A clean record: 15 minutes, 2 passengers, 2.5 miles, fare 12.5. *)
Definition clean_row (id : nat) : Row :=
  sample_row id (VTime base_time) (VTime (base_time + 900000000)) (VNum 2)
    (VNum (5 # 2)) (VNum (25 # 2)) (VNum 2) (VNum (31 # 2)).

(** The same record with no tip recorded: [tip_amount] is NULL. *)
Definition null_tip_row (id : nat) : Row :=
  sample_row id (VTime base_time) (VTime (base_time + 900000000)) (VNum 2)
    (VNum (5 # 2)) (VNum (25 # 2)) VNull (VNum (31 # 2)).

(** A record with [trip_distance = 0], otherwise clean. *)
Definition zero_distance_row (id : nat) : Row :=
  sample_row id (VTime base_time) (VTime (base_time + 900000000)) (VNum 2)
    (VNum 0) (VNum (25 # 2)) (VNum 2) (VNum (31 # 2)).

(** The value a run returned ([dflt] if it raised). *)
Definition run_value {A} (dflt : A) (out : State * result A) : A :=
  match out.2 with Ok a => a | Raise _ => dflt end.

(** A record with 10 passengers, otherwise clean. *)
Definition crowded_row (id : nat) : Row :=
  sample_row id (VTime base_time) (VTime (base_time + 900000000)) (VNum 10)
    (VNum (5 # 2)) (VNum (25 # 2)) (VNum 2) (VNum (31 # 2)).

(** A record whose dropoff equals its pickup and whose tip is NULL. *)
Definition stalled_null_tip_row (id : nat) : Row :=
  sample_row id (VTime base_time) (VTime base_time) (VNum 2)
    (VNum (5 # 2)) (VNum (25 # 2)) VNull (VNum (31 # 2)).

(** A record with no dropoff time, otherwise clean. *)
Definition null_dropoff_row (id : nat) : Row :=
  sample_row id (VTime base_time) VNull (VNum 2)
    (VNum (5 # 2)) (VNum (25 # 2)) (VNum 2) (VNum (31 # 2)).


Definition fresh_state (now : Z) (unwritable : string -> bool) : State :=
  mkState now ∅ ∅ [] unwritable [].

Definition initial_state : State :=
  fresh_state 1700000000000000 (fun _ => false).

(** The batch [add_derived_columns] makes of the one stalled record. *)
Definition stalled_batch : DataFrame :=
  run_value (mkDF [] [])
    (glue_etl_job.add_derived_columns
       (mkDF sample_columns [stalled_null_tip_row 1]) initial_state).

(** A store whose dead-letter-queue area refuses every write. *)
Definition dlq_down (path : string) : bool :=
  String.prefix "s3://bucket/dead-letter-queue/" path.

Definition dlq_down_state : State :=
  fresh_state 1700000000000000 dlq_down.

(** An invalid batch as [validate_numeric_ranges] returns it. *)
Definition sample_invalid (id : nat) : DataFrame :=
  mkDF (tagged_columns sample_columns)
       [tag_row 1700000000000000 "numeric_range_violation" (crowded_row id)].

Definition sample_run_id : string := "20231114_221320".

Definition sample_dlq_path : string :=
  "s3://bucket/dead-letter-queue/taxi/year=2023/month=11/run_id=20231114_221320/".


(** A computation that leaves the state as it found it, also when it
    raises. *)
Definition stateless {A} (m : M A) : Prop := forall st, (m st).1 = st.

(** ** The five rules of [DataQualityChecker], one by one

    Names for the rules, the conditions each one tests, and what these
    conditions say of a record. *)

(** The five rules of [run_all_checks], in its order, with the bounds it
    passes; [run_rule] is the method each one names. *)
Inductive Rule : Type :=
| NullRule | RangeRule | DatetimeRule | DurationRule | TipRule.

Global Instance Rule_eq_dec : EqDecision Rule.
Proof. solve_decision. Defined.

Definition run_rule (rule : Rule) (df : DataFrame)
  : M (DataFrame * DataFrame) :=
  match rule with
  | NullRule => DataQualityChecker.check_null_values df
  | RangeRule => DataQualityChecker.validate_numeric_ranges df
  | DatetimeRule => DataQualityChecker.validate_datetime_logic df
  | DurationRule => DataQualityChecker.validate_trip_duration df 1 300
  | TipRule => DataQualityChecker.validate_tip_percentage df 100
  end.

Definition rule_reason (rule : Rule) : string :=
  match rule with
  | NullRule => "null_in_required_field"
  | RangeRule => "numeric_range_violation"
  | DatetimeRule => "invalid_datetime_sequence"
  | DurationRule => "invalid_trip_duration"
  | TipRule => "invalid_tip_percentage"
  end.

Definition rule_metric (rule : Rule) : string :=
  match rule with
  | NullRule => "null_violations"
  | RangeRule => "range_violations"
  | DatetimeRule => "datetime_violations"
  | DurationRule => "duration_violations"
  | TipRule => "tip_percentage_violations"
  end.

(** The condition a rule keeps a record as valid by, and the one it
    rejects it by; [None] when the rule skips the batch. *)
Definition rule_conditions (rule : Rule) (df : DataFrame)
  : option (Column * Column) :=
  match rule with
  | NullRule =>
      match DataQualityChecker.null_condition_of
              DataQualityChecker.REQUIRED_FIELDS df with
      | Some c => Some ((.~ c)%col, c)
      | None => None
      end
  | RangeRule =>
      let c := DataQualityChecker.range_condition_of
                 DataQualityChecker.NUMERIC_RANGES df in
      Some (c, (.~ c)%col)
  | DatetimeRule =>
      if negb (has_column df "tpep_pickup_datetime")
         || negb (has_column df "tpep_dropoff_datetime")
      then None
      else
        let c := (col "tpep_dropoff_datetime"
                  .> col "tpep_pickup_datetime")%col in
        Some (c, (.~ c)%col)
  | DurationRule =>
      if negb (has_column df "trip_duration_minutes") then None
      else
        let c := (col "trip_duration_minutes" .>= num 1
                  .& col "trip_duration_minutes" .<= num 300)%col in
        Some (c, (.~ c)%col)
  | TipRule =>
      if negb (has_column df "tip_percentage") then None
      else
        let c := (col "tip_percentage" .>= num 0
                  .& col "tip_percentage" .<= num 100)%col in
        Some (c, (.~ c)%col)
  end.

(** [in_range r f lo hi]: the cell [f] of [r] is a number of [lo, hi];
    [out_of_range]: it is a number outside. A NULL is neither. *)
Definition in_range (r : Row) (f : string) (lo hi : Q) : Prop :=
  exists v, row_get r f = VNum v /\ (lo <= v)%Q /\ (v <= hi)%Q.

Definition out_of_range (r : Row) (f : string) (lo hi : Q) : Prop :=
  exists v, row_get r f = VNum v /\ ((v < lo)%Q \/ (hi < v)%Q).

(** A record all of whose range-checked cells are within their ranges,
    and one with such a cell outside its range; only the configured fields
    that are columns of the batch are checked. *)
Definition all_in_range (df : DataFrame) (r : Row) : Prop :=
  Forall (fun x => x.1 ∈ columns df -> in_range r x.1 x.2.1 x.2.2)
         DataQualityChecker.NUMERIC_RANGES.

Definition some_out_of_range (df : DataFrame) (r : Row) : Prop :=
  Exists (fun x => x.1 ∈ columns df /\ out_of_range r x.1 x.2.1 x.2.2)
         DataQualityChecker.NUMERIC_RANGES.

(** A record with a NULL in a required field that is a column of the
    batch. *)
Definition has_null_required (df : DataFrame) (r : Row) : Prop :=
  Exists (fun f => f ∈ columns df /\ row_get r f = VNull)
         DataQualityChecker.REQUIRED_FIELDS.

(** The dropoff compares greater than the pickup. *)
Definition dropoff_after_pickup (r : Row) : Prop :=
  sql_compare (row_get r "tpep_dropoff_datetime")
              (row_get r "tpep_pickup_datetime") = Some Gt.

(** What the five rules, in a batch with the columns of [df], ask of a
    record to let it through; a rule whose columns are missing asks
    nothing. *)
Record accepted_clean (df : DataFrame) (r : Row) : Prop := {
  clean_required : ~ has_null_required df r;
  clean_ranges : all_in_range df r;
  clean_datetime :
    "tpep_pickup_datetime" ∈ columns df ->
    "tpep_dropoff_datetime" ∈ columns df -> dropoff_after_pickup r;
  clean_duration :
    "trip_duration_minutes" ∈ columns df ->
    in_range r "trip_duration_minutes" 1 300;
  clean_tip :
    "tip_percentage" ∈ columns df -> in_range r "tip_percentage" 0 100
}.

(** The metrics after some rules have run on a fresh checker: only their
    keys are set, and the counts add up to [total]. *)
Definition metrics_account (done : list Rule) (m : gmap string Z)
    (total : Z) : Prop :=
  metrics_sum m = total /\
  forall k, is_Some (m !! k) -> exists r, r ∈ done /\ k = rule_metric r.



(** ** The driver, record by record *)

(** A cell holding a number above zero. *)
Definition positive (r : Row) (f : string) : Prop :=
  exists v, row_get r f = VNum v /\ (0 < v)%Q.

(** What [filter_invalid_records] keeps. *)
Record passes_basic_filter (r : Row) : Prop := {
  basic_distance : positive r "trip_distance";
  basic_fare : positive r "fare_amount";
  basic_passengers : positive r "passenger_count";
  basic_order : dropoff_after_pickup r
}.

(** One check of the driver, read off its two conditions ([None]: the
    check is skipped): the batch it passes on and the batch it rejects. *)
Definition check_step (now : Z) (conds : option (Column * Column))
    (reason : string) (d v i : DataFrame) : Prop :=
  match conds with
  | None => v = d /\ i = mkDF (columns d) []
  | Some (vc, ic) =>
      v = mkDF (columns d) (List.filter (keeps now vc) (rows d)) /\
      i = mkDF (tagged_columns (columns d))
            (map (tag_row now reason) (List.filter (keeps now ic) (rows d)))
  end.

(** The four checks of [run_data_quality_checks], in its order, and the
    conditions each one keeps and rejects a record by. *)
Inductive Check : Type :=
| NullCheck | RangeCheck | DurationCheck | TipCheck.

Definition driver_conditions (k : Check) (df : DataFrame)
  : option (Column * Column) :=
  match k with
  | NullCheck =>
      match DataQualityChecker.null_condition_of
              glue_etl_job.required_fields df with
      | Some c => Some ((.~ c)%col, c)
      | None => None
      end
  | RangeCheck =>
      Some (glue_etl_job.range_condition,
            (.~ glue_etl_job.range_condition)%col)
  | DurationCheck =>
      if has_column df "trip_duration_minutes"
      then Some (glue_etl_job.duration_condition,
                 (.~ glue_etl_job.duration_condition)%col)
      else None
  | TipCheck =>
      if has_column df "tip_percentage"
      then Some (glue_etl_job.tip_condition,
                 (.~ glue_etl_job.tip_condition)%col)
      else None
  end.

(** The columns the range check of the driver names. *)
Definition range_columns : list string :=
  ["passenger_count"; "trip_distance"; "fare_amount"].

(** What the four checks of the driver ask of a record to let it
    through, in a batch with the columns of [df]. *)
Record driver_clean (df : DataFrame) (r : Row) : Prop := {
  driver_required :
    ~ Exists (fun f => f ∈ columns df /\ row_get r f = VNull)
        glue_etl_job.required_fields;
  driver_passengers : in_range r "passenger_count" 1 6;
  driver_distance : in_range r "trip_distance" (1 # 10) 100;
  driver_fare : in_range r "fare_amount" (1 # 100) 500;
  driver_duration :
    "trip_duration_minutes" ∈ columns df ->
    in_range r "trip_duration_minutes" 1 300;
  driver_tip :
    "tip_percentage" ∈ columns df -> in_range r "tip_percentage" 0 100
}.


(** The columns [add_derived_columns] reads. *)
Definition derive_inputs : list string :=
  [ "tpep_dropoff_datetime"; "tpep_pickup_datetime"; "fare_amount";
    "tip_amount" ].

(** The columns of [df.withColumn(name, ..)]. *)
Definition add_column (cols : list string) (name : string) : list string :=
  if bool_decide (name ∈ cols) then cols else cols ++ [name].




(** ** What the writers store *)

(** The records held by a list of batches, in order. *)
Definition all_rows (invs : list DataFrame) : list Row :=
  concat (map rows invs).

Definition rows_opt (o : option DataFrame) : list Row :=
  match o with Some d => rows d | None => [] end.

(** [y] is the record [x] as a writer stores it: stamped with the run
    identifier, its cells under the names of [cols] as they were. *)
Definition stamped (cols : list string) (run_id : string) (x y : Row)
  : Prop :=
  rid y = rid x /\
  row_get y "run_id" = VStr run_id /\
  forall n, n ∈ cols -> n <> "run_id" -> row_get y n = row_get x n.

(** The combining loop of the writer of [DataQualityChecker], on batches
    with as many columns each. *)
Definition combine_by_position (acc : option DataFrame) (d : DataFrame)
  : option DataFrame :=
  if 0 <? count d then
    Some (match acc with
          | None => d
          | Some c =>
              mkDF (columns c)
                (rows c ++ map (rename_row (columns d) (columns c)) (rows d))
          end)
  else acc.

(** [y] holds what [x] holds under the names of [cols]. *)
Definition same_on (cols : list string) (x y : Row) : Prop :=
  rid y = rid x /\ forall n, n ∈ cols -> row_get y n = row_get x n.

(** ** More sample data *)

(** A batch of three records: a clean one, one with 10 passengers and one
    without dropoff time. *)
Definition mixed_batch : DataFrame :=
  mkDF sample_columns [clean_row 1; crowded_row 2; null_dropoff_row 3].

(** The same batch after [add_derived_columns], and what
    [filter_invalid_records] keeps of it. *)
Definition derived_batch : DataFrame :=
  run_value (mkDF [] [])
    (glue_etl_job.add_derived_columns mixed_batch initial_state).

Definition filtered_batch : DataFrame :=
  run_value (mkDF [] [])
    (glue_etl_job.filter_invalid_records derived_batch initial_state).

(** * Properties *)

(** ** Double arithmetic on examples

    [fl] agrees with the binary64 arithmetic of the source's run time:
    1/3*100 is 33.33333333333333 (not 100/3), 0.1 is the double above one
    tenth, a tie goes to the even neighbour, what is below half the
    smallest subnormal is zero, and the largest finite double is the last
    number before the infinity. *)

Lemma fl_one_third_times_100 :
  double_mul (double_div 1 3) 100
  = (2345624805922133 # 70368744177664)%Q.
Proof. vm_compute. reflexivity. Qed.

Lemma fl_examples :
  fl (1 # 10) = (3602879701896397 # 36028797018963968)%Q /\
  fl (inject_Z (2 ^ 53 + 1)) = inject_Z (2 ^ 53) /\
  fl (inject_Z (2 ^ 53 + 3)) = inject_Z (2 ^ 53 + 4) /\
  fl (pow2 (-1075)) = 0%Q /\
  fl (- (3 # 2) * pow2 (-1074)) = Qred (- pow2 (-1073)) /\
  fl (pow2 1024 - pow2 971) = Qred (pow2 1024 - pow2 971) /\
  fl (pow2 1024 - pow2 970) = pow2 1024.
Proof. vm_compute. repeat split. Qed.

(** A quotient below half the smallest subnormal is zero: a tip of
    [-5e-324] on a fare of 500 gives the percentage 0, not a negative
    number. *)
Lemma tiny_tip_underflows :
  double_mul (double_div (- pow2 (-1074)) 500) 100 = 0%Q.
Proof. vm_compute. reflexivity. Qed.

(** Whole numbers up to [2^53] are doubles, so the difference of two Unix
    times, which Spark computes on longs, is the same taken on doubles. *)

Lemma round_half_even_whole (x : Q) (z : Z) :
  (x == inject_Z z)%Q -> round_half_even x = z.
Proof.
  intros H. unfold round_half_even.
  assert (F : Qfloor x = z) by (rewrite H; apply Qfloor_Z).
  rewrite F.
  assert (C : (x - inject_Z z ?= 1 # 2)%Q = Lt).
  { apply (proj1 (Qlt_alt _ _)). rewrite H.
    assert (E : (inject_Z z - inject_Z z == 0)%Q) by ring.
    rewrite E. reflexivity. }
  rewrite C. reflexivity.
Qed.

Lemma pow2_nonneg_exp e : 0 <= e -> pow2 e = inject_Z (2 ^ e).
Proof. intros H. unfold pow2. apply Z.leb_le in H. rewrite H. reflexivity. Qed.

Lemma pow2_neg_exp e : e < 0 -> (pow2 e * inject_Z (2 ^ (- e)) == 1)%Q.
Proof.
  intros H. unfold pow2. apply Z.leb_gt in H as H'. rewrite H'.
  unfold Qeq, Qmult, inject_Z; cbn [Qnum Qden].
  rewrite Pos.mul_1_r, Z.mul_1_l, Z.mul_1_r, Z.mul_1_l.
  symmetry. apply Z2Pos.id. apply Z.pow_pos_nonneg; lia.
Qed.

Lemma fl_whole_pos n : 0 < n <= 2 ^ 53 -> fl (inject_Z n) = inject_Z n.
Proof.
  intros [Hpos Hle].
  unfold fl.
  assert (Hz : Qeq_bool (inject_Z n) 0 = false).
  { apply not_true_is_false. intros E. apply Qeq_bool_eq in E.
    unfold Qeq, inject_Z in E; simpl in E. lia. }
  rewrite Hz.
  assert (Ha : Qabs (inject_Z n) = inject_Z n).
  { unfold Qabs, inject_Z. rewrite Z.abs_eq by lia. reflexivity. }
  rewrite Ha.
  assert (Hs : Qle_bool 0 (inject_Z n) = true).
  { apply Qle_bool_iff. unfold Qle, inject_Z; simpl. lia. }
  rewrite Hs.
  set (L := Z.log2 n).
  assert (HL : 0 <= L) by apply Z.log2_nonneg.
  destruct (Z.log2_spec n Hpos) as [Hlo Hhi]. fold L in Hlo, Hhi.
  assert (HL53 : L <= 53).
  { destruct (Z_le_gt_dec L 53) as [|G]; [assumption|].
    assert (2 ^ 54 <= 2 ^ L) by (apply Z.pow_le_mono_r; lia).
    assert (2 ^ 53 < 2 ^ 54) by (apply Z.pow_lt_mono_r; lia). lia. }
  assert (Hb : binade (inject_Z n) = L).
  { unfold binade, inject_Z; simpl Qnum; simpl Qden.
    change (Z.log2 1) with 0. rewrite Z.sub_0_r. fold L.
    rewrite pow2_nonneg_exp by exact HL.
    assert (E : Qle_bool (inject_Z (2 ^ L)) (n # 1) = true).
    { apply Qle_bool_iff. unfold Qle, inject_Z; simpl. lia. }
    rewrite E. reflexivity. }
  rewrite Hb.
  rewrite Z.max_l by lia.
  set (e := L - 52).
  assert (Hr : (inject_Z (round_half_even (inject_Z n / pow2 e)) * pow2 e
                == inject_Z n)%Q).
  { destruct (Z_lt_le_dec e 1) as [Hlt|Hge].
    - destruct (Z_lt_le_dec e 0) as [Hneg|Hnn].
      + pose proof (pow2_neg_exp e Hneg) as Hp.
        assert (Hq : (inject_Z n / pow2 e == inject_Z (n * 2 ^ (- e)))%Q).
        { assert (Hnz : ~ (pow2 e == 0)%Q).
          { intros Z0. rewrite Z0 in Hp. discriminate Hp. }
          assert (Hc : (inject_Z (2 ^ (- e)) == / pow2 e)%Q).
          { transitivity ((pow2 e * inject_Z (2 ^ (- e))) / pow2 e)%Q.
            - field. exact Hnz.
            - rewrite Hp. field. exact Hnz. }
          rewrite inject_Z_mult, Hc. reflexivity. }
        rewrite (round_half_even_whole _ _ Hq).
        rewrite inject_Z_mult. rewrite <- Qmult_assoc.
        rewrite (Qmult_comm (inject_Z (2 ^ (- e)))). rewrite Hp. ring.
      + assert (e = 0) by lia. subst e. rewrite H.
        change (pow2 0) with 1%Q.
        rewrite (round_half_even_whole (inject_Z n / 1) n) by (field).
        ring.
    - assert (e = 1) by (unfold e in *; lia).
      assert (Hn : n = 2 ^ 53).
      { assert (L = 53) by (unfold e in *; lia). subst L. rewrite H0 in Hlo. lia. }
      rewrite H, Hn. vm_compute. reflexivity. }
  set (r := (inject_Z (round_half_even (inject_Z n / pow2 e)) * pow2 e)%Q)
    in *.
  assert (Hov : Qle_bool (pow2 1024) r = false).
  { apply not_true_is_false. intros E. apply Qle_bool_iff in E.
    rewrite Hr in E. rewrite pow2_nonneg_exp in E by lia.
    unfold Qle, inject_Z in E; simpl Qnum in E; simpl Qden in E.
    assert (2 ^ 53 < 2 ^ 1024) by (apply Z.pow_lt_mono_r; lia). lia. }
  rewrite Hov.
  rewrite (Qred_complete _ _ Hr).
  apply Qred_identity. simpl. apply Z.gcd_1_r.
Qed.

Lemma fl_opp q : fl (- q) = (- fl q)%Q.
Proof.
  unfold fl.
  destruct (Qeq_bool q 0) eqn:Hz.
  - assert (E : Qeq_bool (- q) 0 = true).
    { apply Qeq_bool_iff. apply Qeq_bool_iff in Hz. rewrite Hz. reflexivity. }
    rewrite E. reflexivity.
  - assert (E : Qeq_bool (- q) 0 = false).
    { apply not_true_is_false. intros T. apply Qeq_bool_iff in T.
      apply (f_equal negb) in Hz. simpl in Hz.
      apply negb_true_iff in Hz. apply not_true_iff_false in Hz. apply Hz.
      apply Qeq_bool_iff.
      assert (K : (q == - - q)%Q) by ring. rewrite K, T. reflexivity. }
    rewrite E.
    assert (Ha : Qabs (- q) = Qabs q).
    { destruct q as [n d]. unfold Qabs, Qopp; simpl. rewrite Z.abs_opp.
      reflexivity. }
    rewrite Ha.
    assert (Hq : ~ (q == 0)%Q).
    { intros T. apply Qeq_bool_iff in T. congruence. }
    destruct (Qle_bool 0 q) eqn:Hs.
    + assert (Hn : Qle_bool 0 (- q) = false).
      { apply not_true_is_false. intros T. apply Qle_bool_iff in T, Hs.
        apply Hq. apply Qle_antisym; [|exact Hs].
        apply Qopp_le_compat in T. rewrite Qopp_involutive in T.
        exact T. }
      rewrite Hn. apply Qred_opp.
    + assert (Hn : Qle_bool 0 (- q) = true).
      { apply Qle_bool_iff. apply not_true_iff_false in Hs.
        destruct (Qlt_le_dec q 0) as [L|G].
        - apply Qlt_le_weak in L. apply Qopp_le_compat in L. exact L.
        - exfalso. apply Hs. apply Qle_bool_iff. exact G. }
      rewrite Hn. rewrite Qred_opp.
      destruct (Qred _) as [x y]. unfold Qopp; simpl.
      rewrite Z.opp_involutive. reflexivity.
Qed.

Lemma fl_whole n : Z.abs n <= 2 ^ 53 -> fl (inject_Z n) = inject_Z n.
Proof.
  intros H. destruct (Z.lt_trichotomy n 0) as [Hn|[->|Hp]].
  - replace (inject_Z n) with (- inject_Z (- n))%Q.
    + rewrite fl_opp, fl_whole_pos by lia. reflexivity.
    + unfold Qopp, inject_Z; simpl. rewrite Z.opp_involutive. reflexivity.
  - reflexivity.
  - apply fl_whole_pos. lia.
Qed.

Lemma double_sub_whole a b :
  Z.abs a <= 2 ^ 53 -> Z.abs b <= 2 ^ 53 -> Z.abs (a - b) <= 2 ^ 53 ->
  double_sub (inject_Z a) (inject_Z b) = inject_Z (a - b).
Proof.
  intros Ha Hb Hab. unfold double_sub. rewrite !fl_whole by assumption.
  replace (inject_Z a - inject_Z b)%Q with (inject_Z (a - b)).
  - apply fl_whole. exact Hab.
  - unfold Qminus, Qplus, Qopp, inject_Z; cbn [Qnum Qden].
    rewrite !Z.mul_1_r. reflexivity.
Qed.

Lemma duration_of_unix_times p d :
  Z.abs (seconds_of p) <= 2 ^ 52 -> Z.abs (seconds_of d) <= 2 ^ 52 ->
  double_div (double_sub (inject_Z (seconds_of d)) (inject_Z (seconds_of p)))
    60
  = fl (inject_Z (seconds_of d - seconds_of p) / 60).
Proof.
  intros Hp Hd.
  assert (E : 2 ^ 53 = 2 * 2 ^ 52) by reflexivity.
  rewrite double_sub_whole by lia.
  unfold double_div. rewrite fl_whole by lia.
  change 60%Q with (inject_Z 60). rewrite (fl_whole 60) by (vm_compute; discriminate).
  reflexivity.
Qed.

(** ** The monad *)

Lemma bind_Ok_inv {A B} (m : M A) (k : A -> M B) st st' b :
  bind m k st = (st', Ok b) ->
  exists st1 a, m st = (st1, Ok a) /\ k a st1 = (st', Ok b).
Proof.
  unfold bind. destruct (m st) as [st1 [a|e]]; intros H.
  - eauto.
  - discriminate.
Qed.

Lemma bind_Ok {A B} (m : M A) (k : A -> M B) st st1 a :
  m st = (st1, Ok a) -> bind m k st = k a st1.
Proof. unfold bind. intros ->. reflexivity. Qed.

(** ** DataFrame operations *)

Lemma df_filter_run c df st :
  df_filter c df st =
  (st, if resolves df c
       then Ok (mkDF (columns df) (List.filter (keeps (clock st) c) (rows df)))
       else Raise (AnalysisException "cannot resolve column")).
Proof. unfold df_filter, bind, datetime_now. destruct (resolves df c); reflexivity. Qed.

Lemma withColumn_run name c df st :
  withColumn name c df st =
  (st, if resolves df c
       then Ok (mkDF (if has_column df name then columns df
                      else columns df ++ [name])
                     (map (set_cell (clock st) name c) (rows df)))
       else Raise (AnalysisException "cannot resolve column")).
Proof. unfold withColumn, bind, datetime_now. destruct (resolves df c); reflexivity. Qed.

Lemma df_filter_Ok c df st st' d :
  df_filter c df st = (st', Ok d) ->
  st' = st /\ resolves df c = true /\
  d = mkDF (columns df) (List.filter (keeps (clock st) c) (rows df)).
Proof.
  rewrite df_filter_run. destruct (resolves df c); intros H; inversion H; auto.
Qed.

Lemma withColumn_Ok name c df st st' d :
  withColumn name c df st = (st', Ok d) ->
  st' = st /\ resolves df c = true /\
  d = mkDF (if has_column df name then columns df else columns df ++ [name])
           (map (set_cell (clock st) name c) (rows df)).
Proof.
  rewrite withColumn_run. destruct (resolves df c); intros H; inversion H; auto.
Qed.

Lemma has_column_true df name : has_column df name = true <-> name ∈ columns df.
Proof. unfold has_column. apply bool_decide_eq_true. Qed.

Lemma has_column_false df name : has_column df name = false <-> name ∉ columns df.
Proof. unfold has_column. apply bool_decide_eq_false. Qed.

Lemma resolves_app df l1 l2 :
  forallb (has_column df) (l1 ++ l2)
  = forallb (has_column df) l1 && forallb (has_column df) l2.
Proof. apply forallb_app. Qed.

Lemma null_condition_resolves fields df c :
  DataQualityChecker.null_condition_of fields df = Some c ->
  resolves df c = true.
Proof.
  unfold DataQualityChecker.null_condition_of.
  assert (G : forall acc : option Column,
             (forall c0, acc = Some c0 -> resolves df c0 = true) ->
             forall c1,
               fold_left
                 (fun null_condition field =>
                    if has_column df field then
                      let field_condition := isNull (col field) in
                      match null_condition with
                      | None => Some field_condition
                      | Some c => Some (c .| field_condition)%col
                      end
                    else null_condition) fields acc = Some c1 ->
               resolves df c1 = true).
  { induction fields as [|f fields IH]; intros acc Hacc c1; simpl.
    - apply Hacc.
    - apply IH. intros c0.
      destruct (has_column df f) eqn:Hf; [|apply Hacc].
      destruct acc as [c2|]; intros [= <-]; unfold resolves; simpl.
      + rewrite resolves_app. simpl. rewrite Hf.
        specialize (Hacc c2 eq_refl). unfold resolves in Hacc.
        rewrite Hacc. reflexivity.
      + rewrite Hf. reflexivity. }
  apply G. intros c0 [=].
Qed.

Lemma range_condition_resolves ranges df :
  resolves df (DataQualityChecker.range_condition_of ranges df) = true.
Proof.
  unfold DataQualityChecker.range_condition_of.
  assert (G : forall acc, resolves df acc = true ->
             resolves df
               (fold_left
                  (fun range_condition '(field, (min_val, max_val)) =>
                     if has_column df field then
                       (range_condition
                        .& (col field .>= num min_val
                            .& col field .<= num max_val))%col
                     else range_condition) ranges acc) = true).
  { induction ranges as [|[f [lo hi]] ranges IH]; intros acc Hacc; simpl.
    - exact Hacc.
    - apply IH. destruct (has_column df f) eqn:Hf; [|exact Hacc].
      unfold resolves in *. simpl. rewrite resolves_app. simpl.
      rewrite Hacc, Hf. reflexivity. }
  apply G. reflexivity.
Qed.

(** What a rule answers when both its conditions resolve. *)
Lemma split_by_run ic vc reason metric df st :
  resolves df ic = true -> resolves df vc = true ->
  split_by ic vc reason metric df st = rule_outcome ic vc reason metric df st.
Proof.
  intros Hi Hv. unfold split_by, rule_outcome, bind.
  rewrite df_filter_run, Hi, !withColumn_run. simpl.
  rewrite df_filter_run, Hv. simpl.
  rewrite map_map. reflexivity.
Qed.

(** ** The five rules, as equations *)

Lemma check_null_values_run df st :
  DataQualityChecker.check_null_values df st =
  match DataQualityChecker.null_condition_of
          DataQualityChecker.REQUIRED_FIELDS df with
  | None => (st, Ok (df, mkDF (columns df) []))
  | Some c =>
      rule_outcome c (.~ c)%col "null_in_required_field" "null_violations"
        df st
  end.
Proof.
  unfold DataQualityChecker.check_null_values.
  destruct (DataQualityChecker.null_condition_of _ df) as [c|] eqn:Hc;
    [|reflexivity].
  apply null_condition_resolves in Hc.
  change (split_by c (.~ c)%col "null_in_required_field" "null_violations"
            df st = rule_outcome c (.~ c)%col "null_in_required_field"
                      "null_violations" df st).
  apply split_by_run; assumption.
Qed.

Lemma validate_numeric_ranges_run df st :
  DataQualityChecker.validate_numeric_ranges df st =
  let c := DataQualityChecker.range_condition_of
             DataQualityChecker.NUMERIC_RANGES df in
  rule_outcome (.~ c)%col c "numeric_range_violation" "range_violations"
    df st.
Proof.
  cbv zeta.
  set (c := DataQualityChecker.range_condition_of _ df).
  change (split_by (.~ c)%col c "numeric_range_violation" "range_violations"
            df st = rule_outcome (.~ c)%col c "numeric_range_violation"
                      "range_violations" df st).
  apply split_by_run; apply range_condition_resolves.
Qed.

Lemma validate_datetime_logic_run df st :
  DataQualityChecker.validate_datetime_logic df st =
  if negb (has_column df "tpep_pickup_datetime")
     || negb (has_column df "tpep_dropoff_datetime")
  then (st, Ok (df, mkDF (columns df) []))
  else
    let c := (col "tpep_dropoff_datetime" .> col "tpep_pickup_datetime")%col in
    rule_outcome (.~ c)%col c "invalid_datetime_sequence"
      "datetime_violations" df st.
Proof.
  unfold DataQualityChecker.validate_datetime_logic.
  destruct (has_column df "tpep_pickup_datetime") eqn:Hp;
    destruct (has_column df "tpep_dropoff_datetime") eqn:Hd;
    simpl; try reflexivity.
  apply split_by_run; unfold resolves; simpl; rewrite Hp, Hd; reflexivity.
Qed.

Lemma validate_trip_duration_run df lo hi st :
  DataQualityChecker.validate_trip_duration df lo hi st =
  if negb (has_column df "trip_duration_minutes")
  then (st, Ok (df, mkDF (columns df) []))
  else
    let c := (col "trip_duration_minutes" .>= num lo
              .& col "trip_duration_minutes" .<= num hi)%col in
    rule_outcome (.~ c)%col c "invalid_trip_duration" "duration_violations"
      df st.
Proof.
  unfold DataQualityChecker.validate_trip_duration.
  destruct (has_column df "trip_duration_minutes") eqn:Hc;
    simpl; try reflexivity.
  apply split_by_run; unfold resolves; simpl; rewrite Hc; reflexivity.
Qed.

Lemma validate_tip_percentage_run df hi st :
  DataQualityChecker.validate_tip_percentage df hi st =
  if negb (has_column df "tip_percentage")
  then (st, Ok (df, mkDF (columns df) []))
  else
    let c := (col "tip_percentage" .>= num 0
              .& col "tip_percentage" .<= num hi)%col in
    rule_outcome (.~ c)%col c "invalid_tip_percentage"
      "tip_percentage_violations" df st.
Proof.
  unfold DataQualityChecker.validate_tip_percentage.
  destruct (has_column df "tip_percentage") eqn:Hc;
    simpl; try reflexivity.
  apply split_by_run; unfold resolves; simpl; rewrite Hc; reflexivity.
Qed.

(** ** Empty input batch *)

(** C10. On the empty batch, once [run_all_checks] has evaluated its rules
    in turn (the two rules on derived columns when the batch has the
    column), it raises ZeroDivisionError when the summary divides the
    rejected count by the initial count, which is zero: it returns neither
    a valid batch nor a list of invalid batches, and it leaves the checker
    as the last rule evaluated left it, with a count of zero under
    [range_violations]. *)
Theorem run_all_checks_empty_batch_raises
    df st s1 v1 i1 s2 v2 i2 s3 v3 i3 s4 v4 i4 s5 v5 i5 :
  rows df = [] ->
  DataQualityChecker.check_null_values df st = (s1, Ok (v1, i1)) ->
  DataQualityChecker.validate_numeric_ranges v1 s1 = (s2, Ok (v2, i2)) ->
  DataQualityChecker.validate_datetime_logic v2 s2 = (s3, Ok (v3, i3)) ->
  (if has_column v3 "trip_duration_minutes"
   then DataQualityChecker.validate_trip_duration v3 1 300 s3
        = (s4, Ok (v4, i4))
   else (s4, v4) = (s3, v3)) ->
  (if has_column v4 "tip_percentage"
   then DataQualityChecker.validate_tip_percentage v4 100 s4
        = (s5, Ok (v5, i5))
   else (s5, v5) = (s4, v4)) ->
  DataQualityChecker.run_all_checks df st = (s5, Raise ZeroDivisionError) /\
  quality_metrics s5 !! "range_violations" = Some 0.
Proof.
  intros Hrows H1 H2 H3 H4 H5. split.
  - unfold DataQualityChecker.run_all_checks.
    assert (Hc : count df = 0) by (unfold count; rewrite Hrows; reflexivity).
    rewrite Hc.
    rewrite (bind_Ok _ _ _ _ _ H1). cbn [fst snd].
    rewrite (bind_Ok _ _ _ _ _ H2). cbn [fst snd].
    rewrite (bind_Ok _ _ _ _ _ H3). cbn [fst snd].
    unfold bind at 1.
    destruct (has_column v3 "trip_duration_minutes").
    + rewrite (bind_Ok _ _ _ _ _ H4). unfold ret at 1. cbn [fst snd].
      unfold bind at 1.
      destruct (has_column v4 "tip_percentage").
      * rewrite (bind_Ok _ _ _ _ _ H5). reflexivity.
      * injection H5 as -> ->. reflexivity.
    + injection H4 as -> ->. unfold ret at 1. cbn [fst snd].
      unfold bind at 1.
      destruct (has_column v3 "tip_percentage").
      * rewrite (bind_Ok _ _ _ _ _ H5). reflexivity.
      * injection H5 as -> ->. reflexivity.
  - assert (E1 : rows v1 = []).
    { rewrite check_null_values_run in H1.
      destruct (DataQualityChecker.null_condition_of _ df);
        unfold rule_outcome in H1; injection H1 as _ <- _;
        cbn [rows]; rewrite ?Hrows; reflexivity. }
    rewrite validate_numeric_ranges_run in H2. unfold rule_outcome in H2.
    rewrite E1 in H2. cbn [List.filter map] in H2.
    injection H2 as <- Hv2 <-.
    assert (K3 : quality_metrics s3 !! "range_violations" = Some 0).
    { rewrite validate_datetime_logic_run in H3.
      destruct (_ || _); unfold rule_outcome in H3; injection H3 as <- _ _;
        cbn [quality_metrics with_metric].
      - apply lookup_insert_eq.
      - rewrite lookup_insert_ne by discriminate. apply lookup_insert_eq. }
    assert (K4 : quality_metrics s4 !! "range_violations" = Some 0).
    { destruct (has_column v3 "trip_duration_minutes") eqn:Hd.
      - rewrite validate_trip_duration_run, Hd in H4. cbn [negb] in H4.
        unfold rule_outcome in H4. injection H4 as <- _ _.
        cbn [quality_metrics with_metric].
        rewrite lookup_insert_ne by discriminate. exact K3.
      - injection H4 as -> _. exact K3. }
    destruct (has_column v4 "tip_percentage") eqn:Ht.
    + rewrite validate_tip_percentage_run, Ht in H5. cbn [negb] in H5.
      unfold rule_outcome in H5. injection H5 as <- _ _.
      cbn [quality_metrics with_metric].
      rewrite lookup_insert_ne by discriminate. exact K4.
    + injection H5 as -> _. exact K4.
Qed.

Lemma run_all_checks_empty_batch_raises_witness :
  let df := mkDF (sample_columns
                  ++ ["trip_duration_minutes"; "tip_percentage"]) [] in
  let o1 := DataQualityChecker.check_null_values df initial_state in
  let p1 := run_value (df, df) o1 in
  let o2 := DataQualityChecker.validate_numeric_ranges p1.1 o1.1 in
  let p2 := run_value (df, df) o2 in
  let o3 := DataQualityChecker.validate_datetime_logic p2.1 o2.1 in
  let p3 := run_value (df, df) o3 in
  let o4 := DataQualityChecker.validate_trip_duration p3.1 1 300 o3.1 in
  let p4 := run_value (df, df) o4 in
  let o5 := DataQualityChecker.validate_tip_percentage p4.1 100 o4.1 in
  DataQualityChecker.run_all_checks df initial_state
  = (o5.1, Raise ZeroDivisionError) /\
  quality_metrics o5.1 !! "range_violations" = Some 0.
Proof.
  intros df o1 p1 o2 p2 o3 p3 o4 p4 o5.
  apply (run_all_checks_empty_batch_raises df initial_state
           o1.1 p1.1 p1.2 o2.1 p2.1 p2.2 o3.1 p3.1 p3.2 o4.1 p4.1 p4.2
           o5.1 (run_value (df, df) o5).1 (run_value (df, df) o5).2).
  - reflexivity.
  - vm_compute. reflexivity.
  - vm_compute. reflexivity.
  - vm_compute. reflexivity.
  - vm_compute. reflexivity.
  - vm_compute. reflexivity.
Defined.

(** ** Rules whose derived column is missing *)

(** C8. Without its derived column a rule is skipped: the input batch comes
    back unchanged as the valid batch, the invalid batch is empty, and the
    state (so the quality metrics) is left as it was: no count is recorded
    for the rule. *)
Theorem derived_rule_skipped_without_column :
  (forall df min_minutes max_minutes st,
      "trip_duration_minutes" ∉ columns df ->
      DataQualityChecker.validate_trip_duration df min_minutes max_minutes st
      = (st, Ok (df, mkDF (columns df) []))) /\
  (forall df max_percentage st,
      "tip_percentage" ∉ columns df ->
      DataQualityChecker.validate_tip_percentage df max_percentage st
      = (st, Ok (df, mkDF (columns df) []))).
Proof.
  split.
  - intros df lo hi st H. apply has_column_false in H.
    rewrite validate_trip_duration_run, H. reflexivity.
  - intros df hi st H. apply has_column_false in H.
    rewrite validate_tip_percentage_run, H. reflexivity.
Qed.

Lemma derived_rule_skipped_without_column_witness :
  let df := mkDF sample_columns [clean_row 1; null_tip_row 2] in
  DataQualityChecker.validate_trip_duration df 1 300 initial_state
  = (initial_state, Ok (df, mkDF (columns df) [])) /\
  DataQualityChecker.validate_tip_percentage df 100 initial_state
  = (initial_state, Ok (df, mkDF (columns df) [])) /\
  quality_metrics initial_state !! "duration_violations" = None /\
  quality_metrics initial_state !! "tip_percentage_violations" = None.
Proof.
  intros df. split; [|split; [|split; reflexivity]].
  - apply (proj1 derived_rule_skipped_without_column df 1%Q 300%Q
             initial_state).
    apply (proj1 (has_column_false df _)). reflexivity.
  - apply (proj2 derived_rule_skipped_without_column df 100%Q initial_state).
    apply (proj1 (has_column_false df _)). reflexivity.
Defined.

(** ** The dead-letter-queue writers *)

Lemma all_empty_Forall invalid_dfs :
  DataQualityChecker.all_empty invalid_dfs = true <->
  Forall (fun d => count d = 0) invalid_dfs.
Proof.
  unfold DataQualityChecker.all_empty.
  induction invalid_dfs as [|d l IH]; simpl.
  - split; [constructor | reflexivity].
  - rewrite andb_true_iff, IH, Z.eqb_eq. split.
    + intros [H1 H2]. constructor; assumption.
    + intros H. inversion H; subst. auto.
Qed.

Lemma nothing_to_write invalid_dfs :
  invalid_dfs = [] \/ Forall (fun d => count d = 0) invalid_dfs ->
  bool_decide (invalid_dfs = []) || DataQualityChecker.all_empty invalid_dfs
  = true.
Proof.
  intros [->|H]; [reflexivity|].
  apply all_empty_Forall in H. rewrite H. apply orb_true_r.
Qed.

(** C4. Given no invalid batch, or only batches without records, neither
    writer issues a write: the list of write calls that reached the store
    and the store itself are as before, and the call returns normally. *)
Theorem no_write_on_empty invalid_dfs bucket_name run_id opt_run_id st :
  invalid_dfs = [] \/ Forall (fun d => count d = 0) invalid_dfs ->
  let out := glue_etl_job.write_to_dead_letter_queue invalid_dfs bucket_name
               run_id st in
  let out' := DataQualityChecker.write_to_dead_letter_queue bucket_name
                invalid_dfs opt_run_id st in
  (out.2 = Ok tt /\ s3_writes out.1 = s3_writes st /\ s3 out.1 = s3 st) /\
  (out'.2 = Ok tt /\ s3_writes out'.1 = s3_writes st /\ s3 out'.1 = s3 st).
Proof.
  intros H. apply nothing_to_write in H.
  unfold glue_etl_job.write_to_dead_letter_queue,
    DataQualityChecker.write_to_dead_letter_queue.
  rewrite H. simpl. auto.
Qed.

Lemma no_write_on_empty_witness :
  let invalid_dfs :=
    [mkDF sample_columns []; mkDF (tagged_columns sample_columns) []] in
  let out := glue_etl_job.write_to_dead_letter_queue invalid_dfs "bucket"
               "20231114_221320" initial_state in
  let out' := DataQualityChecker.write_to_dead_letter_queue "bucket"
                invalid_dfs None initial_state in
  (out.2 = Ok tt /\ s3_writes out.1 = [] /\ s3 out.1 = ∅) /\
  (out'.2 = Ok tt /\ s3_writes out'.1 = [] /\ s3 out'.1 = ∅).
Proof.
  apply (no_write_on_empty
           [mkDF sample_columns []; mkDF (tagged_columns sample_columns) []]
           "bucket" "20231114_221320" None initial_state).
  right. repeat constructor.
Defined.

(** ** Derived columns *)

Lemma withColumn_resolved name c df st :
  resolves df c = true ->
  withColumn name c df st = (st, Ok (with_col (clock st) name c df)).
Proof. intros H. rewrite withColumn_run, H. reflexivity. Qed.

Lemma has_column_with_col now name c df x :
  has_column df x = true -> has_column (with_col now name c df) x = true.
Proof.
  rewrite !has_column_true. unfold with_col; simpl.
  destruct (has_column df name); [auto|]. intros H.
  apply elem_of_app. left. exact H.
Qed.

Lemma resolves_with_col now name c' df c :
  resolves df c = true -> resolves (with_col now name c' df) c = true.
Proof.
  unfold resolves. rewrite !forallb_forall. intros H x Hx.
  apply has_column_with_col. apply H. exact Hx.
Qed.

Lemma row_get_set_cell now name c r x :
  row_get (set_cell now name c r) x
  = if String.eqb name x then eval now r c else row_get r x.
Proof.
  unfold row_get, set_cell; simpl.
  destruct (String.eqb_spec name x) as [->|Hne].
  - rewrite lookup_insert_eq. reflexivity.
  - rewrite lookup_insert_ne by exact Hne. reflexivity.
Qed.

Lemma Qgt_compare (f : Q) : (f ?= 0)%Q = Gt <-> (0 < f)%Q.
Proof. symmetry. apply Qgt_alt. Qed.

Local Arguments fl : simpl never.
Local Arguments double_sub : simpl never.
Local Arguments double_mul : simpl never.
Local Arguments double_div : simpl never.

Lemma derive_row_ok now r : derived_ok r (derive_row now r).
Proof.
  unfold derive_row. constructor.
  - reflexivity.
  - intros p d Hp Hd. rewrite !row_get_set_cell. simpl.
    rewrite Hp, Hd. reflexivity.
  - intros H. rewrite !row_get_set_cell. simpl.
    destruct H as [H|H]; rewrite H; simpl.
    + destruct (sql_unix_timestamp _); reflexivity.
    + reflexivity.
  - intros f t Hf Hpos Ht. rewrite !row_get_set_cell. simpl.
    rewrite !row_get_set_cell. simpl. rewrite Hf, Ht. simpl.
    unfold sql_gt; simpl sql_compare.
    apply Qgt_compare in Hpos as Hcmp. rewrite Hcmp. simpl.
    destruct (Qeq_bool f 0) eqn:Hz; [|reflexivity].
    apply Qeq_bool_eq in Hz. rewrite Hz in Hpos.
    exfalso. revert Hpos. apply Qlt_irrefl.
  - intros f Hf Hpos Ht. rewrite !row_get_set_cell. simpl.
    rewrite !row_get_set_cell. simpl. rewrite Hf, Ht. simpl.
    unfold sql_gt; simpl sql_compare.
    apply Qgt_compare in Hpos as Hcmp. rewrite Hcmp. reflexivity.
  - intros f Hf Hneg. rewrite !row_get_set_cell. simpl.
    rewrite !row_get_set_cell. simpl. rewrite Hf.
    unfold sql_gt; simpl sql_compare.
    destruct (f ?= 0)%Q eqn:Hcmp; try reflexivity.
    apply Qgt_compare in Hcmp. contradiction.
  - intros Hf. rewrite !row_get_set_cell. simpl.
    rewrite !row_get_set_cell. simpl. rewrite Hf. reflexivity.
  - intros name Hname. rewrite !row_get_set_cell.
    unfold derived_names in Hname.
    repeat match goal with
    | |- context [String.eqb ?a name] =>
        destruct (String.eqb_spec a name) as [<-|_];
        [exfalso; apply Hname; repeat constructor|]
    end.
    reflexivity.
Qed.




(** ** Where records go: the driver's checks and its writer *)

Lemma within_filter l c now cols rs :
  within l (mkDF cols rs) -> within l (mkDF cols (List.filter (keeps now c) rs)).
Proof.
  unfold within, rids; simpl. intros H n Hn. apply H.
  apply list_elem_of_fmap in Hn as (r & -> & Hr).
  apply list_elem_of_fmap. exists r. split; [reflexivity|].
  apply list_elem_of_In in Hr. apply filter_In in Hr as [Hr _].
  apply list_elem_of_In. exact Hr.
Qed.

Lemma rids_with_col now name c df : rids (with_col now name c df) = rids df.
Proof. unfold rids, with_col; simpl. rewrite map_map. reflexivity. Qed.

Lemma df_filter_within c df st st' d :
  df_filter c df st = (st', Ok d) ->
  st' = st /\ columns d = columns df /\ forall l, within l df -> within l d.
Proof.
  intros H. apply df_filter_Ok in H as (-> & _ & ->). split; [reflexivity|].
  split; [reflexivity|]. intros l. destruct df. apply within_filter.
Qed.

Lemma withColumn_within name c df st st' d :
  withColumn name c df st = (st', Ok d) ->
  st' = st /\ forall l, within l df -> within l d.
Proof.
  intros H. apply withColumn_Ok in H as (-> & _ & ->). split; [reflexivity|].
  intros l. unfold within.   fold (with_col (clock st) name c df). rewrite rids_with_col. auto.
Qed.


Lemma py_div_Ok a b st st' q : py_div a b st = (st', Ok q) -> st' = st.
Proof. unfold py_div. destruct (b =? 0); intros H; inversion H. reflexivity. Qed.

Ltac minv :=
  repeat match goal with
  | H : bind _ _ _ = (_, Ok _) |- _ =>
      let s := fresh "s" in let a := fresh "a" in let Ha := fresh "Ha" in
      apply bind_Ok_inv in H as (s & a & Ha & H)
  | H : ret _ _ = (_, Ok _) |- _ => unfold ret in H; inversion H; subst; clear H
  | H : df_filter _ _ _ = (_, Ok _) |- _ =>
      let W := fresh "W" in let C := fresh "C" in
      apply df_filter_within in H as (-> & C & W)
  | H : withColumn _ _ _ _ = (_, Ok _) |- _ =>
      let W := fresh "W" in
      apply withColumn_within in H as (-> & W)
  | H : py_div _ _ _ = (_, Ok _) |- _ => apply py_div_Ok in H as ->
  | H : (if ?b then _ else _) _ = (_, Ok _) |- _ => destruct b
  | H : (match ?o with Some _ => _ | None => _ end) _ = (_, Ok _) |- _ =>
      destruct o
  end.

Lemma within_refl df : within (rids df) df.
Proof. unfold within. reflexivity. Qed.

Lemma append_if_any_Forall (P : DataFrame -> Prop) l d :
  Forall P l -> P d -> Forall P (glue_etl_job.append_if_any l d).
Proof.
  intros Hl Hd. unfold glue_etl_job.append_if_any. destruct (0 <? count d); [|assumption].
  apply Forall_app. split; [assumption|]. constructor; [assumption|constructor].
Qed.

Lemma run_data_quality_checks_within df bucket run_id st st' acc invs :
  glue_etl_job.run_data_quality_checks df bucket run_id st = (st', Ok (acc, invs)) ->
  st' = st /\ within (rids df) acc /\ Forall (within (rids df)) invs.
Proof.
  unfold glue_etl_job.run_data_quality_checks. intros H.
  minv; simpl in *; (split; [reflexivity|]); split;
    repeat apply append_if_any_Forall; try apply Forall_nil;
    eauto 20 using within_refl.
Qed.


Lemma glue_combine_run invs : forall acc st,
  foldM glue_etl_job.combine_step invs acc st
  = (st, Ok (fold_left combine_by_name invs acc)).
Proof.
  induction invs as [|d invs IH]; intros acc st; simpl; [reflexivity|].
  unfold bind.
  assert (E : glue_etl_job.combine_step acc d st = (st, Ok (combine_by_name acc d))).
  { unfold glue_etl_job.combine_step, combine_by_name.
    destruct (0 <? count d); [|reflexivity]. destruct acc; reflexivity. }
  rewrite E. apply IH.
Qed.

Lemma combine_by_name_rids invs : forall acc,
  rids_opt (fold_left combine_by_name invs acc) ⊆ rids_opt acc ++ all_rids invs.
Proof.
  induction invs as [|d invs IH]; intros acc; simpl.
  - unfold all_rids; simpl. rewrite app_nil_r. reflexivity.
  - etrans; [apply IH|]. unfold all_rids; simpl. fold (all_rids invs).
    unfold combine_by_name. destruct (0 <? count d).
    + destruct acc as [c|]; simpl.
      * unfold rids, union_by_name; simpl. rewrite map_app, <- app_assoc. reflexivity.
      * reflexivity.
    + intros x Hx. apply elem_of_app in Hx as [Hx|Hx].
      * apply elem_of_app. left. exact Hx.
      * apply elem_of_app. right. apply elem_of_app. right. exact Hx.
Qed.

Local Arguments dlq_path : simpl never.
Local Arguments exn_message : simpl never.

Lemma glue_writer_spec invs b r st :
  exists st',
    glue_etl_job.write_to_dead_letter_queue invs b r st = (st', Ok tt) /\
    clock st' = clock st /\ quality_metrics st' = quality_metrics st /\
    s3_unwritable st' = s3_unwritable st /\
    dlq_outcome st st' (dlq_path b (clock st) r) invs /\
    (s3_writes st' <> s3_writes st -> s3_unwritable st (dlq_path b (clock st) r) = true ->
     exists out, stdout st' = out ++ ["Error writing to DLQ: " +:+ exn_message (S3WriteError (dlq_path b (clock st) r)); "Continuing job execution despite DLQ write failure"]).
Proof.
  unfold glue_etl_job.write_to_dead_letter_queue.
  destruct (bool_decide (invs = []) || DataQualityChecker.all_empty invs).
  { eexists. split; [reflexivity|]. cbn. repeat split; try reflexivity.
    - left. auto.
    - intros H. contradiction. }
  unfold bind at 1. unfold print at 1. cbv beta iota.
  unfold bind at 1. rewrite glue_combine_run.
  pose proof (combine_by_name_rids invs None) as Hr.
  destruct (fold_left combine_by_name invs None) as [c|]; cbn in Hr.
  2:{ eexists. split; [reflexivity|]. cbn. repeat split; try reflexivity.
      - left. auto.
      - intros H. contradiction. }
  destruct (count c =? 0) eqn:Hc.
  { eexists. split; [reflexivity|]. cbn. repeat split; try reflexivity.
    - left. auto.
    - intros H. contradiction. }
  unfold bind at 1. rewrite withColumn_resolved by reflexivity.
  set (cw := with_col _ "run_id" _ c).
  unfold bind at 1, datetime_now at 1. cbv beta iota.
  change (clock {| clock := clock st; quality_metrics := quality_metrics st; s3 := s3 st;
      s3_writes := s3_writes st; s3_unwritable := s3_unwritable st;
      stdout := stdout st ++ ["Writing failed records to dead-letter queue..."] |}) with (clock st).
  set (path := dlq_path b (clock st) r).
  set (msg := "Writing " +:+ _).
  set (emsg := fun e : exn => "Error writing to DLQ: " +:+ exn_message e).
  unfold try_except, bind, write_overwrite, print. cbn [s3_unwritable s3_writes stdout clock quality_metrics s3].
  destruct (s3_unwritable st path) eqn:Hw.
  - eexists. split; [reflexivity|]. cbn [s3_unwritable s3_writes stdout clock quality_metrics s3].
    split; [reflexivity|]. split; [reflexivity|]. split; [reflexivity|]. split.
    + right. left. auto.
    + intros _ _.
      exists ((stdout st ++ ["Writing failed records to dead-letter queue..."])
              ++ [msg]).
      rewrite <- !app_assoc. reflexivity.
  - eexists. split; [reflexivity|]. cbn [s3_unwritable s3_writes stdout clock quality_metrics s3].
    split; [reflexivity|]. split; [reflexivity|]. split; [reflexivity|]. split.
    + right. right. split; [reflexivity|]. split; [assumption|].
      exists cw. split; [reflexivity|]. split.
      * unfold cw, rids, with_col. cbn [rows]. rewrite map_map. exact Hr.
      * unfold cw, count, with_col; cbn [rows]. rewrite length_map. unfold count in Hc. lia.
    + intros _ [=].
Qed.

(** ** Records dropped by [filter_invalid_records] *)

Lemma sql_and_true a b :
  sql_and a b = VBool true -> a = VBool true /\ b = VBool true.
Proof.
  destruct a as [|[]| | |], b as [|[]| | |]; simpl; intros H;
    try discriminate; auto.
Qed.

Lemma sql_gt_num_true v w :
  sql_gt (VNum v) (VNum w) = VBool true -> (w < v)%Q.
Proof.
  unfold sql_gt; simpl. destruct (v ?= w)%Q eqn:E; try discriminate.
  intros _. apply Qgt_alt. exact E.
Qed.

Lemma sql_gt_time_true d p :
  sql_gt (VTime d) (VTime p) = VBool true -> p < d.
Proof.
  unfold sql_gt; simpl. destruct (d ?= p) eqn:E; try discriminate.
  intros _. apply Z.compare_gt_iff in E. lia.
Qed.

Lemma is_true_eq v : is_true v = true -> v = VBool true.
Proof. destruct v as [|[]| | |]; simpl; intros H; try discriminate; auto. Qed.

(** A record that breaks a condition of the filter is not kept, whatever
    its other cells hold. *)
Lemma violating_row_not_kept now r r' :
  violates_basic_filter r ->
  (forall name, name ∉ derived_names -> row_get r' name = row_get r name) ->
  keeps now glue_etl_job.filter_condition r' = false.
Proof.
  intros Hv Hsame.
  destruct (keeps now glue_etl_job.filter_condition r') eqn:Hk;
    [exfalso|reflexivity].
  unfold keeps in Hk. apply is_true_eq in Hk.
  unfold glue_etl_job.filter_condition in Hk. cbn [eval num] in Hk.
  apply sql_and_true in Hk as [Hk H4].
  apply sql_and_true in Hk as [Hk H3].
  apply sql_and_true in Hk as [H1 H2].
  assert (Hn : forall name, In name
                 ["trip_distance"; "fare_amount"; "passenger_count";
                  "tpep_pickup_datetime"; "tpep_dropoff_datetime"] ->
               row_get r' name = row_get r name).
  { intros name Hin. apply Hsame. unfold derived_names. intros Hd.
    apply list_elem_of_In in Hd. simpl in Hin, Hd.
    repeat destruct Hin as [<-|Hin]; try contradiction;
      repeat destruct Hd as [Hd|Hd]; try discriminate; try contradiction. }
  rewrite (Hn "trip_distance") in H1 by (simpl; auto 10).
  rewrite (Hn "fare_amount") in H2 by (simpl; auto 10).
  rewrite (Hn "passenger_count") in H3 by (simpl; auto 10).
  rewrite (Hn "tpep_pickup_datetime"), (Hn "tpep_dropoff_datetime") in H4
    by (simpl; auto 10).
  destruct Hv as [(v & E & Hle)|[(v & E & Hle)|[(v & E & Hle)|
                   (pk & dr & E1 & E2 & Hle)]]].
  - rewrite E in H1. apply sql_gt_num_true in H1.
    apply Qlt_not_le in H1. contradiction.
  - rewrite E in H2. apply sql_gt_num_true in H2.
    apply Qlt_not_le in H2. contradiction.
  - rewrite E in H3. apply sql_gt_num_true in H3.
    apply Qlt_not_le in H3. contradiction.
  - rewrite E1, E2 in H4. apply sql_gt_time_true in H4. lia.
Qed.

Lemma withColumn_Ok_with_col name c df st st' d :
  withColumn name c df st = (st', Ok d) ->
  st' = st /\ d = with_col (clock st) name c df.
Proof. intros H. apply withColumn_Ok in H as (-> & _ & ->). auto. Qed.

Lemma rows_with_col now name c df :
  rows (with_col now name c df) = map (set_cell now name c) (rows df).
Proof. reflexivity. Qed.

Lemma ret_Ok_inv {A} (a b : A) st st' :
  ret a st = (st', Ok b) -> st' = st /\ b = a.
Proof. unfold ret. intros H. inversion H. auto. Qed.

Lemma add_derived_columns_rows raw st st1 d1 :
  glue_etl_job.add_derived_columns raw st = (st1, Ok d1) ->
  st1 = st /\ rows d1 = map (derive_row (clock st)) (rows raw).
Proof.
  unfold glue_etl_job.add_derived_columns. intros H.
  repeat (apply bind_Ok_inv in H as (? & ? & Hw & H);
          apply withColumn_Ok_with_col in Hw as (-> & ->)).
  apply ret_Ok_inv in H as (-> & ->).
  split; [reflexivity|]. rewrite !rows_with_col, !map_map. reflexivity.
Qed.

Lemma filter_invalid_records_rows df st st2 d2 :
  glue_etl_job.filter_invalid_records df st = (st2, Ok d2) ->
  st2 = st /\ columns d2 = columns df /\
  rows d2
  = List.filter (keeps (clock st) glue_etl_job.filter_condition) (rows df).
Proof.
  unfold glue_etl_job.filter_invalid_records. intros H.
  apply bind_Ok_inv in H as (s & d & Hf & H).
  apply df_filter_Ok in Hf as (-> & _ & ->).
  apply bind_Ok_inv in H as (s' & q & Hq & H).
  apply py_div_Ok in Hq as ->.
  apply ret_Ok_inv in H as (-> & ->). auto.
Qed.

Lemma NoDup_rid_inj (l : list Row) (x y : Row) :
  NoDup (map rid l) -> x ∈ l -> y ∈ l -> rid x = rid y -> x = y.
Proof.
  induction l as [|a l IH]; simpl; intros Hnd Hx Hy Hxy.
  - inversion Hx.
  - apply NoDup_cons in Hnd as [Hna Hnd].
    apply elem_of_cons in Hx as [->|Hx];
      apply elem_of_cons in Hy as [->|Hy]; auto.
    + exfalso. apply Hna. rewrite Hxy.
      apply list_elem_of_fmap. exists y. auto.
    + exfalso. apply Hna. rewrite <- Hxy.
      apply list_elem_of_fmap. exists x. auto.
Qed.

Lemma within_not_in l d n : within l d -> n ∉ l -> n ∉ rids d.
Proof. unfold within. intros H Hn Hd. apply Hn, H, Hd. Qed.

Lemma all_rids_not_in invs n :
  Forall (fun inv => n ∉ rids inv) invs -> n ∉ all_rids invs.
Proof.
  unfold all_rids. induction 1 as [|d l Hd Hl IH]; simpl.
  - apply not_elem_of_nil.
  - intros Hin. apply elem_of_app in Hin as [Hin|Hin]; auto.
Qed.

(** Steps 2 to 5 of the driver, for a record that breaks a condition of
    [filter_invalid_records]: where the record is not, once each step has
    returned. *)
Lemma discarded_record_not_downstream
    raw r bucket_name run_id st st1 d1 st2 d2 st3 accepted invalid_dfs st4 res :
  NoDup (rids raw) ->
  r ∈ rows raw ->
  violates_basic_filter r ->
  glue_etl_job.add_derived_columns raw st = (st1, Ok d1) ->
  glue_etl_job.filter_invalid_records d1 st1 = (st2, Ok d2) ->
  glue_etl_job.run_data_quality_checks d2 bucket_name run_id st2
  = (st3, Ok (accepted, invalid_dfs)) ->
  glue_etl_job.write_to_dead_letter_queue invalid_dfs bucket_name run_id st3
  = (st4, res) ->
  (rid r ∉ rids d2) /\
  columns d2 = columns d1 /\
  (rid r ∉ rids accepted) /\
  Forall (fun inv => rid r ∉ rids inv) invalid_dfs /\
  quality_metrics st4 = quality_metrics st /\
  (forall path d,
      s3 st4 !! path = Some d -> rid r ∈ rids d -> s3 st !! path = Some d).
Proof.
  intros Hnd Hr Hv H1 H2 H3 H4.
  apply add_derived_columns_rows in H1 as (-> & Hd1).
  apply filter_invalid_records_rows in H2 as (-> & Hc2 & Hd2).
  apply run_data_quality_checks_within in H3 as (-> & Hacc & Hinv).
  destruct (glue_writer_spec invalid_dfs bucket_name run_id st)
    as (st' & Hw & _ & Hm & _ & Hout & _).
  rewrite Hw in H4. inversion H4; subst st4 res; clear H4.
  assert (Hgone : rid r ∉ rids d2).
  { unfold rids. rewrite Hd2, Hd1. intros Hin.
    apply list_elem_of_fmap in Hin as (x & Hx & Hin).
    apply list_elem_of_In, filter_In in Hin as [Hin Hk].
    apply list_elem_of_In, list_elem_of_fmap in Hin as (y & -> & Hy).
    assert (y = r) as ->.
    { apply (NoDup_rid_inj (rows raw)); auto. }
    rewrite (violating_row_not_kept (clock st) r (derive_row (clock st) r))
      in Hk; [discriminate|exact Hv|].
    apply (derived_others _ _ (derive_row_ok (clock st) r)). }
  assert (Hinv' : Forall (fun inv => rid r ∉ rids inv) invalid_dfs).
  { eapply Forall_impl; [exact Hinv|]. intros inv Hin.
    eapply within_not_in; eauto. }
  split; [exact Hgone|]. split; [exact Hc2|].
  split; [eapply within_not_in; eauto|].
  split; [exact Hinv'|]. split; [exact Hm|].
  intros path d Hl Hin.
  destruct Hout as [(_ & E)|[(_ & E & _)|(_ & _ & d' & E & Hsub & _)]];
    rewrite E in Hl; try exact Hl.
  destruct (decide (dlq_path bucket_name (clock st) run_id = path))
    as [<-|Hne].
  - rewrite lookup_insert_eq in Hl. inversion Hl; subst d'.
    exfalso. apply (all_rids_not_in _ _ Hinv'). apply Hsub, Hin.
  - rewrite lookup_insert_ne in Hl by exact Hne. exact Hl.
Qed.

(** ** The writer of [DataQualityChecker], and [main] after the writer *)

Lemma df_union_state a b st : exists r, df_union a b st = (st, r).
Proof. unfold df_union. destruct (_ =? _)%nat; eexists; reflexivity. Qed.

Lemma checker_combine_state invs : forall acc st,
  exists r, foldM DataQualityChecker.combine_step invs acc st = (st, r).
Proof.
  induction invs as [|d invs IH]; intros acc st; simpl.
  - eexists; reflexivity.
  - unfold bind at 1.
    assert (E : exists r, DataQualityChecker.combine_step acc d st = (st, r)).
    { unfold DataQualityChecker.combine_step.
      destruct (0 <? count d); [|eexists; reflexivity].
      destruct acc as [c|]; [|eexists; reflexivity].
      unfold bind. destruct (df_union_state c d st) as (r & ->).
      destruct r; eexists; reflexivity. }
    destruct E as (r & ->). destruct r as [o|e]; [apply IH|].
    eexists; reflexivity.
Qed.

Lemma checker_writer_spec b invs orun st :
  let run_id := match orun with
                | None => strftime_run_id (clock st)
                | Some run_id => run_id
                end in
  exists st' res,
    DataQualityChecker.write_to_dead_letter_queue b invs orun st = (st', res) /\
    clock st' = clock st /\ quality_metrics st' = quality_metrics st /\
    s3_unwritable st' = s3_unwritable st /\
    checker_dlq_outcome st st' res (dlq_path b (clock st) run_id).
Proof.
  intros run_id. unfold DataQualityChecker.write_to_dead_letter_queue.
  destruct (bool_decide (invs = []) || DataQualityChecker.all_empty invs).
  { do 2 eexists. split; [reflexivity|]. cbn.
    split; [reflexivity|]. split; [reflexivity|]. split; [reflexivity|].
    left. auto. }
  unfold bind at 1. unfold print at 1. cbv beta iota.
  unfold bind at 1.
  match goal with |- context [foldM _ invs None ?s] =>
    destruct (checker_combine_state invs None s) as (r & ->) end.
  destruct r as [[c|]|e].
  3:{ do 2 eexists. split; [reflexivity|]. cbn.
    split; [reflexivity|]. split; [reflexivity|]. split; [reflexivity|].
    left. auto. }
  2:{ do 2 eexists. split; [reflexivity|]. cbn.
    split; [reflexivity|]. split; [reflexivity|]. split; [reflexivity|].
    left. auto. }
  destruct (count c =? 0) eqn:Hc.
  { do 2 eexists. split; [reflexivity|]. cbn.
    split; [reflexivity|]. split; [reflexivity|]. split; [reflexivity|].
    left. auto. }
  unfold bind at 1, datetime_now at 1. cbv beta iota.
  match goal with |- context [clock ?s] =>
    match s with mkState _ _ _ _ _ _ => change (clock s) with (clock st) end end.
  fold run_id.
  unfold bind at 1. rewrite withColumn_resolved by reflexivity.
  set (cw := with_col _ "run_id" _ c).
  set (path := dlq_path b (clock st) run_id).
  unfold bind at 1, print at 1. cbv beta iota.
  set (msg := "Writing " +:+ _).
  unfold try_except, bind, write_overwrite, print, raise.
  cbn [s3_unwritable s3_writes stdout clock quality_metrics s3].
  destruct (s3_unwritable st path) eqn:Hw.
  - do 2 eexists. split; [reflexivity|].
    cbn [s3_unwritable s3_writes stdout clock quality_metrics s3].
    split; [reflexivity|]. split; [reflexivity|]. split; [reflexivity|].
    right. left. split; [reflexivity|]. split; [reflexivity|].
    split; [assumption|]. split; [reflexivity|].
    eexists. reflexivity.
  - do 2 eexists. split; [reflexivity|].
    cbn [s3_unwritable s3_writes stdout clock quality_metrics s3].
    split; [reflexivity|]. split; [reflexivity|]. split; [reflexivity|].
    right. right. split; [reflexivity|]. split; [assumption|].
    split; [reflexivity|]. exists cw. split; [reflexivity|].
    unfold cw, count, with_col; cbn [rows]. rewrite length_map.
    unfold count in Hc. lia.
Qed.

Lemma main_writes_accepted b prefix raw st st1 d1 st2 d2 st3 accepted invs :
  glue_etl_job.add_derived_columns raw st = (st1, Ok d1) ->
  glue_etl_job.filter_invalid_records d1 st1 = (st2, Ok d2) ->
  glue_etl_job.run_data_quality_checks d2 b (strftime_run_id (clock st)) st2
  = (st3, Ok (accepted, invs)) ->
  s3_unwritable st (glue_etl_job.target_path b prefix) = false ->
  exists st' stored,
    glue_etl_job.main b prefix raw st = (st', Ok tt) /\
    s3 st' !! glue_etl_job.target_path b prefix = Some stored /\
    (forall x, x ∈ rows accepted -> x ∈ rows stored) /\
    last (s3_writes st') = Some (glue_etl_job.target_path b prefix).
Proof.
  intros H1 H2 H3 Hw.
  pose proof (add_derived_columns_rows _ _ _ _ H1) as (-> & _).
  pose proof (filter_invalid_records_rows _ _ _ _ H2) as (-> & _).
  pose proof (run_data_quality_checks_within _ _ _ _ _ _ _ H3) as (-> & _).
  unfold glue_etl_job.main.
  unfold bind at 1, datetime_now at 1. cbv beta iota.
  rewrite (bind_Ok _ _ _ _ _ H1), (bind_Ok _ _ _ _ _ H2),
    (bind_Ok _ _ _ _ _ H3).
  cbn [fst snd].
  destruct (glue_writer_spec invs b (strftime_run_id (clock st)) st)
    as (st' & Hq & _ & _ & Hunw & _ & _).
  rewrite (bind_Ok _ _ _ _ _ Hq).
  set (target := glue_etl_job.target_path b prefix) in *.
  unfold try_except, bind, write_append, print.
  rewrite Hunw, Hw.
  do 2 eexists. split; [reflexivity|].
  cbn [s3_unwritable s3_writes stdout clock quality_metrics s3].
  split; [apply lookup_insert_eq|]. split.
  - cbn [rows]. intros x Hx. apply elem_of_app. right. exact Hx.
  - apply last_snoc.
Qed.

(** ** Records dropped by the driver's filter, through [main] *)

Lemma stateless_bind {A B} (m : M A) (k : A -> M B) :
  stateless m -> (forall a, stateless (k a)) -> stateless (bind m k).
Proof.
  intros Hm Hk st. unfold bind. specialize (Hm st).
  destruct (m st) as [s [a|e]]; simpl in *; subst; [apply Hk|reflexivity].
Qed.

Lemma stateless_ret {A} (a : A) : stateless (ret a).
Proof. intros st. reflexivity. Qed.

Lemma stateless_df_filter c df : stateless (df_filter c df).
Proof. intros st. rewrite df_filter_run. reflexivity. Qed.

Lemma stateless_withColumn name c df : stateless (withColumn name c df).
Proof. intros st. rewrite withColumn_run. reflexivity. Qed.

Lemma stateless_py_div a b : stateless (py_div a b).
Proof. intros st. unfold py_div. destruct (b =? 0); reflexivity. Qed.

Ltac stateless_steps :=
  repeat first
    [ apply stateless_ret | apply stateless_df_filter
    | apply stateless_withColumn | apply stateless_py_div
    | apply stateless_bind; [|intros ?]
    | match goal with
      | |- stateless (if ?b then _ else _) => destruct b
      | |- stateless (match ?o with Some _ => _ | None => _ end) => destruct o
      end ].

Lemma add_derived_columns_stateless raw :
  stateless (glue_etl_job.add_derived_columns raw).
Proof. unfold glue_etl_job.add_derived_columns. stateless_steps. Qed.

Lemma filter_invalid_records_stateless df :
  stateless (glue_etl_job.filter_invalid_records df).
Proof. unfold glue_etl_job.filter_invalid_records. stateless_steps. Qed.

Lemma run_data_quality_checks_stateless df b r :
  stateless (glue_etl_job.run_data_quality_checks df b r).
Proof. unfold glue_etl_job.run_data_quality_checks. stateless_steps. Qed.

Lemma main_never_stores_discarded b prefix raw r st :
  NoDup (rids raw) -> r ∈ rows raw -> violates_basic_filter r ->
  let out := glue_etl_job.main b prefix raw st in
  quality_metrics out.1 = quality_metrics st /\
  forall path d,
    s3 out.1 !! path = Some d -> rid r ∈ rids d ->
    exists d0, s3 st !! path = Some d0 /\ rid r ∈ rids d0.
Proof.
  intros Hnd Hr Hv. cbv zeta.
  destruct (glue_etl_job.main b prefix raw st) as [stf resf] eqn:E.
  cbn [fst].
  assert (Triv : stf = st ->
             quality_metrics stf = quality_metrics st /\
             forall path d,
               s3 stf !! path = Some d -> rid r ∈ rids d ->
               exists d0, s3 st !! path = Some d0 /\ rid r ∈ rids d0).
  { intros ->. split; [reflexivity|]. intros path d Hl Hin. eauto. }
  unfold glue_etl_job.main in E.
  unfold bind at 1, datetime_now at 1 in E. cbv beta iota in E.
  set (run_id := strftime_run_id (clock st)) in E.
  unfold bind at 1 in E.
  pose proof (add_derived_columns_stateless raw st) as S1.
  destruct (glue_etl_job.add_derived_columns raw st) as [st1 [d1|e]] eqn:H1;
    simpl in S1; subst st1; [|apply Triv; congruence].
  unfold bind at 1 in E.
  pose proof (filter_invalid_records_stateless d1 st) as S2.
  destruct (glue_etl_job.filter_invalid_records d1 st) as [st2 [d2|e]] eqn:H2;
    simpl in S2; subst st2; [|apply Triv; congruence].
  unfold bind at 1 in E.
  pose proof (run_data_quality_checks_stateless d2 b run_id st) as S3.
  destruct (glue_etl_job.run_data_quality_checks d2 b run_id st)
    as [st3 [[accepted invs]|e]] eqn:H3;
    simpl in S3; subst st3; [|apply Triv; congruence].
  cbn [fst snd] in E.
  destruct (glue_etl_job.write_to_dead_letter_queue invs b run_id st)
    as [st4 res] eqn:H4.
  destruct (discarded_record_not_downstream raw r b run_id st st d1
              st d2 st accepted invs st4 res Hnd Hr Hv H1 H2 H3 H4)
    as (_ & _ & Hacc & _ & Hm & Hs).
  destruct (glue_writer_spec invs b run_id st) as (st' & Hq & _ & _ & Hunw & _).
  rewrite H4 in Hq. inversion Hq; subst st' res; clear Hq.
  unfold bind at 1 in E. rewrite H4 in E.
  set (target := glue_etl_job.target_path b prefix) in E.
  unfold try_except, bind, write_append, print, raise in E.
  destruct (s3_unwritable st4 target); inversion E; subst stf resf; clear E;
    cbn [fst s3 quality_metrics]; (split; [exact Hm|]); intros path d Hl Hin.
  - exists d. split; [|exact Hin]. eapply Hs; eauto.
  - destruct (decide (target = path)) as [<-|Hne].
    + rewrite lookup_insert_eq in Hl. inversion Hl; subst d; clear Hl.
      unfold rids in Hin. cbn [rows] in Hin. rewrite map_app in Hin.
      apply elem_of_app in Hin as [Hin|Hin]; [|contradiction].
      destruct (s3 st4 !! target) as [o|] eqn:Ho; simpl in Hin.
      * exists o. split; [|exact Hin]. eapply Hs; eauto.
      * inversion Hin.
    + rewrite lookup_insert_ne in Hl by exact Hne.
      exists d. split; [|exact Hin]. eapply Hs; eauto.
Qed.

(** C9. For a record [r] of the batch read that has a distance, fare or
    passenger count that is not positive, or a dropoff not strictly after
    its pickup (record identities being distinct). Step by step:
    [filter_invalid_records] returns a batch without [r] and with the
    columns it was given (no failure reason is attached to anything); [r]
    is neither accepted nor in any invalid batch of the quality checks that
    follow; the quality metrics are as they were; whatever path of the
    store holds a batch with [r]'s identity after the dead-letter-queue
    write held that same batch before. And for [main] as a whole, however
    it ends: the quality metrics are as they were, and a path of the store
    holds a record with [r]'s identity only if it did before the run. *)
Theorem filter_invalid_records_discards_silently
    raw r bucket_name target_prefix st :
  NoDup (rids raw) ->
  r ∈ rows raw ->
  violates_basic_filter r ->
  (forall run_id st1 d1 st2 d2 st3 accepted invalid_dfs st4 res,
      glue_etl_job.add_derived_columns raw st = (st1, Ok d1) ->
      glue_etl_job.filter_invalid_records d1 st1 = (st2, Ok d2) ->
      glue_etl_job.run_data_quality_checks d2 bucket_name run_id st2
      = (st3, Ok (accepted, invalid_dfs)) ->
      glue_etl_job.write_to_dead_letter_queue invalid_dfs bucket_name run_id
        st3 = (st4, res) ->
      (rid r ∉ rids d2) /\
      columns d2 = columns d1 /\
      (rid r ∉ rids accepted) /\
      Forall (fun inv => rid r ∉ rids inv) invalid_dfs /\
      quality_metrics st4 = quality_metrics st /\
      (forall path d,
          s3 st4 !! path = Some d -> rid r ∈ rids d ->
          s3 st !! path = Some d)) /\
  (let out := glue_etl_job.main bucket_name target_prefix raw st in
   quality_metrics out.1 = quality_metrics st /\
   forall path d,
     s3 out.1 !! path = Some d -> rid r ∈ rids d ->
     exists d0, s3 st !! path = Some d0 /\ rid r ∈ rids d0).
Proof.
  intros Hnd Hr Hv. split.
  - intros run_id st1 d1 st2 d2 st3 accepted invalid_dfs st4 res.
    apply discarded_record_not_downstream; assumption.
  - apply main_never_stores_discarded; assumption.
Qed.

Lemma filter_invalid_records_discards_silently_witness :
  let raw := mkDF sample_columns [clean_row 1; zero_distance_row 2] in
  let r := zero_distance_row 2 in
  let st := initial_state in
  let out1 := glue_etl_job.add_derived_columns raw st in
  let d1 := run_value raw out1 in
  let out2 := glue_etl_job.filter_invalid_records d1 out1.1 in
  let d2 := run_value raw out2 in
  let out3 := glue_etl_job.run_data_quality_checks d2 "bucket"
                sample_run_id out2.1 in
  let checked := run_value (raw, []) out3 in
  let out4 := glue_etl_job.write_to_dead_letter_queue checked.2 "bucket"
                sample_run_id out3.1 in
  let out := glue_etl_job.main "bucket" "processed/taxi/" raw st in
  ((rid r ∉ rids d2) /\
   columns d2 = columns d1 /\
   (rid r ∉ rids checked.1) /\
   Forall (fun inv => rid r ∉ rids inv) checked.2 /\
   quality_metrics out4.1 = quality_metrics st /\
   (forall path d,
       s3 out4.1 !! path = Some d -> rid r ∈ rids d ->
       s3 st !! path = Some d)) /\
  (quality_metrics out.1 = quality_metrics st /\
   forall path d,
     s3 out.1 !! path = Some d -> rid r ∈ rids d ->
     exists d0, s3 st !! path = Some d0 /\ rid r ∈ rids d0).
Proof.
  intros raw r st out1 d1 out2 d2 out3 checked out4 out.
  assert (Hnd : NoDup (rids raw))
    by (apply (bool_decide_unpack _); vm_compute; exact I).
  assert (Hr : r ∈ rows raw) by (apply list_elem_of_In; simpl; auto).
  assert (Hv : violates_basic_filter r)
    by (left; exists 0%Q; split; [reflexivity|discriminate]).
  destruct (filter_invalid_records_discards_silently raw r "bucket"
              "processed/taxi/" st Hnd Hr Hv) as [A B].
  split; [|exact B].
  apply (A sample_run_id out1.1 d1 out2.1 d2 out3.1 checked.1 checked.2
           out4.1 out4.2).
  - vm_compute. reflexivity.
  - vm_compute. reflexivity.
  - vm_compute. reflexivity.
  - vm_compute. reflexivity.
Defined.

(** ** A failing dead-letter-queue write *)

(** C5, as claimed, fails for the writer of [DataQualityChecker]: with one
    rejected record and a store that refuses the write, the call does not
    return normally, it raises the store's error. *)
Lemma checker_dlq_write_failure_propagates :
  let out := DataQualityChecker.write_to_dead_letter_queue "bucket"
               [sample_invalid 2] (Some sample_run_id) dlq_down_state in
  out.2 = Raise (S3WriteError sample_dlq_path) /\ out.2 <> Ok tt.
Proof.
  assert (E : (DataQualityChecker.write_to_dead_letter_queue "bucket"
                 [sample_invalid 2] (Some sample_run_id) dlq_down_state).2
              = Raise (S3WriteError sample_dlq_path))
    by (vm_compute; reflexivity).
  cbv zeta. rewrite E. split; [reflexivity|discriminate].
Qed.

(** C5, amended. When the write to the dead-letter queue raises:
    the driver's [write_to_dead_letter_queue] catches the error, prints it
    and a line saying that the job continues, and returns normally (as it
    does on every input); [main] then goes on and, the target being
    writable, appends the accepted batch to it and returns normally;
    the writer of [DataQualityChecker] prints the error and raises it
    again. *)
Theorem dlq_write_failure_handling :
  (forall invs b r st,
      let out := glue_etl_job.write_to_dead_letter_queue invs b r st in
      let path := dlq_path b (clock st) r in
      out.2 = Ok tt /\
      (s3_writes out.1 <> s3_writes st -> s3_unwritable st path = true ->
       exists lines,
         stdout out.1
         = lines ++ ["Error writing to DLQ: "
                     +:+ exn_message (S3WriteError path);
                     "Continuing job execution despite DLQ write failure"]))
  /\
  (forall b prefix raw st st1 d1 st2 d2 st3 accepted invs,
      glue_etl_job.add_derived_columns raw st = (st1, Ok d1) ->
      glue_etl_job.filter_invalid_records d1 st1 = (st2, Ok d2) ->
      glue_etl_job.run_data_quality_checks d2 b
        (strftime_run_id (clock st)) st2 = (st3, Ok (accepted, invs)) ->
      s3_unwritable st (glue_etl_job.target_path b prefix) = false ->
      exists st' stored,
        glue_etl_job.main b prefix raw st = (st', Ok tt) /\
        s3 st' !! glue_etl_job.target_path b prefix = Some stored /\
        (forall x, x ∈ rows accepted -> x ∈ rows stored) /\
        last (s3_writes st') = Some (glue_etl_job.target_path b prefix))
  /\
  (forall b invs orun st,
      let out := DataQualityChecker.write_to_dead_letter_queue b invs orun
                   st in
      let path :=
        dlq_path b (clock st)
          (match orun with
           | None => strftime_run_id (clock st)
           | Some run_id => run_id
           end) in
      s3_writes out.1 <> s3_writes st -> s3_unwritable st path = true ->
      out.2 = Raise (S3WriteError path) /\
      exists lines,
        stdout out.1
        = lines ++ ["Error writing to DLQ: "
                    +:+ exn_message (S3WriteError path)]).
Proof.
  split; [|split].
  - intros invs b r st out path. subst out path.
    destruct (glue_writer_spec invs b r st) as (st' & -> & _ & _ & _ & _ & Hl).
    split; [reflexivity|exact Hl].
  - apply main_writes_accepted.
  - intros b invs orun st out path Hcall Hdown. subst out.
    destruct (checker_writer_spec b invs orun st)
      as (st' & res & E & _ & _ & _ & Hout).
    rewrite E in *. cbn [fst snd] in *. fold path in Hout.
    destruct Hout as [(Hs & _)|[(_ & _ & _ & -> & Hl)|(_ & Hup & _)]].
    + contradiction.
    + split; [reflexivity|exact Hl].
    + rewrite Hup in Hdown. discriminate.
Qed.

Lemma dlq_write_failure_handling_witness :
  let st := dlq_down_state in
  let raw := mkDF sample_columns [clean_row 1; crowded_row 2] in
  let path := dlq_path "bucket" (clock st) sample_run_id in
  let out := glue_etl_job.write_to_dead_letter_queue [sample_invalid 2]
               "bucket" sample_run_id st in
  let out1 := glue_etl_job.add_derived_columns raw st in
  let out2 := glue_etl_job.filter_invalid_records (run_value raw out1)
                out1.1 in
  let out3 := glue_etl_job.run_data_quality_checks (run_value raw out2)
                "bucket" (strftime_run_id (clock st)) out2.1 in
  let accepted := (run_value (raw, []) out3).1 in
  let outc := DataQualityChecker.write_to_dead_letter_queue "bucket"
                [sample_invalid 2] (Some sample_run_id) st in
  (out.2 = Ok tt /\
   exists lines,
     stdout out.1
     = lines ++ ["Error writing to DLQ: " +:+ exn_message (S3WriteError path);
                 "Continuing job execution despite DLQ write failure"]) /\
  (exists st' stored,
      glue_etl_job.main "bucket" "processed/taxi/" raw st = (st', Ok tt) /\
      s3 st' !! glue_etl_job.target_path "bucket" "processed/taxi/"
      = Some stored /\
      (forall x, x ∈ rows accepted -> x ∈ rows stored) /\
      last (s3_writes st')
      = Some (glue_etl_job.target_path "bucket" "processed/taxi/")) /\
  (outc.2 = Raise (S3WriteError path) /\
   exists lines,
     stdout outc.1
     = lines ++ ["Error writing to DLQ: "
                 +:+ exn_message (S3WriteError path)]).
Proof.
  intros st raw path out out1 out2 out3 accepted outc.
  destruct dlq_write_failure_handling as (A & B & C).
  split; [|split].
  - destruct (A [sample_invalid 2] "bucket" sample_run_id st) as [H1 H2].
    split; [exact H1|]. apply H2.
    + vm_compute. discriminate.
    + vm_compute. reflexivity.
  - apply (B "bucket" "processed/taxi/" raw st out1.1 (run_value raw out1)
             out2.1 (run_value raw out2) out3.1 accepted
             (run_value (raw, []) out3).2).
    + vm_compute. reflexivity.
    + vm_compute. reflexivity.
    + vm_compute. reflexivity.
    + vm_compute. reflexivity.
  - apply (C "bucket" [sample_invalid 2] (Some sample_run_id) st).
    + vm_compute. discriminate.
    + vm_compute. reflexivity.
Defined.

(** ** What a quarantine write replaces *)








(** ** Records with a NULL in a checked field *)

(** C1 fails on the code: a rule keeps as valid the records whose condition
    is TRUE and as invalid those whose condition is FALSE, and a NULL in a
    checked field makes the condition NULL. One record with a NULL
    [tip_amount] given to [validate_numeric_ranges], and one with a NULL
    dropoff time given to [validate_datetime_logic], are in neither
    output: 0 + 0 is not 1. *)
Theorem rule_loses_record_with_null :
  let df := mkDF sample_columns [null_tip_row 1] in
  let df' := mkDF sample_columns [null_dropoff_row 1] in
  let out := DataQualityChecker.validate_numeric_ranges df initial_state in
  let out' := DataQualityChecker.validate_datetime_logic df' initial_state in
  (count df = 1 /\
   out.2 = Ok (mkDF sample_columns [], mkDF (tagged_columns sample_columns) [])
   /\ quality_metrics out.1 !! "range_violations" = Some 0) /\
  (count df' = 1 /\
   out'.2
   = Ok (mkDF sample_columns [], mkDF (tagged_columns sample_columns) [])
   /\ quality_metrics out'.1 !! "datetime_violations" = Some 0).
Proof. vm_compute. repeat split; reflexivity. Qed.

(** C2 fails on the code: the stalled record breaks rule 3 (its dropoff is
    not after its pickup) and rule 4 (its duration is 0 minutes), but rule
    2 has already lost it, its [tip_amount] being NULL: it is in no invalid
    batch at all, and every count is 0. *)
Theorem violating_record_in_no_invalid_batch :
  let r := hd (null_tip_row 0) (rows stalled_batch) in
  let out := DataQualityChecker.run_all_checks stalled_batch initial_state in
  length (rows stalled_batch) = 1%nat /\
  eval 0 r (col "tpep_dropoff_datetime" .> col "tpep_pickup_datetime")%col
  = VBool false /\
  eval 0 r (col "trip_duration_minutes" .>= num 1
            .& col "trip_duration_minutes" .<= num 300)%col
  = VBool false /\
  out.2 = Ok (mkDF (columns stalled_batch) [], []) /\
  Forall (fun kv => kv.2 = 0) (map_to_list (quality_metrics out.1)).
Proof.
  cbv zeta. split; [vm_compute; reflexivity|].
  split; [vm_compute; reflexivity|].
  split; [vm_compute; reflexivity|].
  split; [vm_compute; reflexivity|].
  vm_compute. repeat constructor.
Qed.

(** C3 fails on the code: of a clean record and one with a NULL
    [tip_amount], two are processed and one passes, yet the counts of the
    metrics add up to 0, not to 1. *)
Theorem metrics_sum_misses_lost_record :
  let df := mkDF sample_columns [clean_row 1; null_tip_row 2] in
  let out := DataQualityChecker.run_all_checks df initial_state in
  let passed := (run_value (df, []) out).1 in
  (exists invalid_dfs, out.2 = Ok (passed, invalid_dfs)) /\
  count df = 2 /\ rids passed = [1%nat] /\
  metrics_sum (quality_metrics out.1) = 0 /\
  metrics_sum (quality_metrics out.1) <> count df - count passed.
Proof.
  vm_compute. split; [eexists; reflexivity|]. repeat split; try reflexivity.
  discriminate.
Qed.

(** ** What does hold of a rule's two outputs

    The two outputs never share a record; together with the records whose
    condition is NULL they make up the input; and [check_null_values],
    whose condition is never NULL, splits its input in two. *)

Lemma keeps_exclusive now c r :
  keeps now c r = true -> keeps now (.~ c)%col r = false.
Proof.
  unfold keeps. cbn [eval]. destruct (eval now r c) as [|[]| | |]; simpl;
    intros H; try discriminate; reflexivity.
Qed.

Lemma filter_three_way {A} (p q : A -> bool) (l : list A) :
  (forall x, p x = true -> q x = false) ->
  (length (List.filter p l) + length (List.filter q l)
   + length (List.filter (fun x => negb (p x) && negb (q x)) l)
   = length l)%nat.
Proof.
  intros Hpq. induction l as [|x l IH]; [reflexivity|]. simpl.
  destruct (p x) eqn:Hp.
  - rewrite (Hpq x Hp). simpl. lia.
  - destruct (q x); simpl; lia.
Qed.

Lemma rule_outcome_counts c reason metric df st valid invalid st' :
  rule_outcome (.~ c)%col c reason metric df st = (st', Ok (valid, invalid)) ->
  count valid + count invalid
  + Z.of_nat (length (List.filter
                        (fun r => negb (keeps (clock st) c r)
                                  && negb (keeps (clock st) (.~ c)%col r))
                        (rows df)))
  = count df.
Proof.
  unfold rule_outcome. intros H. inversion H; subst; clear H.
  unfold count. cbn [rows]. rewrite length_map.
  pose proof (filter_three_way (keeps (clock st) c)
                (keeps (clock st) (.~ c)%col) (rows df)
                (keeps_exclusive (clock st) c)) as E.
  lia.
Qed.

Lemma null_condition_two_valued fields df c now r :
  DataQualityChecker.null_condition_of fields df = Some c ->
  exists b, eval now r c = VBool b.
Proof.
  unfold DataQualityChecker.null_condition_of.
  assert (G : forall acc : option Column,
             (forall c0, acc = Some c0 -> exists b, eval now r c0 = VBool b) ->
             forall c1,
               fold_left
                 (fun null_condition field =>
                    if has_column df field then
                      let field_condition := isNull (col field) in
                      match null_condition with
                      | None => Some field_condition
                      | Some c => Some (c .| field_condition)%col
                      end
                    else null_condition) fields acc = Some c1 ->
               exists b, eval now r c1 = VBool b).
  { induction fields as [|f fields IH]; intros acc Hacc c1; simpl.
    - apply Hacc.
    - apply IH. intros c0.
      destruct (has_column df f); [|apply Hacc].
      destruct acc as [c2|]; intros [= <-]; cbn [eval].
      + destruct (Hacc c2 eq_refl) as (b & ->).
        destruct b, (is_null (row_get r f)); eexists; reflexivity.
      + eexists; reflexivity. }
  apply G. intros c0 [=].
Qed.



(** * The rules, the driver and the writers, record by record *)

(** ** One rule evaluation *)

Lemma run_rule_run rule df st :
  run_rule rule df st =
  match rule_conditions rule df with
  | None => (st, Ok (df, mkDF (columns df) []))
  | Some (vc, ic) =>
      rule_outcome ic vc (rule_reason rule) (rule_metric rule) df st
  end.
Proof.
  destruct rule; simpl.
  - rewrite check_null_values_run.
    destruct (DataQualityChecker.null_condition_of _ df); reflexivity.
  - apply validate_numeric_ranges_run.
  - rewrite validate_datetime_logic_run. destruct (_ || _); reflexivity.
  - rewrite validate_trip_duration_run. destruct (negb _); reflexivity.
  - rewrite validate_tip_percentage_run. destruct (negb _); reflexivity.
Qed.

Lemma keeps_exclusive' now c r :
  keeps now (.~ c)%col r = true -> keeps now c r = false.
Proof.
  unfold keeps. cbn [eval]. destruct (eval now r c) as [|[]| | |]; simpl;
    intros H; try discriminate; reflexivity.
Qed.

Lemma rule_conditions_exclusive rule df vc ic now r :
  rule_conditions rule df = Some (vc, ic) ->
  keeps now vc r = true -> keeps now ic r = false.
Proof.
  destruct rule; simpl.
  - destruct (DataQualityChecker.null_condition_of _ df); intros [= <- <-].
    apply keeps_exclusive'.
  - intros [= <- <-]. apply keeps_exclusive.
  - destruct (_ || _); intros [= <- <-]. apply keeps_exclusive.
  - destruct (negb _); intros [= <- <-]. apply keeps_exclusive.
  - destruct (negb _); intros [= <- <-]. apply keeps_exclusive.
Qed.

Lemma sublist_List_filter {A} (p : A -> bool) (l : list A) :
  sublist (List.filter p l) l.
Proof.
  induction l as [|x l IH]; simpl; [constructor|].
  destruct (p x); [apply sublist_skip|apply sublist_cons]; exact IH.
Qed.

Lemma elem_of_List_filter {A} (p : A -> bool) (l : list A) x :
  x ∈ List.filter p l <-> x ∈ l /\ p x = true.
Proof. rewrite !list_elem_of_In. apply filter_In. Qed.

Lemma rids_tagged now reason l :
  map rid (map (tag_row now reason) l) = map rid l.
Proof. rewrite map_map. reflexivity. Qed.

(** Two records of a batch with distinct identities: one the rule keeps
    and one it rejects are not the same record. *)
Lemma filters_disjoint (p q : Row -> bool) (l : list Row) n :
  NoDup (map rid l) ->
  (forall r, p r = true -> q r = false) ->
  n ∈ map rid (List.filter p l) -> n ∉ map rid (List.filter q l).
Proof.
  intros Hnd Hpq Hp Hq.
  apply list_elem_of_fmap in Hp as (x & -> & Hx).
  apply list_elem_of_fmap in Hq as (y & Hxy & Hy).
  apply elem_of_List_filter in Hx as [Hx Hpx].
  apply elem_of_List_filter in Hy as [Hy Hqy].
  assert (x = y) as -> by (eapply NoDup_rid_inj; eauto).
  rewrite (Hpq y Hpx) in Hqy. discriminate.
Qed.

(** X6. When one of the five rules returns, on a batch of distinct
    records: its valid output has the columns of the batch and is a
    sub-list of its records, in order; its invalid output holds records of
    the batch, in order; no record is in both outputs; and the two counts
    together do not exceed the count of the batch. *)
Theorem rule_outputs rule df st st' valid invalid :
  NoDup (rids df) ->
  run_rule rule df st = (st', Ok (valid, invalid)) ->
  columns valid = columns df /\
  sublist (rows valid) (rows df) /\
  sublist (rids invalid) (rids df) /\
  (forall n, n ∈ rids valid -> n ∉ rids invalid) /\
  count valid + count invalid <= count df.
Proof.
  intros Hnd H. rewrite run_rule_run in H.
  destruct (rule_conditions rule df) as [[vc ic]|] eqn:Hc.
  - unfold rule_outcome in H. injection H as _ <- <-.
    cbn [columns rows]. split; [reflexivity|].
    split; [apply sublist_List_filter|].
    split; [|split].
    + unfold rids. cbn [rows]. rewrite rids_tagged.
      apply (fmap_sublist rid), sublist_List_filter.
    + intros n Hv. unfold rids in *. cbn [rows] in *. rewrite rids_tagged.
      eapply filters_disjoint; eauto.
      intros r. apply (rule_conditions_exclusive _ _ _ _ _ _ Hc).
    + unfold count. cbn [rows]. rewrite length_map.
      pose proof (filter_three_way (keeps (clock st) vc)
                    (keeps (clock st) ic) (rows df)
                    (fun r => rule_conditions_exclusive _ _ _ _ _ r Hc)) as E.
      lia.
  - injection H as _ <- <-. cbn [columns rows].
    split; [reflexivity|]. split; [reflexivity|].
    split; [apply sublist_nil_l|]. split.
    + intros n _ Hn. inversion Hn.
    + unfold count; simpl. lia.
Qed.

Lemma row_get_tag_row now reason r name :
  row_get (tag_row now reason r) name
  = if String.eqb "failed_at" name then VTime now
    else if String.eqb "failure_reason" name then VStr reason
    else row_get r name.
Proof.
  unfold tag_row. rewrite !row_get_set_cell. reflexivity.
Qed.

(** X7. Every record in the invalid output of a rule carries the reason of
    that rule in [failure_reason] and the time of the run in [failed_at],
    and is otherwise, cell by cell, a record of the input batch. When the
    invalid output is not empty the rule has stored its count under its
    metric, and the output has the columns of the batch with the two tag
    columns. *)
Theorem rule_tags_rejected rule df st st' valid invalid :
  run_rule rule df st = (st', Ok (valid, invalid)) ->
  Forall (fun r' =>
            row_get r' "failure_reason" = VStr (rule_reason rule) /\
            row_get r' "failed_at" = VTime (clock st) /\
            exists r, r ∈ rows df /\ rid r' = rid r /\
              forall name, name <> "failure_reason" -> name <> "failed_at" ->
                           row_get r' name = row_get r name)
         (rows invalid) /\
  (rows invalid <> [] ->
   quality_metrics st' !! rule_metric rule = Some (count invalid) /\
   columns invalid = tagged_columns (columns df)).
Proof.
  rewrite run_rule_run.
  destruct (rule_conditions rule df) as [[vc ic]|] eqn:Hc.
  - unfold rule_outcome. intros H. inversion H; subst; clear H.
    cbn [rows columns]. split.
    + apply Forall_forall. intros r' Hr'.
      apply list_elem_of_fmap in Hr' as (r & -> & Hr).
      apply elem_of_List_filter in Hr as [Hr _].
      rewrite !row_get_tag_row. simpl.
      split; [reflexivity|]. split; [reflexivity|].
      exists r. split; [exact Hr|]. split; [reflexivity|].
      intros name H1 H2. rewrite row_get_tag_row.
      destruct (String.eqb_spec "failed_at" name) as [<-|_]; [congruence|].
      destruct (String.eqb_spec "failure_reason" name) as [<-|_];
        [congruence|reflexivity].
    + intros _. split; [|reflexivity].
      unfold with_metric; cbn [quality_metrics]. apply lookup_insert_eq.
  - intros H. inversion H; subst; clear H. cbn [rows]. split; [constructor|].
    intros Hne. contradiction.
Qed.

(** ** What each condition says of a record *)

Lemma sql_and_true_iff a b :
  sql_and a b = VBool true <-> a = VBool true /\ b = VBool true.
Proof.
  split; [apply sql_and_true|]. intros [-> ->]. reflexivity.
Qed.

Lemma sql_and_false_iff a b :
  sql_and a b = VBool false <-> a = VBool false \/ b = VBool false.
Proof.
  destruct a as [|[]| | |], b as [|[]| | |]; simpl; split;
    intros H; try discriminate; auto; destruct H; discriminate.
Qed.

Lemma range_conjunct_true now r f lo hi :
  eval now r (col f .>= num lo .& col f .<= num hi)%col = VBool true
  <-> in_range r f lo hi.
Proof.
  cbn [eval num]. rewrite sql_and_true_iff. unfold in_range.
  destruct (row_get r f) as [| | v | |] eqn:E;
    try (split; [intros [H _]; discriminate H|intros (v' & H & _); discriminate H]).
  unfold sql_ge, sql_le. cbn [sql_compare]. split.
  - intros [H1 H2]. exists v. split; [reflexivity|]. split.
    + destruct (v ?= lo)%Q eqn:C; try discriminate.
      * apply Qeq_alt in C. rewrite C. apply Qle_refl.
      * apply Qgt_alt in C. apply Qlt_le_weak. exact C.
    + destruct (v ?= hi)%Q eqn:C; try discriminate.
      * apply Qeq_alt in C. rewrite C. apply Qle_refl.
      * apply Qlt_alt in C. apply Qlt_le_weak. exact C.
  - intros (v' & [= <-] & H1 & H2). split.
    + destruct (v ?= lo)%Q eqn:C; try reflexivity.
      apply Qlt_alt in C. apply Qlt_not_le in C. contradiction.
    + destruct (v ?= hi)%Q eqn:C; try reflexivity.
      apply Qgt_alt in C. apply Qlt_not_le in C. contradiction.
Qed.

Lemma range_conjunct_false now r f lo hi :
  eval now r (col f .>= num lo .& col f .<= num hi)%col = VBool false
  <-> out_of_range r f lo hi.
Proof.
  cbn [eval num]. rewrite sql_and_false_iff. unfold out_of_range.
  destruct (row_get r f) as [| | v | |] eqn:E;
    try (split; [intros [H|H]; discriminate H|intros (v' & H & _); discriminate H]).
  unfold sql_ge, sql_le. cbn [sql_compare]. split.
  - intros [H|H]; exists v; (split; [reflexivity|]).
    + left. destruct (v ?= lo)%Q eqn:C; try discriminate.
      apply Qlt_alt. exact C.
    + right. destruct (v ?= hi)%Q eqn:C; try discriminate.
      apply Qgt_alt. exact C.
  - intros (v' & [= <-] & [H|H]).
    + left. destruct (v ?= lo)%Q eqn:C; try reflexivity; exfalso.
      * apply Qeq_alt in C. rewrite C in H. revert H. apply Qlt_irrefl.
      * apply Qgt_alt in C. apply Qlt_le_weak in C.
        apply Qlt_not_le in H. contradiction.
    + right. destruct (v ?= hi)%Q eqn:C; try reflexivity; exfalso.
      * apply Qeq_alt in C. rewrite C in H. revert H. apply Qlt_irrefl.
      * apply Qlt_alt in C. apply Qlt_le_weak in C.
        apply Qlt_not_le in H. contradiction.
Qed.

Lemma range_condition_eval ranges df now r :
  let c := DataQualityChecker.range_condition_of ranges df in
  (eval now r c = VBool true <->
   Forall (fun x => has_column df x.1 = true ->
                    in_range r x.1 x.2.1 x.2.2) ranges) /\
  (eval now r c = VBool false <->
   Exists (fun x => has_column df x.1 = true /\
                    out_of_range r x.1 x.2.1 x.2.2) ranges).
Proof.
  cbv zeta. unfold DataQualityChecker.range_condition_of.
  assert (G : forall acc,
      let c := fold_left
                 (fun range_condition '(field, (min_val, max_val)) =>
                    if has_column df field then
                      (range_condition
                       .& (col field .>= num min_val
                           .& col field .<= num max_val))%col
                    else range_condition) ranges acc in
      (eval now r c = VBool true <->
       eval now r acc = VBool true /\
       Forall (fun x => has_column df x.1 = true ->
                        in_range r x.1 x.2.1 x.2.2) ranges) /\
      (eval now r c = VBool false <->
       eval now r acc = VBool false \/
       Exists (fun x => has_column df x.1 = true /\
                        out_of_range r x.1 x.2.1 x.2.2) ranges)).
  { induction ranges as [|[f [lo hi]] ranges IH]; intros acc; cbv zeta.
    - simpl. split.
      + split; [intros H; split; [exact H|constructor]|intros [H _]; exact H].
      + split; [auto|]. intros [H|H]; [exact H|inversion H].
    - simpl fold_left. destruct (IH (if has_column df f
                         then (acc .& (col f .>= num lo .& col f .<= num hi))%col
                         else acc)) as [IHt IHf].
      cbv zeta in IHt, IHf. rewrite IHt, IHf. clear IHt IHf IH.
      rewrite Forall_cons, Exists_cons. cbn [fst snd].
      destruct (has_column df f) eqn:Hf.
      + change (eval now r (acc .& (col f .>= num lo .& col f .<= num hi))%col)
          with (sql_and (eval now r acc)
                  (eval now r (col f .>= num lo .& col f .<= num hi)%col)).
        rewrite sql_and_true_iff, sql_and_false_iff,
          range_conjunct_true, range_conjunct_false.
        split; [tauto|]. split.
        * intros [[H|H]|H]; auto.
        * intros [H|[[_ H]|H]]; auto.
      + split.
        * split; [intros [H1 H2]; split; [exact H1|split; [discriminate|exact H2]]
                 |intros [H1 [_ H2]]; auto].
        * split; [intros [H|H]; auto|].
          intros [H|[[H _]|H]]; auto. discriminate.  }
  specialize (G (lit (VBool true))). cbv zeta in G.
  destruct G as [Gt Gf]. rewrite Gt, Gf. cbn [eval]. split.
  - split; [intros [_ H]; exact H|intros H; split; [reflexivity|exact H]].
  - split; [intros [H|H]; [discriminate|exact H]|auto].
Qed.

Lemma sql_or_true_iff a b :
  sql_or a b = VBool true <-> a = VBool true \/ b = VBool true.
Proof.
  destruct a as [|[]| | |], b as [|[]| | |]; simpl; split;
    intros H; try discriminate; auto; destruct H; discriminate.
Qed.

Lemma is_null_true v : is_null v = true <-> v = VNull.
Proof. destruct v; simpl; split; intros H; congruence. Qed.

Lemma null_condition_eval fields df c now r :
  DataQualityChecker.null_condition_of fields df = Some c ->
  (eval now r c = VBool true <->
   Exists (fun f => has_column df f = true /\ row_get r f = VNull) fields).
Proof.
  unfold DataQualityChecker.null_condition_of.
  assert (G : forall acc c1,
      fold_left
        (fun null_condition field =>
           if has_column df field then
             let field_condition := isNull (col field) in
             match null_condition with
             | None => Some field_condition
             | Some c => Some (c .| field_condition)%col
             end
           else null_condition) fields acc = Some c1 ->
      (eval now r c1 = VBool true <->
       (exists c0, acc = Some c0 /\ eval now r c0 = VBool true) \/
       Exists (fun f => has_column df f = true /\ row_get r f = VNull)
              fields)).
  { induction fields as [|f fields IH]; intros acc c1; simpl.
    - intros ->. split.
      + intros H. left. eauto.
      + intros [(c0 & [= <-] & H)|H]; [exact H|inversion H].
    - intros H. rewrite (IH _ _ H). clear IH H. rewrite Exists_cons.
      destruct (has_column df f) eqn:Hf.
      + destruct acc as [c2|]; cbv zeta.
        * split.
          -- intros [(c0 & [= <-] & H)|H]; [|auto].
             cbn [eval] in H. apply sql_or_true_iff in H as [H|H].
             ++ left. eauto.
             ++ right. left. split; [reflexivity|].
                injection H as H. apply is_null_true. exact H.
          -- intros [(c0 & [= <-] & H)|[[_ H]|H]]; [| |auto].
             ++ left. eexists. split; [reflexivity|]. cbn [eval].
                apply sql_or_true_iff. auto.
             ++ left. eexists. split; [reflexivity|]. cbn [eval].
                apply sql_or_true_iff. right. cbn [eval]. rewrite H.
                reflexivity.
        * split.
          -- intros [(c0 & [= <-] & H)|H]; [|auto].
             right. left. split; [reflexivity|].
             cbn [eval] in H. injection H as H. apply is_null_true. exact H.
          -- intros [(c0 & [=] & _)|[[_ H]|H]]; [|auto].
             left. eexists. split; [reflexivity|]. cbn [eval]. rewrite H.
             reflexivity.
      + split.
        * intros [H|H]; auto.
        * intros [H|[[H _]|H]]; auto. discriminate. }
  intros H. rewrite (G _ _ H). split.
  - intros [(c0 & [=] & _)|H0]; exact H0.
  - auto.
Qed.

Lemma null_condition_none fields df :
  DataQualityChecker.null_condition_of fields df = None ->
  Forall (fun f => has_column df f = false) fields.
Proof.
  unfold DataQualityChecker.null_condition_of.
  assert (G : forall acc,
      fold_left
        (fun null_condition field =>
           if has_column df field then
             let field_condition := isNull (col field) in
             match null_condition with
             | None => Some field_condition
             | Some c => Some (c .| field_condition)%col
             end
           else null_condition) fields acc = None ->
      acc = None /\ Forall (fun f => has_column df f = false) fields).
  { induction fields as [|f fields IH]; intros acc; simpl.
    - intros ->. split; [reflexivity|constructor].
    - intros H. apply IH in H as [H1 H2].
      destruct (has_column df f) eqn:Hf.
      + destruct acc; discriminate.
      + split; [exact H1|]. constructor; assumption. }
  intros H. apply G in H as [_ H]. exact H.
Qed.

Lemma keeps_true_iff now c r :
  keeps now c r = true <-> eval now r c = VBool true.
Proof.
  unfold keeps. destruct (eval now r c) as [|[]| | |]; simpl; split;
    intros H; congruence.
Qed.

Lemma keeps_not_iff now c r :
  keeps now (.~ c)%col r = true <-> eval now r c = VBool false.
Proof.
  unfold keeps. cbn [eval].
  destruct (eval now r c) as [|[]| | |]; simpl; split; intros H; congruence.
Qed.

Lemma has_null_required_iff df r :
  has_null_required df r <->
  Exists (fun f => has_column df f = true /\ row_get r f = VNull)
         DataQualityChecker.REQUIRED_FIELDS.
Proof.
  unfold has_null_required. rewrite !Exists_exists.
  split; intros (f & Hf & H1 & H2); exists f;
    (split; [exact Hf|split; [apply has_column_true; exact H1|exact H2]]).
Qed.


Lemma all_in_range_iff df now r :
  eval now r (DataQualityChecker.range_condition_of
                DataQualityChecker.NUMERIC_RANGES df) = VBool true
  <-> all_in_range df r.
Proof.
  rewrite (proj1 (range_condition_eval _ df now r)).
  unfold all_in_range. rewrite !Forall_forall.
  split; intros H x Hx Hc; apply H; auto; apply has_column_true; exact Hc.
Qed.

Lemma some_out_of_range_iff df now r :
  eval now r (DataQualityChecker.range_condition_of
                DataQualityChecker.NUMERIC_RANGES df) = VBool false
  <-> some_out_of_range df r.
Proof.
  rewrite (proj2 (range_condition_eval _ df now r)).
  unfold some_out_of_range. rewrite !Exists_exists.
  split; intros (x & Hx & Hc & Ho); exists x;
    (split; [exact Hx|split; [apply has_column_true; exact Hc|exact Ho]]).
Qed.

Lemma in_or_out_of_range r f lo hi v :
  row_get r f = VNum v -> in_range r f lo hi \/ out_of_range r f lo hi.
Proof.
  intros E. destruct (Qlt_le_dec v lo) as [H1|H1].
  - right. exists v. auto.
  - destruct (Qlt_le_dec hi v) as [H2|H2].
    + right. exists v. auto.
    + left. exists v. auto.
Qed.

Lemma numbers_in_or_out df r :
  Forall (fun x => x.1 ∈ columns df -> exists v, row_get r x.1 = VNum v)
         DataQualityChecker.NUMERIC_RANGES ->
  all_in_range df r \/ some_out_of_range df r.
Proof.
  unfold all_in_range, some_out_of_range.
  induction 1 as [|x l Hx Hl IH].
  - left. constructor.
  - destruct IH as [IH|IH]; [|right; apply Exists_cons; auto].
    destruct (decide (x.1 ∈ columns df)) as [Hc|Hc].
    + destruct (Hx Hc) as (v & Hv).
      destruct (in_or_out_of_range r x.1 x.2.1 x.2.2 v Hv) as [Hi|Ho].
      * left. constructor; auto.
      * right. apply Exists_cons. auto.
    + left. constructor; [|exact IH]. intros Hc'. contradiction.
Qed.

(** X2. When [validate_numeric_ranges] returns, its valid output holds
    exactly the records whose cell is a number within the configured range
    for every configured field that is a column of the batch, its invalid
    output exactly the (tagged) records with a number outside its range in
    such a field. The two counts add up to the count of the batch when
    every such cell of the batch is a number. *)
Theorem validate_numeric_ranges_sorts df st st' valid invalid :
  DataQualityChecker.validate_numeric_ranges df st
  = (st', Ok (valid, invalid)) ->
  (forall r, r ∈ rows valid <-> r ∈ rows df /\ all_in_range df r) /\
  (forall r',
      r' ∈ rows invalid <->
      exists r, r ∈ rows df /\ some_out_of_range df r /\
                r' = tag_row (clock st) "numeric_range_violation" r) /\
  ((forall r, r ∈ rows df ->
      Forall (fun x => x.1 ∈ columns df ->
                       exists v, row_get r x.1 = VNum v)
             DataQualityChecker.NUMERIC_RANGES) ->
   count valid + count invalid = count df).
Proof.
  rewrite validate_numeric_ranges_run. cbv zeta.
  set (c := DataQualityChecker.range_condition_of _ df).
  unfold rule_outcome. intros H. injection H as _ <- <-.
  cbn [rows]. split; [|split].
  - intros r. rewrite elem_of_List_filter, keeps_true_iff.
    unfold c. rewrite all_in_range_iff. reflexivity.
  - intros r'. rewrite list_elem_of_fmap. split.
    + intros (r & -> & Hr). apply elem_of_List_filter in Hr as [Hr Hk].
      apply keeps_not_iff in Hk. unfold c in Hk.
      apply some_out_of_range_iff in Hk. eauto.
    + intros (r & Hr & Ho & ->). exists r. split; [reflexivity|].
      apply elem_of_List_filter. split; [exact Hr|].
      apply keeps_not_iff. unfold c. apply some_out_of_range_iff. exact Ho.
  - intros Hnum. unfold count. cbn [rows]. rewrite length_map.
    assert (E : (length (List.filter (keeps (clock st) c) (rows df))
                 + length (List.filter (keeps (clock st) (.~ c)%col) (rows df))
                 = length (rows df))%nat); [|lia].
    revert Hnum. induction (rows df) as [|r l IH]; intros Hnum;
      [reflexivity|]. simpl.
    assert (IH' : (length (List.filter (keeps (clock st) c) l)
                   + length (List.filter (keeps (clock st) (.~ c)%col) l)
                   = length l)%nat).
    { apply IH. intros r0 Hr0. apply Hnum. apply elem_of_cons. auto. }
    destruct (numbers_in_or_out df r (Hnum r (list_elem_of_here _ _)))
      as [Hi|Ho].
    + apply (all_in_range_iff df (clock st)) in Hi.
      assert (K1 : keeps (clock st) c r = true)
        by (apply keeps_true_iff; exact Hi).
      rewrite K1, (keeps_exclusive _ _ _ K1). simpl. lia.
    + apply (some_out_of_range_iff df (clock st)) in Ho.
      assert (K2 : keeps (clock st) (.~ c)%col r = true)
        by (apply keeps_not_iff; exact Ho).
      rewrite K2, (keeps_exclusive' _ _ _ K2). simpl. lia.
Qed.

(** ** [run_all_checks] as five rule evaluations and a division *)

Lemma run_rule_total rule df st :
  exists st' valid invalid, run_rule rule df st = (st', Ok (valid, invalid)).
Proof.
  rewrite run_rule_run. destruct (rule_conditions rule df) as [[vc ic]|];
    unfold rule_outcome; eauto.
Qed.

Lemma append_if_any_filter l d :
  DataQualityChecker.append_if_any l d
  = l ++ List.filter (fun d => 0 <? count d) [d].
Proof.
  unfold DataQualityChecker.append_if_any. simpl.
  destruct (0 <? count d); [reflexivity|]. rewrite app_nil_r. reflexivity.
Qed.

Lemma duration_step v l st :
  (if has_column v "trip_duration_minutes" then
     bind (DataQualityChecker.validate_trip_duration v 1 300)
       (fun p => ret (p.1, DataQualityChecker.append_if_any l p.2))
   else ret (v, l)) st
  = bind (DataQualityChecker.validate_trip_duration v 1 300)
      (fun p => ret (p.1, DataQualityChecker.append_if_any l p.2)) st.
Proof.
  destruct (has_column v "trip_duration_minutes") eqn:Hc; [reflexivity|].
  unfold bind. rewrite validate_trip_duration_run, Hc. reflexivity.
Qed.

Lemma tip_step v l st :
  (if has_column v "tip_percentage" then
     bind (DataQualityChecker.validate_tip_percentage v 100)
       (fun p => ret (p.1, DataQualityChecker.append_if_any l p.2))
   else ret (v, l)) st
  = bind (DataQualityChecker.validate_tip_percentage v 100)
      (fun p => ret (p.1, DataQualityChecker.append_if_any l p.2)) st.
Proof.
  destruct (has_column v "tip_percentage") eqn:Hc; [reflexivity|].
  unfold bind. rewrite validate_tip_percentage_run, Hc. reflexivity.
Qed.

Lemma run_all_checks_trace df st :
  exists s1 v1 i1 s2 v2 i2 s3 v3 i3 s4 v4 i4 s5 v5 i5,
    run_rule NullRule df st = (s1, Ok (v1, i1)) /\
    run_rule RangeRule v1 s1 = (s2, Ok (v2, i2)) /\
    run_rule DatetimeRule v2 s2 = (s3, Ok (v3, i3)) /\
    run_rule DurationRule v3 s3 = (s4, Ok (v4, i4)) /\
    run_rule TipRule v4 s4 = (s5, Ok (v5, i5)) /\
    DataQualityChecker.run_all_checks df st
    = (s5, if count df =? 0 then Raise ZeroDivisionError
           else Ok (v5, List.filter (fun d => 0 <? count d)
                          [i1; i2; i3; i4; i5])).
Proof.
  destruct (run_rule_total NullRule df st) as (s1 & v1 & i1 & H1).
  destruct (run_rule_total RangeRule v1 s1) as (s2 & v2 & i2 & H2).
  destruct (run_rule_total DatetimeRule v2 s2) as (s3 & v3 & i3 & H3).
  destruct (run_rule_total DurationRule v3 s3) as (s4 & v4 & i4 & H4).
  destruct (run_rule_total TipRule v4 s4) as (s5 & v5 & i5 & H5).
  exists s1, v1, i1, s2, v2, i2, s3, v3, i3, s4, v4, i4, s5, v5, i5.
  repeat (split; [assumption|]).
  unfold DataQualityChecker.run_all_checks.
  simpl in H1, H2, H3, H4, H5.
  rewrite (bind_Ok _ _ _ _ _ H1). cbn [fst snd].
  rewrite (bind_Ok _ _ _ _ _ H2). cbn [fst snd].
  rewrite (bind_Ok _ _ _ _ _ H3). cbn [fst snd].
  unfold bind at 1. rewrite duration_step.
  rewrite (bind_Ok _ _ _ _ _ H4). unfold ret at 1. cbn [fst snd].
  unfold bind at 1. rewrite tip_step.
  rewrite (bind_Ok _ _ _ _ _ H5). unfold ret at 1. cbn [fst snd].
  unfold bind, py_div.
  destruct (count df =? 0); [reflexivity|].
  unfold ret. rewrite !append_if_any_filter. cbn [app].
  f_equal. f_equal. f_equal. simpl.
  destruct (0 <? count i1), (0 <? count i2), (0 <? count i3),
    (0 <? count i4), (0 <? count i5); reflexivity.
Qed.

Lemma rule_conditions_columns rule df df' :
  columns df' = columns df ->
  rule_conditions rule df' = rule_conditions rule df.
Proof.
  intros E. destruct rule; unfold rule_conditions,
    DataQualityChecker.null_condition_of,
    DataQualityChecker.range_condition_of, has_column;
    rewrite E; reflexivity.
Qed.

(** Everything one rule evaluation does, read off its two conditions. *)
Lemma rule_facts rule df st st' v i :
  run_rule rule df st = (st', Ok (v, i)) ->
  columns v = columns df /\
  clock st' = clock st /\ s3 st' = s3 st /\ s3_writes st' = s3_writes st /\
  s3_unwritable st' = s3_unwritable st /\ stdout st' = stdout st /\
  match rule_conditions rule df with
  | None =>
      v = df /\ i = mkDF (columns df) [] /\
      quality_metrics st' = quality_metrics st
  | Some (vc, ic) =>
      rows v = List.filter (keeps (clock st) vc) (rows df) /\
      i = mkDF (tagged_columns (columns df))
            (map (tag_row (clock st) (rule_reason rule))
                 (List.filter (keeps (clock st) ic) (rows df))) /\
      quality_metrics st'
      = <[rule_metric rule := count i]> (quality_metrics st)
  end.
Proof.
  rewrite run_rule_run.
  destruct (rule_conditions rule df) as [[vc ic]|].
  - unfold rule_outcome. intros H. inversion H; subst; clear H.
    cbn. repeat split; reflexivity.
  - intros H. inversion H; subst; clear H. repeat split; reflexivity.
Qed.

Lemma rule_valid_iff rule df0 df st st' v i :
  columns df = columns df0 ->
  run_rule rule df st = (st', Ok (v, i)) ->
  forall r,
    r ∈ rows v <->
    r ∈ rows df /\
    (forall vc ic, rule_conditions rule df0 = Some (vc, ic) ->
                   keeps (clock st) vc r = true).
Proof.
  intros Hc H r. apply rule_facts in H as (_ & _ & _ & _ & _ & _ & H).
  rewrite <- (rule_conditions_columns rule df0 df Hc).
  destruct (rule_conditions rule df) as [[vc ic]|].
  - destruct H as (-> & _). rewrite elem_of_List_filter. split.
    + intros [H1 H2]. split; [exact H1|]. intros vc' ic' [= <- <-]. exact H2.
    + intros [H1 H2]. split; [exact H1|]. eapply H2. reflexivity.
  - destruct H as (-> & _). split; [intros H; split; [exact H|]|tauto].
    intros vc ic [=].
Qed.

Lemma sql_gt_true_iff a b :
  sql_gt a b = VBool true <-> sql_compare a b = Some Gt.
Proof.
  unfold sql_gt. destruct (sql_compare a b) as [[]|]; split; intros H;
    congruence.
Qed.

Lemma passes_all_rules_iff df now r :
  (forall rule vc ic, rule_conditions rule df = Some (vc, ic) ->
                      keeps now vc r = true)
  <-> accepted_clean df r.
Proof.
  split.
  - intros H. constructor.
    + specialize (H NullRule). simpl in H.
      destruct (DataQualityChecker.null_condition_of
                  DataQualityChecker.REQUIRED_FIELDS df) as [c|] eqn:Hc.
      * specialize (H _ _ eq_refl). apply keeps_not_iff in H.
        intros Hn. apply has_null_required_iff in Hn.
        apply (null_condition_eval _ _ _ now r Hc) in Hn. congruence.
      * intros Hn. apply has_null_required_iff in Hn.
        apply null_condition_none in Hc.
        apply Exists_exists in Hn as (f & Hf & Hcol & _).
        rewrite Forall_forall in Hc. rewrite (Hc f Hf) in Hcol. discriminate.
    + specialize (H RangeRule _ _ eq_refl).
      apply keeps_true_iff, all_in_range_iff in H. exact H.
    + intros Hp Hd. specialize (H DatetimeRule). simpl in H.
      apply has_column_true in Hp, Hd. rewrite Hp, Hd in H. simpl in H.
      specialize (H _ _ eq_refl). apply keeps_true_iff in H.
      cbn [eval] in H. apply sql_gt_true_iff in H. exact H.
    + intros Hc. specialize (H DurationRule). simpl in H.
      apply has_column_true in Hc. rewrite Hc in H. simpl in H.
      specialize (H _ _ eq_refl).
      apply keeps_true_iff, range_conjunct_true in H. exact H.
    + intros Hc. specialize (H TipRule). simpl in H.
      apply has_column_true in Hc. rewrite Hc in H. simpl in H.
      specialize (H _ _ eq_refl).
      apply keeps_true_iff, range_conjunct_true in H. exact H.
  - intros [H1 H2 H3 H4 H5] rule vc ic. destruct rule; simpl.
    + destruct (DataQualityChecker.null_condition_of
                  DataQualityChecker.REQUIRED_FIELDS df) as [c|] eqn:Hc;
        intros [= <- <-].
      apply keeps_not_iff.
      destruct (null_condition_two_valued _ _ _ now r Hc) as ([] & E);
        [|exact E].
      exfalso. apply H1. apply has_null_required_iff.
      apply (null_condition_eval _ _ _ now r Hc). exact E.
    + intros [= <- <-]. apply keeps_true_iff, all_in_range_iff. exact H2.
    + destruct (has_column df "tpep_pickup_datetime") eqn:Hp;
        destruct (has_column df "tpep_dropoff_datetime") eqn:Hd;
        simpl; intros [= <- <-].
      apply keeps_true_iff. cbn [eval]. apply sql_gt_true_iff.
      apply H3; apply has_column_true; assumption.
    + destruct (has_column df "trip_duration_minutes") eqn:Hc;
        simpl; intros [= <- <-].
      apply keeps_true_iff, range_conjunct_true, H4, has_column_true, Hc.
    + destruct (has_column df "tip_percentage") eqn:Hc;
        simpl; intros [= <- <-].
      apply keeps_true_iff, range_conjunct_true, H5, has_column_true, Hc.
Qed.

Lemma run_all_checks_Ok_inv df st st' accepted invalid_dfs :
  DataQualityChecker.run_all_checks df st = (st', Ok (accepted, invalid_dfs)) ->
  exists s1 v1 i1 s2 v2 i2 s3 v3 i3 s4 v4 i4 i5,
    run_rule NullRule df st = (s1, Ok (v1, i1)) /\
    run_rule RangeRule v1 s1 = (s2, Ok (v2, i2)) /\
    run_rule DatetimeRule v2 s2 = (s3, Ok (v3, i3)) /\
    run_rule DurationRule v3 s3 = (s4, Ok (v4, i4)) /\
    run_rule TipRule v4 s4 = (st', Ok (accepted, i5)) /\
    invalid_dfs
    = List.filter (fun d => 0 <? count d) [i1; i2; i3; i4; i5] /\
    count df <> 0.
Proof.
  intros H.
  destruct (run_all_checks_trace df st)
    as (s1 & v1 & i1 & s2 & v2 & i2 & s3 & v3 & i3 & s4 & v4 & i4 & s5 & v5
        & i5 & H1 & H2 & H3 & H4 & H5 & E).
  rewrite E in H. destruct (count df =? 0) eqn:Hz; [discriminate|].
  inversion H; subst. apply Z.eqb_neq in Hz.
  exists s1, v1, i1, s2, v2, i2, s3, v3, i3, s4, v4, i4, i5. auto 10.
Qed.

Lemma rule_keeps_sublist rule d s s' v i :
  run_rule rule d s = (s', Ok (v, i)) -> sublist (rows v) (rows d).
Proof.
  intros Hr. apply rule_facts in Hr as (_ & _ & _ & _ & _ & _ & Hr).
  destruct (rule_conditions rule d) as [[vc ic]|].
  - destruct Hr as (-> & _). apply sublist_List_filter.
  - destruct Hr as (-> & _). reflexivity.
Qed.

Lemma checks_accepted df st st' accepted invalid_dfs :
  DataQualityChecker.run_all_checks df st = (st', Ok (accepted, invalid_dfs)) ->
  columns accepted = columns df /\
  sublist (rows accepted) (rows df) /\
  (forall r, r ∈ rows accepted <->
             r ∈ rows df /\
             (forall rule vc ic, rule_conditions rule df = Some (vc, ic) ->
                                 keeps (clock st) vc r = true)).
Proof.
  intros H. apply run_all_checks_Ok_inv in H
    as (s1 & v1 & i1 & s2 & v2 & i2 & s3 & v3 & i3 & s4 & v4 & i4 & i5
        & H1 & H2 & H3 & H4 & H5 & _ & _).
  pose proof (rule_facts _ _ _ _ _ _ H1) as (C1 & K1 & _).
  pose proof (rule_facts _ _ _ _ _ _ H2) as (C2 & K2 & _).
  pose proof (rule_facts _ _ _ _ _ _ H3) as (C3 & K3 & _).
  pose proof (rule_facts _ _ _ _ _ _ H4) as (C4 & K4 & _).
  pose proof (rule_facts _ _ _ _ _ _ H5) as (C5 & K5 & _).
  assert (E1 : columns v1 = columns df) by exact C1.
  assert (E2 : columns v2 = columns df) by congruence.
  assert (E3 : columns v3 = columns df) by congruence.
  assert (E4 : columns v4 = columns df) by congruence.
  split; [congruence|].
  pose proof (rule_valid_iff NullRule df df st s1 v1 i1 eq_refl H1) as R1.
  pose proof (rule_valid_iff RangeRule df v1 s1 s2 v2 i2 E1 H2) as R2.
  pose proof (rule_valid_iff DatetimeRule df v2 s2 s3 v3 i3 E2 H3) as R3.
  pose proof (rule_valid_iff DurationRule df v3 s3 s4 v4 i4 E3 H4) as R4.
  pose proof (rule_valid_iff TipRule df v4 s4 st' accepted i5 E4 H5) as R5.
  rewrite K1 in R2. rewrite K2, K1 in R3. rewrite K3, K2, K1 in R4.
  rewrite K4, K3, K2, K1 in R5.
  split.
  - etrans; [exact (rule_keeps_sublist _ _ _ _ _ _ H5)|].
    etrans; [exact (rule_keeps_sublist _ _ _ _ _ _ H4)|].
    etrans; [exact (rule_keeps_sublist _ _ _ _ _ _ H3)|].
    etrans; [exact (rule_keeps_sublist _ _ _ _ _ _ H2)|].
    exact (rule_keeps_sublist _ _ _ _ _ _ H1).
  - intros r. rewrite R5, R4, R3, R2, R1. split.
    + intros [[[[[Hr N] Rg] D] Du] T]. split; [exact Hr|].
      intros []; assumption.
    + intros [Hr Hall]. repeat split; try exact Hr; apply Hall.
Qed.

(** X8. When [run_all_checks] returns, the batch it accepted has the
    columns of the input and holds, in the input's order, exactly the
    records of the input that pass the five rules: no NULL in a required
    field, every range-checked cell within its range, dropoff after pickup,
    duration from 1 to 300 minutes and tip percentage from 0 to 100, a rule
    asking nothing when its columns are not in the batch. *)
Theorem run_all_checks_accepts_exactly_clean df st st' accepted invalid_dfs :
  DataQualityChecker.run_all_checks df st = (st', Ok (accepted, invalid_dfs)) ->
  columns accepted = columns df /\
  sublist (rows accepted) (rows df) /\
  (forall r, r ∈ rows accepted <-> r ∈ rows df /\ accepted_clean df r).
Proof.
  intros H. apply checks_accepted in H as (E & S & R).
  split; [exact E|]. split; [exact S|].
  intros r. rewrite <- (passes_all_rules_iff df (clock st) r). apply R.
Qed.

(** X9. [run_all_checks] returns only on a batch that holds a record, and
    a [ZeroDivisionError] can only come from a batch that holds none. *)
Theorem run_all_checks_division_only_on_empty df st :
  (forall st' p,
      DataQualityChecker.run_all_checks df st = (st', Ok p) ->
      rows df <> []) /\
  (forall st',
      DataQualityChecker.run_all_checks df st
      = (st', Raise ZeroDivisionError) ->
      rows df = []).
Proof.
  destruct (run_all_checks_trace df st)
    as (s1 & v1 & i1 & s2 & v2 & i2 & s3 & v3 & i3 & s4 & v4 & i4 & s5 & v5
        & i5 & _ & _ & _ & _ & _ & E).
  rewrite E. unfold count.
  destruct (rows df) as [|r l]; simpl; split; intros; congruence.
Qed.

(** Two exclusive filters share out a list: what they keep, put together,
    is within the list, counted with multiplicity. *)
Lemma exclusive_filters_submseteq {A B} (f : A -> B) (p q : A -> bool) l :
  (forall x, p x = true -> q x = false) ->
  map f (List.filter p l) ++ map f (List.filter q l) ⊆+ map f l.
Proof.
  intros Hpq. induction l as [|x l IH]; simpl; [constructor|].
  destruct (p x) eqn:Hp.
  - rewrite (Hpq x Hp). simpl. apply submseteq_skip. exact IH.
  - destruct (q x); simpl.
    + etrans; [|apply submseteq_skip; exact IH].
      apply Permutation_submseteq. symmetry. apply Permutation_middle.
    + apply submseteq_cons. exact IH.
Qed.

Lemma rule_shares_out rule df st st' v i :
  run_rule rule df st = (st', Ok (v, i)) ->
  rids v ++ rids i ⊆+ rids df.
Proof.
  intros H. apply rule_facts in H as (_ & _ & _ & _ & _ & _ & H).
  destruct (rule_conditions rule df) as [[vc ic]|] eqn:Hc.
  - destruct H as (Hv & -> & _). unfold rids. rewrite Hv. cbn [rows].
    rewrite rids_tagged. apply exclusive_filters_submseteq.
    intros r. apply (rule_conditions_exclusive _ _ _ _ _ _ Hc).
  - destruct H as (-> & -> & _). unfold rids; simpl. rewrite app_nil_r.
    reflexivity.
Qed.

Lemma all_rids_filter_nonempty l :
  all_rids (List.filter (fun d => 0 <? count d) l) = all_rids l.
Proof.
  unfold all_rids. induction l as [|d l IH]; [reflexivity|]. simpl.
  destruct (0 <? count d) eqn:H; simpl; rewrite IH; [reflexivity|].
  apply Z.ltb_ge in H. unfold count in H. unfold rids.
  destruct (rows d); [reflexivity|]. simpl in H. lia.
Qed.

Lemma shares_chain (acc v i d rest : list nat) :
  acc ++ rest ⊆+ v -> v ++ i ⊆+ d -> acc ++ i ++ rest ⊆+ d.
Proof.
  intros H1 H2. etrans; [|exact H2].
  rewrite (Permutation_app_comm i rest), app_assoc.
  apply submseteq_app; [exact H1|reflexivity].
Qed.

Lemma rule_rejected_columns rule df st st' v i :
  run_rule rule df st = (st', Ok (v, i)) -> 0 < count i ->
  columns i = tagged_columns (columns df).
Proof.
  intros Hr Hp. apply rule_facts in Hr as (_ & _ & _ & _ & _ & _ & Hr).
  destruct (rule_conditions rule df) as [[vc ic]|].
  - destruct Hr as (_ & -> & _). reflexivity.
  - destruct Hr as (_ & -> & _). unfold count in Hp. simpl in Hp. lia.
Qed.

Lemma run_all_checks_batches df st st' accepted invalid_dfs :
  DataQualityChecker.run_all_checks df st = (st', Ok (accepted, invalid_dfs)) ->
  Forall (fun d => 0 < count d /\
                   columns d = tagged_columns (columns df)) invalid_dfs.
Proof.
  intros H. apply run_all_checks_Ok_inv in H
    as (s1 & v1 & i1 & s2 & v2 & i2 & s3 & v3 & i3 & s4 & v4 & i4 & i5
        & H1 & H2 & H3 & H4 & H5 & -> & _).
  apply Forall_forall. intros d Hd.
  apply elem_of_List_filter in Hd as [Hd Hpos].
  apply Z.ltb_lt in Hpos. split; [exact Hpos|].
  pose proof (rule_facts _ _ _ _ _ _ H1) as (C1 & _).
  pose proof (rule_facts _ _ _ _ _ _ H2) as (C2 & _).
  pose proof (rule_facts _ _ _ _ _ _ H3) as (C3 & _).
  pose proof (rule_facts _ _ _ _ _ _ H4) as (C4 & _).
  repeat (apply elem_of_cons in Hd as [->|Hd]); [| | | | |inversion Hd].
  - eapply rule_rejected_columns; eauto.
  - rewrite <- C1. eapply rule_rejected_columns; eauto.
  - rewrite <- C1, <- C2. eapply rule_rejected_columns; eauto.
  - rewrite <- C1, <- C2, <- C3. eapply rule_rejected_columns; eauto.
  - rewrite <- C1, <- C2, <- C3, <- C4. eapply rule_rejected_columns; eauto.
Qed.

(** X10. When [run_all_checks] returns, no record of the input is counted
    twice among the accepted batch and the invalid batches taken together;
    the list of invalid batches holds at most five batches, none of them
    empty, all with the columns of the input and the two tag columns. *)
Theorem run_all_checks_buckets df st st' accepted invalid_dfs :
  DataQualityChecker.run_all_checks df st = (st', Ok (accepted, invalid_dfs)) ->
  rids accepted ++ all_rids invalid_dfs ⊆+ rids df /\
  Forall (fun d => 0 < count d /\
                   columns d = tagged_columns (columns df)) invalid_dfs /\
  (length invalid_dfs <= 5)%nat.
Proof.
  intros H. split; [|split; [exact (run_all_checks_batches _ _ _ _ _ H)|]];
    apply run_all_checks_Ok_inv in H
      as (s1 & v1 & i1 & s2 & v2 & i2 & s3 & v3 & i3 & s4 & v4 & i4 & i5
          & H1 & H2 & H3 & H4 & H5 & -> & _).
  - rewrite all_rids_filter_nonempty. unfold all_rids. cbn [map concat].
    eapply shares_chain; [|exact (rule_shares_out _ _ _ _ _ _ H1)].
    eapply shares_chain; [|exact (rule_shares_out _ _ _ _ _ _ H2)].
    eapply shares_chain; [|exact (rule_shares_out _ _ _ _ _ _ H3)].
    eapply shares_chain; [|exact (rule_shares_out _ _ _ _ _ _ H4)].
    rewrite app_nil_r. exact (rule_shares_out _ _ _ _ _ _ H5).
  - etrans; [apply sublist_length, sublist_List_filter|]. simpl. lia.
Qed.

(** ** Quality metrics *)

Lemma metrics_sum_insert (m : gmap string Z) k n :
  m !! k = None -> metrics_sum (<[k := n]> m) = n + metrics_sum m.
Proof.
  intros H. unfold metrics_sum.
  rewrite map_fold_insert_L; [reflexivity| |exact H].
  intros. lia.
Qed.

Lemma rule_metric_inj r1 r2 : rule_metric r1 = rule_metric r2 -> r1 = r2.
Proof. destruct r1, r2; simpl; intros H; try discriminate; reflexivity. Qed.

Lemma metrics_account_step rule done df st st' v i total :
  rule ∉ done ->
  run_rule rule df st = (st', Ok (v, i)) ->
  metrics_account done (quality_metrics st) total ->
  metrics_account (rule :: done) (quality_metrics st') (total + count i).
Proof.
  intros Hnew H [Hsum Hdom].
  apply rule_facts in H as (_ & _ & _ & _ & _ & _ & H).
  destruct (rule_conditions rule df) as [[vc ic]|].
  - destruct H as (_ & _ & ->). split.
    + rewrite metrics_sum_insert; [lia|].
      destruct (quality_metrics st !! rule_metric rule) eqn:E;
        [|reflexivity].
      destruct (Hdom _ (mk_is_Some _ _ E)) as (r & Hr & Heq).
      apply rule_metric_inj in Heq. subst r. contradiction.
    + intros k Hk. destruct (decide (rule_metric rule = k)) as [<-|Hne].
      * exists rule. split; [apply list_elem_of_here|reflexivity].
      * rewrite lookup_insert_ne in Hk by exact Hne.
        destruct (Hdom k Hk) as (r & Hr & ->).
        exists r. split; [apply list_elem_of_further; exact Hr|reflexivity].
  - destruct H as (_ & -> & ->). split.
    + unfold count; simpl. lia.
    + intros k Hk. destruct (Hdom k Hk) as (r & Hr & ->).
      exists r. split; [apply list_elem_of_further; exact Hr|reflexivity].
Qed.

Lemma count_rids d : count d = Z.of_nat (length (rids d)).
Proof. unfold count, rids. rewrite length_map. reflexivity. Qed.

(** X11. On a checker whose metrics are still empty, the metrics
    [run_all_checks] leaves add up to the number of records in the invalid
    batches it returns. *)
Theorem run_all_checks_metrics_count_rejected df st :
  quality_metrics st = ∅ ->
  forall st' accepted invalid_dfs,
    DataQualityChecker.run_all_checks df st
    = (st', Ok (accepted, invalid_dfs)) ->
    metrics_sum (quality_metrics st')
    = Z.of_nat (length (all_rids invalid_dfs)).
Proof.
  intros Hfresh st' accepted invalid_dfs H.
  apply run_all_checks_Ok_inv in H
    as (s1 & v1 & i1 & s2 & v2 & i2 & s3 & v3 & i3 & s4 & v4 & i4 & i5
        & H1 & H2 & H3 & H4 & H5 & -> & _).
  assert (A0 : metrics_account [] (quality_metrics st) 0).
  { rewrite Hfresh. split; [reflexivity|].
    intros k [x Hk]. rewrite lookup_empty in Hk. discriminate. }
  assert (N : forall (rule : Rule) done,
             forallb (fun r => negb (bool_decide (r = rule))) done = true ->
             rule ∉ done).
  { intros rule done Hf Hin. rewrite forallb_forall in Hf.
    specialize (Hf rule (proj1 (list_elem_of_In _ _) Hin)).
    rewrite bool_decide_eq_true_2 in Hf by reflexivity. discriminate. }
  pose proof (metrics_account_step NullRule [] df st s1 v1 i1 0
                (N NullRule [] eq_refl) H1 A0) as A1.
  pose proof (metrics_account_step RangeRule _ v1 s1 s2 v2 i2 _
                (N RangeRule [NullRule] eq_refl) H2 A1) as A2.
  pose proof (metrics_account_step DatetimeRule _ v2 s2 s3 v3 i3 _
                (N DatetimeRule [RangeRule; NullRule] eq_refl) H3 A2) as A3.
  pose proof (metrics_account_step DurationRule _ v3 s3 s4 v4 i4 _
                (N DurationRule [DatetimeRule; RangeRule; NullRule] eq_refl)
                H4 A3) as A4.
  pose proof (metrics_account_step TipRule _ v4 s4 st' accepted i5 _
                (N TipRule [DurationRule; DatetimeRule; RangeRule; NullRule]
                   eq_refl) H5 A4) as [A5 _].
  rewrite A5, all_rids_filter_nonempty. unfold all_rids. simpl.
  rewrite !length_app, !count_rids. simpl. lia.
Qed.

Lemma rule_metric_frame rule df st st' v i k :
  run_rule rule df st = (st', Ok (v, i)) ->
  k <> rule_metric rule \/ rule_conditions rule df = None ->
  quality_metrics st' !! k = quality_metrics st !! k.
Proof.
  intros H Hk. apply rule_facts in H as (_ & _ & _ & _ & _ & _ & H).
  destruct (rule_conditions rule df) as [[vc ic]|].
  - destruct H as (_ & _ & ->). destruct Hk as [Hk|Hk]; [|discriminate].
    apply lookup_insert_ne. congruence.
  - destruct H as (_ & _ & ->). reflexivity.
Qed.

Lemma skipped_rule_metric_untouched rule df st :
  rule_conditions rule df = None ->
  quality_metrics (DataQualityChecker.run_all_checks df st).1
    !! rule_metric rule
  = quality_metrics st !! rule_metric rule.
Proof.
  intros Hskip.
  destruct (run_all_checks_trace df st)
    as (s1 & v1 & i1 & s2 & v2 & i2 & s3 & v3 & i3 & s4 & v4 & i4 & s5 & v5
        & i5 & H1 & H2 & H3 & H4 & H5 & E).
  rewrite E. cbn [fst].
  pose proof (rule_facts _ _ _ _ _ _ H1) as (C1 & _).
  pose proof (rule_facts _ _ _ _ _ _ H2) as (C2 & _).
  pose proof (rule_facts _ _ _ _ _ _ H3) as (C3 & _).
  pose proof (rule_facts _ _ _ _ _ _ H4) as (C4 & _).
  assert (S : forall r d, columns d = columns df ->
               rule_metric rule <> rule_metric r \/
               rule_conditions r d = None).
  { intros r d Hd. destruct (decide (r = rule)) as [->|Hne].
    - right. rewrite (rule_conditions_columns rule df d Hd). exact Hskip.
    - left. intros Heq. apply rule_metric_inj in Heq. congruence. }
  assert (E1 : columns v1 = columns df) by exact C1.
  assert (E2 : columns v2 = columns df) by congruence.
  assert (E3 : columns v3 = columns df) by congruence.
  assert (E4 : columns v4 = columns df) by congruence.
  rewrite (rule_metric_frame _ _ _ _ _ _ _ H5 (S TipRule v4 E4)).
  rewrite (rule_metric_frame _ _ _ _ _ _ _ H4 (S DurationRule v3 E3)).
  rewrite (rule_metric_frame _ _ _ _ _ _ _ H3 (S DatetimeRule v2 E2)).
  rewrite (rule_metric_frame _ _ _ _ _ _ _ H2 (S RangeRule v1 E1)).
  rewrite (rule_metric_frame _ _ _ _ _ _ _ H1 (S NullRule df eq_refl)).
  reflexivity.
Qed.

(** X12. A rule that [run_all_checks] skips, because its column or columns
    are not in the batch, leaves its metric as it was before the run: the
    metrics then still show, under that key, whatever an earlier run
    stored, or nothing. *)
Theorem skipped_rules_leave_stale_metrics df st :
  let after := quality_metrics (DataQualityChecker.run_all_checks df st).1 in
  ("trip_duration_minutes" ∉ columns df ->
   after !! "duration_violations"
   = quality_metrics st !! "duration_violations") /\
  ("tip_percentage" ∉ columns df ->
   after !! "tip_percentage_violations"
   = quality_metrics st !! "tip_percentage_violations") /\
  ("tpep_pickup_datetime" ∉ columns df \/
   "tpep_dropoff_datetime" ∉ columns df ->
   after !! "datetime_violations"
   = quality_metrics st !! "datetime_violations").
Proof.
  cbv zeta. split; [|split].
  - intros H. apply (skipped_rule_metric_untouched DurationRule).
    simpl. apply has_column_false in H. rewrite H. reflexivity.
  - intros H. apply (skipped_rule_metric_untouched TipRule).
    simpl. apply has_column_false in H. rewrite H. reflexivity.
  - intros H. apply (skipped_rule_metric_untouched DatetimeRule).
    simpl. destruct H as [H|H]; apply has_column_false in H; rewrite H;
      [reflexivity|]. rewrite orb_true_r. reflexivity.
Qed.

(** ** The driver's basic filter *)

Lemma sql_gt_zero_iff r f now :
  eval now r (col f .> num 0)%col = VBool true <-> positive r f.
Proof.
  cbn [eval num]. rewrite sql_gt_true_iff. unfold positive.
  destruct (row_get r f) as [| |v| |]; simpl;
    try (split; [discriminate|intros (v' & H & _); discriminate H]).
  split.
  - intros [= H]. exists v. split; [reflexivity|]. apply Qgt_alt in H. exact H.
  - intros (v' & [= <-] & H). f_equal. apply Qgt_alt. exact H.
Qed.

Lemma filter_condition_iff now r :
  keeps now glue_etl_job.filter_condition r = true <-> passes_basic_filter r.
Proof.
  rewrite keeps_true_iff. unfold glue_etl_job.filter_condition.
  change (sql_and (sql_and (sql_and
            (eval now r (col "trip_distance" .> num 0)%col)
            (eval now r (col "fare_amount" .> num 0)%col))
            (eval now r (col "passenger_count" .> num 0)%col))
            (eval now r (col "tpep_dropoff_datetime"
                         .> col "tpep_pickup_datetime")%col) = VBool true
          <-> passes_basic_filter r).
  rewrite !sql_and_true_iff, !sql_gt_zero_iff.
  cbn [eval]. rewrite sql_gt_true_iff. split.
  - intros [[[H1 H2] H3] H4]. constructor; assumption.
  - intros [H1 H2 H3 H4]. auto.
Qed.



(** ** The driver's checks, as four steps and a division *)

Lemma resolves_range_condition df :
  resolves df glue_etl_job.range_condition
  = forallb (has_column df) range_columns.
Proof.
  unfold resolves, glue_etl_job.range_condition, num, range_columns.
  cbn [references app forallb].
  destruct (has_column df "passenger_count"),
    (has_column df "trip_distance"), (has_column df "fare_amount");
    reflexivity.
Qed.

Lemma glue_append_if_any_filter l d :
  glue_etl_job.append_if_any l d
  = l ++ List.filter (fun d => 0 <? count d) [d].
Proof.
  unfold glue_etl_job.append_if_any. simpl.
  destruct (0 <? count d); [reflexivity|]. rewrite app_nil_r. reflexivity.
Qed.

Lemma bind_df_filter {A} c df (f : DataFrame -> M A) st :
  resolves df c = true ->
  bind (df_filter c df) f st
  = f (mkDF (columns df) (List.filter (keeps (clock st) c) (rows df))) st.
Proof. intros H. unfold bind. rewrite df_filter_run, H. reflexivity. Qed.

Lemma bind_withColumn {A} name c df (f : DataFrame -> M A) st :
  resolves df c = true ->
  bind (withColumn name c df) f st = f (with_col (clock st) name c df) st.
Proof. intros H. unfold bind. rewrite withColumn_run, H. reflexivity. Qed.

Lemma tagged_with_col now reason cols rs :
  with_col now "failed_at" current_timestamp
    (with_col now "failure_reason" (lit (VStr reason)) (mkDF cols rs))
  = mkDF (tagged_columns cols) (map (tag_row now reason) rs).
Proof. unfold with_col. cbn [rows columns]. rewrite map_map. reflexivity. Qed.

(** One check of the driver, run with the rest of the job as [k]. *)
Ltac driver_check Hr :=
  rewrite bind_df_filter by exact Hr;
  rewrite bind_withColumn by reflexivity;
  rewrite bind_withColumn by reflexivity;
  rewrite tagged_with_col;
  rewrite bind_df_filter by exact Hr.

Lemma run_data_quality_checks_trace df b r st :
  exists v1 i1,
    check_step (clock st) (driver_conditions NullCheck df) "null_in_required_field"
      df v1 i1 /\
    if negb (forallb (has_column df) range_columns)
    then glue_etl_job.run_data_quality_checks df b r st
         = (st, Raise (AnalysisException "cannot resolve column"))
    else
      exists v2 i2 v3 i3 v4 i4,
        check_step (clock st) (driver_conditions RangeCheck df)
          "numeric_range_violation" v1 v2 i2 /\
        check_step (clock st) (driver_conditions DurationCheck df)
          "invalid_trip_duration" v2 v3 i3 /\
        check_step (clock st) (driver_conditions TipCheck df)
          "invalid_tip_percentage" v3 v4 i4 /\
        glue_etl_job.run_data_quality_checks df b r st
        = (st, if count df =? 0 then Raise ZeroDivisionError
               else Ok (v4, List.filter (fun d => 0 <? count d)
                              [i1; i2; i3; i4])).
Proof.
  unfold glue_etl_job.run_data_quality_checks, driver_conditions.
  set (now := clock st).
  assert (S1 : exists v1 i1,
    check_step now
      match DataQualityChecker.null_condition_of
              glue_etl_job.required_fields df with
      | Some c => Some ((.~ c)%col, c)
      | None => None
      end "null_in_required_field" df v1 i1 /\
    columns v1 = columns df /\
    forall (k : DataFrame * list DataFrame -> M (DataFrame * list DataFrame)),
    bind
      match DataQualityChecker.null_condition_of
              glue_etl_job.required_fields df with
      | Some null_condition =>
          bind (df_filter null_condition df) (fun d =>
          bind (withColumn "failure_reason"
                  (lit (VStr "null_in_required_field")) d) (fun d =>
          bind (withColumn "failed_at" current_timestamp d)
            (fun invalid_nulls =>
          bind (df_filter (.~ null_condition)%col df) (fun df0 =>
          ret (df0, glue_etl_job.append_if_any [] invalid_nulls)))))
      | None => ret (df, [])
      end k st
    = k (v1, List.filter (fun d => 0 <? count d) [i1]) st).
  { destruct (DataQualityChecker.null_condition_of
                glue_etl_job.required_fields df) as [c|] eqn:Hc.
    - do 2 eexists. split; [split; reflexivity|]. split; [reflexivity|].
      intros k. pose proof (null_condition_resolves _ _ _ Hc) as Hr.
      unfold bind at 1. driver_check Hr.
      unfold ret at 1. rewrite glue_append_if_any_filter. reflexivity.
    - do 2 eexists. split; [split; reflexivity|]. split; [reflexivity|].
      intros k. reflexivity. }
  destruct S1 as (v1 & i1 & C1 & E1 & R1).
  exists v1, i1. split; [exact C1|].
  rewrite R1. cbn [fst snd]. clear R1.
  assert (HR : resolves v1 glue_etl_job.range_condition
               = forallb (has_column df) range_columns).
  { rewrite resolves_range_condition. unfold has_column. rewrite E1.
    reflexivity. }
  destruct (forallb (has_column df) range_columns) eqn:Hcols; cbn [negb].
  2:{ unfold bind at 1. rewrite df_filter_run.
      change (resolves v1 (.~ glue_etl_job.range_condition)%col)
        with (resolves v1 glue_etl_job.range_condition).
      rewrite HR. reflexivity. }
  driver_check HR. fold now.
  set (v2 := mkDF (columns v1)
               (List.filter (keeps now glue_etl_job.range_condition)
                  (rows v1))).
  set (i2 := mkDF (tagged_columns (columns v1)) _).
  exists v2, i2.
  assert (S3 : exists v3 i3,
    check_step now
      (if has_column df "trip_duration_minutes"
       then Some (glue_etl_job.duration_condition,
                  (.~ glue_etl_job.duration_condition)%col)
       else None) "invalid_trip_duration" v2 v3 i3 /\
    columns v3 = columns df /\
    forall l (k : DataFrame * list DataFrame -> M (DataFrame * list DataFrame)),
    bind
      (if has_column v2 "trip_duration_minutes" then
         bind (df_filter (.~ glue_etl_job.duration_condition)%col v2)
           (fun d =>
         bind (withColumn "failure_reason"
                 (lit (VStr "invalid_trip_duration")) d) (fun d =>
         bind (withColumn "failed_at" current_timestamp d)
           (fun invalid_duration =>
         bind (df_filter glue_etl_job.duration_condition v2) (fun df0 =>
         ret (df0, glue_etl_job.append_if_any l invalid_duration)))))
       else ret (v2, l)) k st
    = k (v3, l ++ List.filter (fun d => 0 <? count d) [i3]) st).
  { assert (Hh : has_column v2 "trip_duration_minutes"
                 = has_column df "trip_duration_minutes").
    { unfold has_column, v2. cbn [columns]. rewrite E1. reflexivity. }
    rewrite Hh.
    destruct (has_column df "trip_duration_minutes") eqn:Hd.
    - do 2 eexists. split; [split; reflexivity|].
      split; [cbn [columns]; exact E1|].
      intros l k.
      assert (Hr : resolves v2 glue_etl_job.duration_condition = true).
      { unfold resolves, glue_etl_job.duration_condition, num.
        cbn [references app forallb]. rewrite Hh. reflexivity. }
      unfold bind at 1. driver_check Hr.
      unfold ret at 1. rewrite glue_append_if_any_filter. reflexivity.
    - do 2 eexists. split; [split; reflexivity|].
      split; [cbn [columns]; exact E1|].
      intros l k. unfold bind at 1, ret at 1. cbn [List.filter].
      rewrite app_nil_r. reflexivity. }
  destruct S3 as (v3 & i3 & C3 & E3 & R3).
  exists v3, i3.
  rewrite R3. cbn [fst snd]. clear R3.
  assert (S4 : exists v4 i4,
    check_step now
      (if has_column df "tip_percentage"
       then Some (glue_etl_job.tip_condition,
                  (.~ glue_etl_job.tip_condition)%col)
       else None) "invalid_tip_percentage" v3 v4 i4 /\
    forall l (k : DataFrame * list DataFrame -> M (DataFrame * list DataFrame)),
    bind
      (if has_column v3 "tip_percentage" then
         bind (df_filter (.~ glue_etl_job.tip_condition)%col v3)
           (fun d =>
         bind (withColumn "failure_reason"
                 (lit (VStr "invalid_tip_percentage")) d) (fun d =>
         bind (withColumn "failed_at" current_timestamp d)
           (fun invalid_tip =>
         bind (df_filter glue_etl_job.tip_condition v3) (fun df0 =>
         ret (df0, glue_etl_job.append_if_any l invalid_tip)))))
       else ret (v3, l)) k st
    = k (v4, l ++ List.filter (fun d => 0 <? count d) [i4]) st).
  { assert (Hh : has_column v3 "tip_percentage"
                 = has_column df "tip_percentage").
    { unfold has_column. rewrite E3. reflexivity. }
    rewrite Hh.
    destruct (has_column df "tip_percentage") eqn:Hd.
    - do 2 eexists. split; [split; reflexivity|].
      intros l k.
      assert (Hr : resolves v3 glue_etl_job.tip_condition = true).
      { unfold resolves, glue_etl_job.tip_condition, num.
        cbn [references app forallb]. rewrite Hh. reflexivity. }
      unfold bind at 1. driver_check Hr.
      unfold ret at 1. rewrite glue_append_if_any_filter. reflexivity.
    - do 2 eexists. split; [split; reflexivity|].
      intros l k. unfold bind at 1, ret at 1. cbn [List.filter].
      rewrite app_nil_r. reflexivity. }
  destruct S4 as (v4 & i4 & C4 & R4).
  exists v4, i4.
  rewrite R4. cbn [fst snd]. clear R4.
  split; [split; reflexivity|]. split; [exact C3|]. split; [exact C4|].
  unfold bind, py_div. destruct (count df =? 0); [reflexivity|].
  unfold ret. rewrite glue_append_if_any_filter.
  f_equal. f_equal. f_equal. rewrite <- !app_assoc.
  cbn [List.filter app].
  destruct (0 <? count i1), (0 <? count i2), (0 <? count i3),
    (0 <? count i4); reflexivity.
Qed.

Lemma run_data_quality_checks_Ok_inv df b r st st' accepted invalid_dfs :
  glue_etl_job.run_data_quality_checks df b r st
  = (st', Ok (accepted, invalid_dfs)) ->
  st' = st /\ count df <> 0 /\
  (forall c, c ∈ range_columns -> c ∈ columns df) /\
  exists v1 i1 v2 i2 v3 i3 i4,
    check_step (clock st) (driver_conditions NullCheck df) "null_in_required_field"
      df v1 i1 /\
    check_step (clock st) (driver_conditions RangeCheck df)
      "numeric_range_violation" v1 v2 i2 /\
    check_step (clock st) (driver_conditions DurationCheck df)
      "invalid_trip_duration" v2 v3 i3 /\
    check_step (clock st) (driver_conditions TipCheck df)
      "invalid_tip_percentage" v3 accepted i4 /\
    invalid_dfs = List.filter (fun d => 0 <? count d) [i1; i2; i3; i4].
Proof.
  intros H.
  destruct (run_data_quality_checks_trace df b r st) as (v1 & i1 & C1 & T).
  destruct (forallb (has_column df) range_columns) eqn:Hc; cbn [negb] in T.
  2:{ rewrite T in H. discriminate. }
  destruct T as (v2 & i2 & v3 & i3 & v4 & i4 & C2 & C3 & C4 & E).
  rewrite E in H. destruct (count df =? 0) eqn:Hz; [discriminate|].
  inversion H; subst. apply Z.eqb_neq in Hz.
  split; [reflexivity|]. split; [exact Hz|]. split.
  - intros c Hin. rewrite forallb_forall in Hc.
    apply has_column_true, Hc, list_elem_of_In, Hin.
  - exists v1, i1, v2, i2, v3, i3, i4. auto 10.
Qed.

Lemma check_step_valid now conds reason d v i :
  check_step now conds reason d v i ->
  columns v = columns d /\ sublist (rows v) (rows d) /\
  forall r, r ∈ rows v <->
            r ∈ rows d /\
            (forall vc ic, conds = Some (vc, ic) -> keeps now vc r = true).
Proof.
  destruct conds as [[vc ic]|]; intros [-> ->]; cbn [columns rows].
  - split; [reflexivity|]. split; [apply sublist_List_filter|].
    intros r. rewrite elem_of_List_filter. split.
    + intros [H1 H2]. split; [exact H1|]. intros ? ? [= <- <-]. exact H2.
    + intros [H1 H2]. split; [exact H1|]. eapply H2. reflexivity.
  - split; [reflexivity|]. split; [reflexivity|].
    intros r. split; [|tauto]. intros H. split; [exact H|]. intros ? ? [=].
Qed.

Lemma check_step_shares now conds reason d v i :
  (forall vc ic r, conds = Some (vc, ic) ->
                   keeps now vc r = true -> keeps now ic r = false) ->
  check_step now conds reason d v i ->
  rids v ++ rids i ⊆+ rids d /\
  (0 < count i -> columns i = tagged_columns (columns d)).
Proof.
  intros Hx. destruct conds as [[vc ic]|]; intros [-> ->]; split.
  - unfold rids. cbn [rows]. rewrite rids_tagged.
    apply exclusive_filters_submseteq. intros r. eapply Hx. reflexivity.
  - reflexivity.
  - unfold rids; simpl. rewrite app_nil_r. reflexivity.
  - unfold count; simpl. lia.
Qed.

Lemma driver_conditions_columns k df df' :
  columns df' = columns df ->
  driver_conditions k df' = driver_conditions k df.
Proof.
  intros E. unfold driver_conditions, DataQualityChecker.null_condition_of,
    has_column. rewrite E. reflexivity.
Qed.

Lemma driver_conditions_exclusive k df vc ic now r :
  driver_conditions k df = Some (vc, ic) ->
  keeps now vc r = true -> keeps now ic r = false.
Proof.
  destruct k; simpl.
  - destruct (DataQualityChecker.null_condition_of _ df); intros [= <- <-].
    apply keeps_exclusive'.
  - intros [= <- <-]. apply keeps_exclusive.
  - destruct (has_column df _); intros [= <- <-]. apply keeps_exclusive.
  - destruct (has_column df _); intros [= <- <-]. apply keeps_exclusive.
Qed.

Lemma driver_range_condition_eval now r :
  eval now r glue_etl_job.range_condition = VBool true <->
  in_range r "passenger_count" 1 6 /\
  in_range r "trip_distance" (1 # 10) 100 /\
  in_range r "fare_amount" (1 # 100) 500.
Proof.
  rewrite <- !(range_conjunct_true now).
  unfold glue_etl_job.range_condition. cbn [eval].
  rewrite !sql_and_true_iff. tauto.
Qed.

Lemma passes_driver_checks_iff df now r :
  (forall c, c ∈ range_columns -> c ∈ columns df) ->
  (forall k vc ic, driver_conditions k df = Some (vc, ic) ->
                   keeps now vc r = true)
  <-> driver_clean df r.
Proof.
  intros Hcols. split.
  - intros H. constructor.
    + pose proof (H NullCheck) as H0. simpl in H0.
      destruct (DataQualityChecker.null_condition_of
                  glue_etl_job.required_fields df) as [c|] eqn:Hc.
      * specialize (H0 _ _ eq_refl). apply keeps_not_iff in H0.
        intros Hn.
        assert (Hn' : Exists (fun f => has_column df f = true /\
                                row_get r f = VNull)
                        glue_etl_job.required_fields).
        { apply Exists_exists in Hn as (f & Hf & H1 & H2).
          apply Exists_exists. exists f.
          split; [exact Hf|]. split; [apply has_column_true, H1|exact H2]. }
        apply (null_condition_eval _ _ _ now r Hc) in Hn'. congruence.
      * intros Hn. apply null_condition_none in Hc.
        apply Exists_exists in Hn as (f & Hf & Hcol & _).
        rewrite Forall_forall in Hc. apply has_column_true in Hcol.
        rewrite (Hc f Hf) in Hcol. discriminate.
    + specialize (H RangeCheck _ _ eq_refl).
      apply keeps_true_iff, driver_range_condition_eval in H. apply H.
    + specialize (H RangeCheck _ _ eq_refl).
      apply keeps_true_iff, driver_range_condition_eval in H. apply H.
    + specialize (H RangeCheck _ _ eq_refl).
      apply keeps_true_iff, driver_range_condition_eval in H. apply H.
    + intros Hc. specialize (H DurationCheck). simpl in H.
      apply has_column_true in Hc. rewrite Hc in H.
      specialize (H _ _ eq_refl).
      apply keeps_true_iff, range_conjunct_true in H. exact H.
    + intros Hc. specialize (H TipCheck). simpl in H.
      apply has_column_true in Hc. rewrite Hc in H.
      specialize (H _ _ eq_refl).
      apply keeps_true_iff, range_conjunct_true in H. exact H.
  - intros [H1 H2 H3 H4 H5 H6] k vc ic. destruct k; simpl.
    + destruct (DataQualityChecker.null_condition_of
                  glue_etl_job.required_fields df) as [c|] eqn:Hc;
        intros [= <- <-].
      apply keeps_not_iff.
      destruct (null_condition_two_valued _ _ _ now r Hc) as ([] & E);
        [|exact E].
      exfalso. apply H1.
      apply (null_condition_eval _ _ _ now r Hc) in E.
      apply Exists_exists in E as (f & Hf & E1 & E2).
      apply Exists_exists. exists f.
      split; [exact Hf|]. split; [apply has_column_true, E1|exact E2].
    + intros [= <- <-]. apply keeps_true_iff, driver_range_condition_eval.
      auto.
    + destruct (has_column df "trip_duration_minutes") eqn:Hc;
        intros [= <- <-].
      apply keeps_true_iff, range_conjunct_true, H5, has_column_true, Hc.
    + destruct (has_column df "tip_percentage") eqn:Hc;
        intros [= <- <-].
      apply keeps_true_iff, range_conjunct_true, H6, has_column_true, Hc.
Qed.

Lemma driver_checks_accepted df b r st st' accepted invalid_dfs :
  glue_etl_job.run_data_quality_checks df b r st
  = (st', Ok (accepted, invalid_dfs)) ->
  st' = st /\
  (forall c, c ∈ range_columns -> c ∈ columns df) /\
  columns accepted = columns df /\
  sublist (rows accepted) (rows df) /\
  (forall x, x ∈ rows accepted <->
             x ∈ rows df /\
             (forall k vc ic, driver_conditions k df = Some (vc, ic) ->
                              keeps (clock st) vc x = true)).
Proof.
  intros H. apply run_data_quality_checks_Ok_inv in H
    as (-> & _ & Hcols & v1 & i1 & v2 & i2 & v3 & i3 & i4
        & C1 & C2 & C3 & C4 & _).
  apply check_step_valid in C1 as (E1 & S1 & R1).
  rewrite <- (driver_conditions_columns RangeCheck df v1 E1) in C2.
  apply check_step_valid in C2 as (E2 & S2 & R2).
  rewrite E1 in E2.
  rewrite <- (driver_conditions_columns DurationCheck df v2 E2) in C3.
  apply check_step_valid in C3 as (E3 & S3 & R3).
  rewrite E2 in E3.
  rewrite <- (driver_conditions_columns TipCheck df v3 E3) in C4.
  apply check_step_valid in C4 as (E4 & S4 & R4).
  rewrite E3 in E4.
  rewrite (driver_conditions_columns RangeCheck df v1 E1) in R2.
  rewrite (driver_conditions_columns DurationCheck df v2 E2) in R3.
  rewrite (driver_conditions_columns TipCheck df v3 E3) in R4.
  split; [reflexivity|]. split; [exact Hcols|]. split; [exact E4|]. split.
  - etrans; [exact S4|]. etrans; [exact S3|]. etrans; [exact S2|]. exact S1.
  - intros x. rewrite R4, R3, R2, R1. split.
    + intros [[[[Hx N] Rg] Du] T]. split; [exact Hx|].
      intros []; assumption.
    + intros [Hx Hall]. repeat split; try exact Hx; apply Hall.
Qed.

(** X18. When [run_data_quality_checks] returns, the batch it accepted has
    the columns of the input and holds, in order, exactly the records of
    the input with no NULL in a required field, 1 to 6 passengers, a
    distance from 0.1 to 100, a fare from 0.01 to 500 and, when the batch
    has the column, a duration from 1 to 300 minutes and a tip percentage
    from 0 to 100. *)
Theorem run_data_quality_checks_accepts_exactly_clean
    df b r st st' accepted invalid_dfs :
  glue_etl_job.run_data_quality_checks df b r st
  = (st', Ok (accepted, invalid_dfs)) ->
  columns accepted = columns df /\
  sublist (rows accepted) (rows df) /\
  (forall x, x ∈ rows accepted <-> x ∈ rows df /\ driver_clean df x).
Proof.
  intros H. apply driver_checks_accepted in H as (_ & Hcols & E & S & R).
  split; [exact E|]. split; [exact S|].
  intros x. rewrite <- (passes_driver_checks_iff df (clock st) x Hcols).
  apply R.
Qed.

(** X19. When [run_data_quality_checks] returns, no record of the input is
    counted twice among the accepted batch and the invalid batches taken
    together; it returns at most four invalid batches, none of them empty,
    all with the columns of the input and the two tag columns. *)
Theorem run_data_quality_checks_buckets df b r st st' accepted invalid_dfs :
  glue_etl_job.run_data_quality_checks df b r st
  = (st', Ok (accepted, invalid_dfs)) ->
  rids accepted ++ all_rids invalid_dfs ⊆+ rids df /\
  Forall (fun d => 0 < count d /\
                   columns d = tagged_columns (columns df)) invalid_dfs /\
  (length invalid_dfs <= 4)%nat.
Proof.
  intros H. apply run_data_quality_checks_Ok_inv in H
    as (-> & _ & Hcols & v1 & i1 & v2 & i2 & v3 & i3 & i4
        & C1 & C2 & C3 & C4 & ->).
  pose proof (check_step_valid _ _ _ _ _ _ C1) as (E1 & _).
  pose proof (check_step_valid _ _ _ _ _ _ C2) as (E2 & _).
  pose proof (check_step_valid _ _ _ _ _ _ C3) as (E3 & _).
  rewrite E1 in E2. rewrite E2 in E3.
  apply check_step_shares in C1 as (S1 & T1);
    [|intros vc ic x; apply driver_conditions_exclusive].
  apply check_step_shares in C2 as (S2 & T2);
    [|intros vc ic x; apply driver_conditions_exclusive].
  apply check_step_shares in C3 as (S3 & T3);
    [|intros vc ic x; apply driver_conditions_exclusive].
  apply check_step_shares in C4 as (S4 & T4);
    [|intros vc ic x; apply driver_conditions_exclusive].
  rewrite E1 in T2. rewrite E2 in T3. rewrite E3 in T4.
  split; [|split].
  - rewrite all_rids_filter_nonempty. unfold all_rids. cbn [map concat].
    eapply shares_chain; [|exact S1].
    eapply shares_chain; [|exact S2].
    eapply shares_chain; [|exact S3].
    rewrite app_nil_r. exact S4.
  - apply Forall_forall. intros d Hd.
    apply elem_of_List_filter in Hd as [Hd Hpos].
    apply Z.ltb_lt in Hpos. split; [exact Hpos|].
    repeat (apply elem_of_cons in Hd as [->|Hd]); [| | | |inversion Hd];
      auto.
  - etrans; [apply sublist_length, sublist_List_filter|]. simpl. lia.
Qed.


(** X17. [run_data_quality_checks] of the driver returns only on a batch
    that holds a record, and a [ZeroDivisionError] can only come from a
    batch that holds none. *)
Theorem run_data_quality_checks_division_only_on_empty df b r st :
  (forall st' p,
      glue_etl_job.run_data_quality_checks df b r st = (st', Ok p) ->
      rows df <> []) /\
  (forall st',
      glue_etl_job.run_data_quality_checks df b r st
      = (st', Raise ZeroDivisionError) ->
      rows df = []).
Proof.
  destruct (run_data_quality_checks_trace df b r st) as (v1 & i1 & _ & T).
  destruct (forallb (has_column df) range_columns); cbn [negb] in T.
  - destruct T as (v2 & i2 & v3 & i3 & v4 & i4 & _ & _ & _ & ->).
    unfold count. destruct (rows df) as [|x l]; simpl; split; intros;
      congruence.
  - rewrite T. split; intros; discriminate.
Qed.

(** X15. Once the filter of [filter_invalid_records] has gone through, the
    function raises a [ZeroDivisionError] when the batch has no record,
    and otherwise returns what the filter kept, also when it kept
    nothing. *)
Theorem filter_invalid_records_after_filter df st s1 kept :
  df_filter glue_etl_job.filter_condition df st = (s1, Ok kept) ->
  (rows df = [] ->
   (glue_etl_job.filter_invalid_records df st).2 = Raise ZeroDivisionError)
  /\
  (rows df <> [] ->
   (glue_etl_job.filter_invalid_records df st).2 = Ok kept).
Proof.
  intros H. unfold glue_etl_job.filter_invalid_records.
  rewrite (bind_Ok _ _ _ _ _ H). unfold bind, py_div, count.
  destruct (rows df) as [|x l]; simpl; split; intros; congruence.
Qed.

(** X16. When [filter_invalid_records] returns, its result has the columns
    of the batch and holds, in order, exactly the records whose distance,
    fare and passenger count are numbers above zero and whose dropoff
    compares after the pickup. *)
Theorem filter_invalid_records_keeps_exactly df st st' kept :
  glue_etl_job.filter_invalid_records df st = (st', Ok kept) ->
  columns kept = columns df /\
  sublist (rows kept) (rows df) /\
  (forall x, x ∈ rows kept <-> x ∈ rows df /\ passes_basic_filter x).
Proof.
  intros H. apply filter_invalid_records_rows in H as (_ & E & R).
  split; [exact E|]. rewrite R. split; [apply sublist_List_filter|].
  intros x. rewrite elem_of_List_filter, filter_condition_iff. reflexivity.
Qed.

(** ** Derived columns, for any batch *)

Lemma add_columns_fresh names : forall cols,
  NoDup names ->
  fold_left add_column names cols
  = cols ++ List.filter (fun n => negb (bool_decide (n ∈ cols))) names.
Proof.
  induction names as [|n names IH]; intros cols Hnd; simpl.
  - rewrite app_nil_r. reflexivity.
  - apply NoDup_cons in Hnd as [Hn Hnd]. rewrite IH by exact Hnd.
    unfold add_column. destruct (bool_decide (n ∈ cols)) eqn:Hc; simpl.
    + reflexivity.
    + rewrite <- app_assoc. simpl. f_equal. f_equal.
      apply filter_ext_in. intros x Hx. f_equal.
      apply bool_decide_ext. rewrite elem_of_app, list_elem_of_singleton.
      split; [|tauto]. intros [H| ->]; [exact H|].
      apply list_elem_of_In in Hx. contradiction.
Qed.

Lemma has_column_with_col_iff now name c df x :
  has_column (with_col now name c df) x
  = has_column df x || bool_decide (x = name).
Proof.
  unfold has_column, with_col. cbn [columns]. unfold has_column.
  destruct (bool_decide (name ∈ columns df)) eqn:Hn.
  - apply bool_decide_eq_true in Hn.
    destruct (bool_decide (x ∈ columns df)) eqn:Hx; [reflexivity|].
    apply bool_decide_eq_false in Hx. simpl. symmetry.
    apply bool_decide_eq_false. intros ->. contradiction.
  - apply eq_true_iff_eq. rewrite orb_true_iff, !bool_decide_eq_true.
    rewrite elem_of_app, list_elem_of_singleton. reflexivity.
Qed.

Lemma forallb_has_column_with_col now name c df l :
  name ∉ l ->
  forallb (has_column (with_col now name c df)) l = forallb (has_column df) l.
Proof.
  intros Hn. induction l as [|x l IH]; [reflexivity|]. simpl.
  apply not_elem_of_cons in Hn as [Hx Hl].
  rewrite IH by exact Hl. rewrite has_column_with_col_iff.
  rewrite (bool_decide_eq_false_2 (x = name)) by congruence.
  rewrite orb_false_r. reflexivity.
Qed.

Lemma NoDup_derived_names : NoDup derived_names.
Proof. compute_done. Qed.

Lemma resolves_with_col_fresh now name c' df c :
  name ∉ references c ->
  resolves (with_col now name c' df) c = resolves df c.
Proof. apply forallb_has_column_with_col. Qed.

Lemma bind_withColumn_run {A} name c df (f : DataFrame -> M A) st :
  bind (withColumn name c df) f st
  = if resolves df c then f (with_col (clock st) name c df) st
    else (st, Raise (AnalysisException "cannot resolve column")).
Proof.
  unfold bind. rewrite withColumn_run. destruct (resolves df c); reflexivity.
Qed.

Lemma columns_with_col now name c df :
  columns (with_col now name c df) = add_column (columns df) name.
Proof. reflexivity. Qed.

Lemma add_derived_columns_run raw st :
  glue_etl_job.add_derived_columns raw st
  = (st, if forallb (has_column raw) derive_inputs
         then Ok (mkDF (columns raw ++
                        List.filter (fun n => negb (has_column raw n))
                          derived_names)
                    (map (derive_row (clock st)) (rows raw)))
         else Raise (AnalysisException "cannot resolve column")).
Proof.
  unfold glue_etl_job.add_derived_columns.
  do 7 (rewrite bind_withColumn_run; cbv beta).
  rewrite !resolves_with_col_fresh by compute_done.
  unfold resolves, num, derive_inputs. cbn [references app forallb].
  destruct (has_column raw "tpep_dropoff_datetime"),
    (has_column raw "tpep_pickup_datetime"); cbn [andb]; try reflexivity.
  destruct (has_column raw "fare_amount"), (has_column raw "tip_amount");
    cbn [andb]; try reflexivity.
  unfold ret. f_equal. f_equal.
  set (now := clock st).
  assert (Ecols : columns raw ++
                  List.filter (fun n => negb (has_column raw n)) derived_names
                  = fold_left add_column derived_names (columns raw)).
  { symmetry. exact (add_columns_fresh derived_names (columns raw)
                       NoDup_derived_names). }
  rewrite Ecols. clear Ecols.
  match goal with |- ?d = _ => destruct d as [cols rs] eqn:E end.
  apply (f_equal columns) in E as Ec. apply (f_equal rows) in E as Er.
  clear E. cbn [columns rows] in Ec, Er.
  rewrite !columns_with_col in Ec. rewrite !rows_with_col, !map_map in Er.
  subst cols rs. reflexivity.
Qed.


Lemma derive_row_stamped now r : stamped_ok now r (derive_row now r).
Proof.
  unfold derive_row. constructor.
  - reflexivity.
  - rewrite !row_get_set_cell. reflexivity.
  - rewrite !row_get_set_cell. reflexivity.
  - rewrite !row_get_set_cell. reflexivity.
  - intros p Hp. rewrite !row_get_set_cell. cbn [String.eqb Ascii.eqb Bool.eqb eval].
    rewrite !row_get_set_cell. cbn [String.eqb Ascii.eqb Bool.eqb].
    rewrite Hp. split; reflexivity.
  - intros Hp. rewrite !row_get_set_cell. cbn [String.eqb Ascii.eqb Bool.eqb eval].
    rewrite !row_get_set_cell. cbn [String.eqb Ascii.eqb Bool.eqb].
    rewrite Hp. split; reflexivity.
Qed.

Lemma add_derived_columns_has_derived raw st st' df :
  glue_etl_job.add_derived_columns raw st = (st', Ok df) ->
  forall n, n ∈ derived_names -> n ∈ columns df.
Proof.
  intros H n Hn.
  rewrite add_derived_columns_run in H.
  destruct (forallb (has_column raw) derive_inputs); [|discriminate].
  injection H as _ <-. cbn [columns].
  destruct (has_column raw n) eqn:Hc.
  - apply elem_of_app. left. apply has_column_true. exact Hc.
  - apply elem_of_app. right. apply list_elem_of_In.
    apply (proj2 (filter_In (fun n => negb (has_column raw n)) n
                    derived_names)).
    split; [apply list_elem_of_In; exact Hn|]. rewrite Hc. reflexivity.
Qed.

(** X14. When [add_derived_columns] returns, its result has the seven
    derived columns and holds one record per record of the batch, in
    order, in which [quality_check_timestamp] and [processed_at] are the
    time of the run, [etl_job_name] is [job-process-taxi-data], and [year]
    and [month] are those of the pickup timestamp, absent when the pickup
    is. *)
Theorem add_derived_columns_stamps raw st st' df :
  glue_etl_job.add_derived_columns raw st = (st', Ok df) ->
  (forall n, n ∈ derived_names -> n ∈ columns df) /\
  Forall2 (stamped_ok (clock st)) (rows raw) (rows df).
Proof.
  intros H. split.
  - exact (add_derived_columns_has_derived raw st st' df H).
  - apply add_derived_columns_rows in H as (_ & ->).
    induction (rows raw) as [|r l IH]; simpl; constructor.
    + apply derive_row_stamped.
    + exact IH.
Qed.

Lemma add_derived_columns_stamps_witness :
  let raw := mkDF sample_columns [clean_row 1; null_tip_row 2] in
  let out := glue_etl_job.add_derived_columns raw initial_state in
  (forall n, n ∈ derived_names -> n ∈ columns (run_value raw out)) /\
  Forall2 (stamped_ok (clock initial_state)) (rows raw)
    (rows (run_value raw out)).
Proof.
  intros raw out.
  apply (add_derived_columns_stamps raw initial_state out.1
           (run_value raw out)).
  vm_compute. reflexivity.
Defined.

(** ** [main], end to end *)










Lemma filter_none {A} (p : A -> bool) (l : list A) :
  (forall x, x ∈ l -> p x = false) -> List.filter p l = [].
Proof.
  induction l as [|x l IH]; intros H; [reflexivity|]. simpl.
  rewrite (H x) by apply list_elem_of_here.
  apply IH. intros y Hy. apply H. apply list_elem_of_further, Hy.
Qed.


(** ** What the writers store *)

Lemma count_zero_rows d : (0 <? count d) = false -> rows d = [].
Proof.
  intros H. apply Z.ltb_ge in H. unfold count in H.
  destruct (rows d); [reflexivity|]. simpl in H. lia.
Qed.

Lemma nothing_to_write_rows invs :
  bool_decide (invs = []) || DataQualityChecker.all_empty invs = true ->
  all_rows invs = [].
Proof.
  intros H. apply orb_true_iff in H as [H|H].
  - apply bool_decide_eq_true in H. subst. reflexivity.
  - apply all_empty_Forall in H. unfold all_rows.
    induction H as [|d l Hd _ IH]; [reflexivity|]. simpl. rewrite IH.
    unfold count in Hd. destruct (rows d); [reflexivity|]. simpl in Hd. lia.
Qed.


Lemma stamped_set_cell cols now run_id x y :
  rid y = rid x ->
  (forall n, n ∈ cols -> row_get y n = row_get x n) ->
  stamped cols run_id x (set_cell now "run_id" (lit (VStr run_id)) y).
Proof.
  intros Hr Hc. split; [exact Hr|]. split.
  - rewrite row_get_set_cell. reflexivity.
  - intros n Hn Hne. rewrite row_get_set_cell.
    destruct (String.eqb_spec "run_id" n) as [<-|_]; [congruence|].
    apply Hc, Hn.
Qed.



(** ** The writer of [DataQualityChecker], on the batches of
    [run_all_checks] *)

Lemma lookup_zip_same (f : string -> value) cols n :
  (list_to_map (zip cols (map f cols)) : gmap string value) !! n
  = if bool_decide (n ∈ cols) then Some (f n) else None.
Proof.
  induction cols as [|c cols IH]; simpl.
  - rewrite lookup_empty. reflexivity.
  - destruct (decide (c = n)) as [->|Hne].
    + rewrite lookup_insert_eq.
      rewrite bool_decide_eq_true_2 by apply list_elem_of_here. reflexivity.
    + rewrite lookup_insert_ne by exact Hne. rewrite IH.
      apply (f_equal (fun b : bool => if b then Some (f n) else None)).
      apply bool_decide_ext. rewrite elem_of_cons. split; [auto|].
      intros [->|H]; [contradiction|exact H].
Qed.

Lemma row_get_rename_same cols r n :
  n ∈ cols -> row_get (rename_row cols cols r) n = row_get r n.
Proof.
  intros Hn. unfold row_get at 1, rename_row. cbn [cells].
  rewrite lookup_zip_same, bool_decide_eq_true_2 by exact Hn. reflexivity.
Qed.

Lemma checker_combine_run cols invs :
  Forall (fun d => columns d = cols) invs ->
  forall acc st,
    (forall c, acc = Some c -> columns c = cols) ->
    foldM DataQualityChecker.combine_step invs acc st
    = (st, Ok (fold_left combine_by_position invs acc)) /\
    (forall c, fold_left combine_by_position invs acc = Some c ->
               columns c = cols).
Proof.
  induction 1 as [|d invs Hd _ IH]; intros acc st Hacc; simpl.
  - split; [reflexivity|exact Hacc].
  - assert (E : DataQualityChecker.combine_step acc d st
                = (st, Ok (combine_by_position acc d))).
    { unfold DataQualityChecker.combine_step, combine_by_position.
      destruct (0 <? count d); [|reflexivity].
      destruct acc as [c|]; [|reflexivity].
      unfold bind, df_union. rewrite Hd, (Hacc c eq_refl), Nat.eqb_refl.
      reflexivity. }
    unfold bind at 1. rewrite E. apply IH.
    unfold combine_by_position. destruct (0 <? count d); [|exact Hacc].
    destruct acc as [c|]; intros c' [= <-]; [|exact Hd].
    exact (Hacc c eq_refl).
Qed.

Lemma combine_by_position_rows cols invs :
  Forall (fun d => columns d = cols) invs ->
  forall acc base,
    (forall c, acc = Some c -> columns c = cols) ->
    Forall2 (same_on cols) base (rows_opt acc) ->
    Forall2 (same_on cols) (base ++ all_rows invs)
      (rows_opt (fold_left combine_by_position invs acc)).
Proof.
  induction 1 as [|d invs Hd _ IH]; intros acc base Hacc Hb; simpl.
  - unfold all_rows. simpl. rewrite app_nil_r. exact Hb.
  - unfold all_rows. simpl. fold (all_rows invs). rewrite app_assoc.
    apply IH.
    + unfold combine_by_position. destruct (0 <? count d); [|exact Hacc].
      destruct acc as [c|]; intros c' [= <-]; [|exact Hd].
      exact (Hacc c eq_refl).
    + unfold combine_by_position. destruct (0 <? count d) eqn:Hc.
      * assert (Hsame : forall l, Forall2 (same_on cols) l l).
        { intros l. apply Forall_Forall2_diag, Forall_forall.
          intros x _. split; auto. }
        destruct acc as [c|]; cbn [rows_opt rows] in *.
        -- apply Forall2_app; [exact Hb|].
           rewrite Hd, (Hacc c eq_refl).
           apply Forall2_fmap_r, Forall_Forall2_diag, Forall_forall.
           intros x _. split; [reflexivity|].
           intros n Hn. apply row_get_rename_same, Hn.
        -- inversion Hb; subst. apply Hsame.
      * rewrite (count_zero_rows d Hc), app_nil_r. exact Hb.
Qed.

Lemma stamped_same_on cols now run_id (l l' : list Row) :
  Forall2 (same_on cols) l l' ->
  Forall2 (stamped cols run_id) l
    (map (set_cell now "run_id" (lit (VStr run_id))) l').
Proof.
  intros H. apply Forall2_fmap_r.
  eapply Forall2_impl; [exact H|].
  intros x y [Hr Hc]. apply stamped_set_cell; assumption.
Qed.

Lemma checker_writer_stores cols b invs orun st :
  let run_id := match orun with
                | None => strftime_run_id (clock st)
                | Some run_id => run_id
                end in
  Forall (fun d => columns d = cols) invs ->
  all_rows invs <> [] ->
  s3_unwritable st (dlq_path b (clock st) run_id) = false ->
  exists st' d,
    DataQualityChecker.write_to_dead_letter_queue b invs orun st
    = (st', Ok tt) /\
    s3 st' = <[dlq_path b (clock st) run_id := d]> (s3 st) /\
    Forall2 (stamped cols run_id) (all_rows invs) (rows d).
Proof.
  intros run_id Hcols Hne Hw.
  unfold DataQualityChecker.write_to_dead_letter_queue.
  destruct (bool_decide (invs = []) || DataQualityChecker.all_empty invs)
    eqn:He.
  { apply nothing_to_write_rows in He. contradiction. }
  unfold bind at 1. unfold print at 1. cbv beta iota.
  unfold bind at 1.
  match goal with |- context [foldM _ invs None ?s] =>
    destruct (checker_combine_run cols invs Hcols None s) as (-> & _);
      [intros c [=]|] end.
  pose proof (combine_by_position_rows cols invs Hcols None []
                ltac:(intros c [=]) ltac:(constructor)) as Hr.
  cbn [app] in Hr.
  destruct (fold_left combine_by_position invs None) as [c|];
    cbn [rows_opt] in Hr.
  2:{ inversion Hr. congruence. }
  destruct (count c =? 0) eqn:Hc.
  { apply Z.eqb_eq in Hc. unfold count in Hc.
    apply Forall2_length in Hr.
    destruct (all_rows invs); [congruence|]. simpl in Hr. lia. }
  unfold bind at 1, datetime_now at 1. cbv beta iota.
  match goal with |- context [clock ?s] =>
    match s with mkState _ _ _ _ _ _ => change (clock s) with (clock st) end
  end.
  fold run_id.
  unfold bind at 1. rewrite withColumn_resolved by reflexivity.
  set (cw := with_col _ "run_id" _ c).
  set (path := dlq_path b (clock st) run_id) in *.
  unfold bind at 1, print at 1. cbv beta iota.
  set (msg := "Writing " +:+ _).
  unfold try_except, bind, write_overwrite, print, raise.
  cbn [s3_unwritable s3_writes stdout clock quality_metrics s3].
  rewrite Hw. do 2 eexists. split; [reflexivity|].
  cbn [s3]. split; [reflexivity|].
  unfold cw. rewrite rows_with_col. apply stamped_same_on, Hr.
Qed.

(** X13. The invalid batches [run_all_checks] returns can always be
    combined: given at least one such batch and a writable path, the writer
    of [DataQualityChecker] returns normally and replaces the content of
    the run's path by one batch holding, in order, every record of every
    invalid batch, stamped with the run identifier and with its other
    cells, under the columns of the invalid batches, as they were. *)
Theorem run_all_checks_then_quarantine df st st1 accepted invs b orun :
  let run_id := match orun with
                | None => strftime_run_id (clock st)
                | Some run_id => run_id
                end in
  DataQualityChecker.run_all_checks df st = (st1, Ok (accepted, invs)) ->
  invs <> [] ->
  s3_unwritable st (dlq_path b (clock st) run_id) = false ->
  exists st2 d,
    DataQualityChecker.write_to_dead_letter_queue b invs orun st1
    = (st2, Ok tt) /\
    s3 st2 = <[dlq_path b (clock st) run_id := d]> (s3 st1) /\
    Forall2 (stamped (tagged_columns (columns df)) run_id)
      (all_rows invs) (rows d).
Proof.
  intros run_id H Hne Hw.
  pose proof (run_all_checks_batches _ _ _ _ _ H) as Hb.
  assert (Hst : clock st1 = clock st /\ s3_unwritable st1 = s3_unwritable st).
  { apply run_all_checks_Ok_inv in H
      as (s1 & v1 & i1 & s2 & v2 & i2 & s3 & v3 & i3 & s4 & v4 & i4 & i5
          & H1 & H2 & H3 & H4 & H5 & _ & _).
    apply rule_facts in H1 as (_ & K1 & _ & _ & U1 & _).
    apply rule_facts in H2 as (_ & K2 & _ & _ & U2 & _).
    apply rule_facts in H3 as (_ & K3 & _ & _ & U3 & _).
    apply rule_facts in H4 as (_ & K4 & _ & _ & U4 & _).
    apply rule_facts in H5 as (_ & K5 & _ & _ & U5 & _).
    split; congruence. }
  destruct Hst as [Hclock Hunw].
  pose proof (checker_writer_stores (tagged_columns (columns df)) b invs
                orun st1) as W.
  cbv zeta in W. rewrite Hclock, Hunw in W. apply W.
  - eapply Forall_impl; [exact Hb|]. intros d [_ Hd]. exact Hd.
  - destruct invs as [|d l]; [congruence|].
    apply Forall_cons in Hb as [[Hpos _] _].
    unfold all_rows. simpl. intros Hnil. apply app_eq_nil in Hnil as [Hd _].
    unfold count in Hpos. rewrite Hd in Hpos. simpl in Hpos. lia.
  - exact Hw.
Qed.

(** ** The three rules on one condition *)






(** ** The properties above, on sample batches *)

Lemma rule_outputs_witness :
  let out := run_rule RangeRule mixed_batch initial_state in
  let p := run_value (mixed_batch, mixed_batch) out in
  columns p.1 = columns mixed_batch /\
  sublist (rows p.1) (rows mixed_batch) /\
  sublist (rids p.2) (rids mixed_batch) /\
  (forall n, n ∈ rids p.1 -> n ∉ rids p.2) /\
  count p.1 + count p.2 <= count mixed_batch.
Proof.
  intros out p.
  apply (rule_outputs RangeRule mixed_batch initial_state out.1 p.1 p.2).
  - apply (bool_decide_unpack _). vm_compute. exact I.
  - vm_compute. reflexivity.
Defined.

Lemma validate_numeric_ranges_sorts_witness :
  let out := DataQualityChecker.validate_numeric_ranges mixed_batch
               initial_state in
  let p := run_value (mixed_batch, mixed_batch) out in
  (forall r, r ∈ rows p.1 <->
             r ∈ rows mixed_batch /\ all_in_range mixed_batch r) /\
  (forall r',
      r' ∈ rows p.2 <->
      exists r, r ∈ rows mixed_batch /\ some_out_of_range mixed_batch r /\
                r' = tag_row (clock initial_state)
                       "numeric_range_violation" r) /\
  ((forall r, r ∈ rows mixed_batch ->
      Forall (fun x => x.1 ∈ columns mixed_batch ->
                       exists v, row_get r x.1 = VNum v)
             DataQualityChecker.NUMERIC_RANGES) ->
   count p.1 + count p.2 = count mixed_batch).
Proof.
  intros out p.
  apply (validate_numeric_ranges_sorts mixed_batch initial_state out.1
           p.1 p.2).
  vm_compute. reflexivity.
Defined.

Lemma filter_invalid_records_after_filter_witness :
  let out := df_filter glue_etl_job.filter_condition derived_batch
               initial_state in
  let kept := run_value derived_batch out in
  (rows derived_batch = [] ->
   (glue_etl_job.filter_invalid_records derived_batch initial_state).2
   = Raise ZeroDivisionError) /\
  (rows derived_batch <> [] ->
   (glue_etl_job.filter_invalid_records derived_batch initial_state).2
   = Ok kept).
Proof.
  intros out kept.
  apply (filter_invalid_records_after_filter derived_batch initial_state
           out.1 kept).
  vm_compute. reflexivity.
Defined.

Lemma rule_tags_rejected_witness :
  let out := run_rule RangeRule mixed_batch initial_state in
  let p := run_value (mixed_batch, mixed_batch) out in
  Forall (fun r' =>
            row_get r' "failure_reason" = VStr "numeric_range_violation" /\
            row_get r' "failed_at" = VTime 1700000000000000 /\
            exists r, r ∈ rows mixed_batch /\ rid r' = rid r /\
              forall name, name <> "failure_reason" -> name <> "failed_at" ->
                           row_get r' name = row_get r name)
         (rows p.2) /\
  (rows p.2 <> [] ->
   quality_metrics out.1 !! "range_violations" = Some (count p.2) /\
   columns p.2 = tagged_columns (columns mixed_batch)).
Proof.
  intros out p.
  apply (rule_tags_rejected RangeRule mixed_batch initial_state out.1
           p.1 p.2).
  vm_compute. reflexivity.
Defined.

Lemma run_all_checks_accepts_exactly_clean_witness :
  let out := DataQualityChecker.run_all_checks mixed_batch initial_state in
  let p := run_value (mixed_batch, []) out in
  columns p.1 = columns mixed_batch /\
  sublist (rows p.1) (rows mixed_batch) /\
  (forall r, r ∈ rows p.1 <->
             r ∈ rows mixed_batch /\ accepted_clean mixed_batch r).
Proof.
  intros out p.
  apply (run_all_checks_accepts_exactly_clean mixed_batch initial_state
           out.1 p.1 p.2).
  vm_compute. reflexivity.
Defined.

Lemma run_all_checks_buckets_witness :
  let out := DataQualityChecker.run_all_checks mixed_batch initial_state in
  let p := run_value (mixed_batch, []) out in
  rids p.1 ++ all_rids p.2 ⊆+ rids mixed_batch /\
  Forall (fun d => 0 < count d /\
                   columns d = tagged_columns (columns mixed_batch)) p.2 /\
  (length p.2 <= 5)%nat.
Proof.
  intros out p.
  apply (run_all_checks_buckets mixed_batch initial_state out.1 p.1 p.2).
  vm_compute. reflexivity.
Defined.

Lemma run_all_checks_metrics_count_rejected_witness :
  let out := DataQualityChecker.run_all_checks mixed_batch initial_state in
  let p := run_value (mixed_batch, []) out in
  metrics_sum (quality_metrics out.1) = Z.of_nat (length (all_rids p.2)).
Proof.
  intros out p.
  apply (run_all_checks_metrics_count_rejected mixed_batch initial_state
           eq_refl out.1 p.1 p.2).
  vm_compute. reflexivity.
Defined.

Lemma filter_invalid_records_keeps_exactly_witness :
  columns filtered_batch = columns derived_batch /\
  sublist (rows filtered_batch) (rows derived_batch) /\
  (forall x, x ∈ rows filtered_batch <->
             x ∈ rows derived_batch /\ passes_basic_filter x).
Proof.
  apply (filter_invalid_records_keeps_exactly derived_batch initial_state
           initial_state filtered_batch).
  vm_compute. reflexivity.
Defined.

Lemma run_data_quality_checks_accepts_exactly_clean_witness :
  let out := glue_etl_job.run_data_quality_checks filtered_batch "bucket"
               sample_run_id initial_state in
  let p := run_value (filtered_batch, []) out in
  columns p.1 = columns filtered_batch /\
  sublist (rows p.1) (rows filtered_batch) /\
  (forall x, x ∈ rows p.1 <->
             x ∈ rows filtered_batch /\ driver_clean filtered_batch x).
Proof.
  intros out p.
  apply (run_data_quality_checks_accepts_exactly_clean filtered_batch
           "bucket" sample_run_id initial_state out.1 p.1 p.2).
  vm_compute. reflexivity.
Defined.

Lemma run_data_quality_checks_buckets_witness :
  let out := glue_etl_job.run_data_quality_checks filtered_batch "bucket"
               sample_run_id initial_state in
  let p := run_value (filtered_batch, []) out in
  rids p.1 ++ all_rids p.2 ⊆+ rids filtered_batch /\
  Forall (fun d => 0 < count d /\
                   columns d = tagged_columns (columns filtered_batch)) p.2 /\
  (length p.2 <= 4)%nat.
Proof.
  intros out p.
  apply (run_data_quality_checks_buckets filtered_batch "bucket"
           sample_run_id initial_state out.1 p.1 p.2).
  vm_compute. reflexivity.
Defined.




Lemma run_all_checks_then_quarantine_witness :
  let out := DataQualityChecker.run_all_checks mixed_batch initial_state in
  let p := run_value (mixed_batch, []) out in
  let run_id := strftime_run_id (clock initial_state) in
  exists st2 d,
    DataQualityChecker.write_to_dead_letter_queue "bucket" p.2 None out.1
    = (st2, Ok tt) /\
    s3 st2 = <[dlq_path "bucket" (clock initial_state) run_id := d]>
               (s3 out.1) /\
    Forall2 (stamped (tagged_columns (columns mixed_batch)) run_id)
      (all_rows p.2) (rows d).
Proof.
  intros out p run_id.
  apply (run_all_checks_then_quarantine mixed_batch initial_state out.1
           p.1 p.2 "bucket" None).
  - vm_compute. reflexivity.
  - vm_compute. discriminate.
  - reflexivity.
Defined.




(** ** A second run over an accepted batch *)

Lemma filter_all {A} (p : A -> bool) (l : list A) :
  (forall x, x ∈ l -> p x = true) -> List.filter p l = l.
Proof.
  induction l as [|x l IH]; intros H; [reflexivity|]. simpl.
  rewrite (H x) by apply list_elem_of_here. f_equal.
  apply IH. intros y Hy. apply H. apply list_elem_of_further, Hy.
Qed.

(** A rule passes on, whole, a batch of records that satisfy its
    condition, and rejects none of them. *)
Lemma rule_on_clean_batch rule df d st st' v i :
  run_rule rule d st = (st', Ok (v, i)) ->
  columns d = columns df ->
  (forall r, r ∈ rows d -> accepted_clean df r) ->
  v = d /\ count i = 0.
Proof.
  intros H Hcols Hclean.
  apply rule_facts in H as (Cv & _ & _ & _ & _ & _ & F).
  rewrite (rule_conditions_columns rule df d Hcols) in F.
  destruct (rule_conditions rule df) as [[vc ic]|] eqn:Hc.
  - destruct F as (Rv & -> & _).
    assert (Hk : forall r, r ∈ rows d -> keeps (clock st) vc r = true).
    { intros r Hr.
      apply (proj2 (passes_all_rules_iff df (clock st) r) (Hclean r Hr)
               rule vc ic Hc). }
    split.
    + rewrite (filter_all _ _ Hk) in Rv.
      destruct v, d. simpl in *. subst. reflexivity.
    + rewrite filter_none; [reflexivity|].
      intros r Hr. apply (rule_conditions_exclusive _ _ _ _ _ _ Hc).
      apply Hk, Hr.
  - destruct F as (-> & -> & _). split; reflexivity.
Qed.

(** X23. A batch [run_all_checks] has accepted passes a second run whole:
    run again on that batch, if it holds a record, [run_all_checks], at any
    time and whatever the metrics hold, accepts the very same batch and
    returns no invalid batch. *)
Theorem run_all_checks_accepts_its_own_output
    df st st1 accepted invalid_dfs st2 :
  DataQualityChecker.run_all_checks df st
  = (st1, Ok (accepted, invalid_dfs)) ->
  rows accepted <> [] ->
  (DataQualityChecker.run_all_checks accepted st2).2 = Ok (accepted, []).
Proof.
  intros H Hne. apply checks_accepted in H as (Hcols & _ & R).
  assert (Hclean : forall r, r ∈ rows accepted -> accepted_clean df r).
  { intros r Hr. apply R in Hr as [_ Hr].
    apply (passes_all_rules_iff df (clock st) r). exact Hr. }
  destruct (run_all_checks_trace accepted st2)
    as (s1 & v1 & i1 & s2 & v2 & i2 & s3 & v3 & i3 & s4 & v4 & i4 & s5 & v5
        & i5 & H1 & H2 & H3 & H4 & H5 & E).
  apply (rule_on_clean_batch _ df) in H1 as [-> Z1]; [|assumption..].
  apply (rule_on_clean_batch _ df) in H2 as [-> Z2]; [|assumption..].
  apply (rule_on_clean_batch _ df) in H3 as [-> Z3]; [|assumption..].
  apply (rule_on_clean_batch _ df) in H4 as [-> Z4]; [|assumption..].
  apply (rule_on_clean_batch _ df) in H5 as [-> Z5]; [|assumption..].
  rewrite E. cbn [snd].
  assert (Hz : (count accepted =? 0) = false).
  { apply Z.eqb_neq. unfold count. destruct (rows accepted); [congruence|].
    simpl. lia. }
  rewrite Hz. cbn [List.filter]. rewrite Z1, Z2, Z3, Z4, Z5. reflexivity.
Qed.

(** ** Batches that cannot be combined by position *)

(** X24. The writer of [DataQualityChecker] combines the batches by
    position: when the first two batches hold records and have different
    numbers of columns, it raises an [AnalysisException] before any write,
    leaving the store and the list of write calls as they were. *)
Theorem checker_dlq_mismatched_batches_raise b d1 d2 rest orun st :
  0 < count d1 -> 0 < count d2 ->
  length (columns d1) <> length (columns d2) ->
  exists st',
    DataQualityChecker.write_to_dead_letter_queue b (d1 :: d2 :: rest) orun st
    = (st', Raise (AnalysisException "union: different number of columns")) /\
    s3 st' = s3 st /\ s3_writes st' = s3_writes st.
Proof.
  intros H1 H2 Hlen. apply Z.ltb_lt in H1, H2.
  unfold DataQualityChecker.write_to_dead_letter_queue.
  assert (He : bool_decide (d1 :: d2 :: rest = [])
               || DataQualityChecker.all_empty (d1 :: d2 :: rest) = false).
  { unfold DataQualityChecker.all_empty. simpl.
    apply Z.ltb_lt in H1. destruct (count d1 =? 0) eqn:Hz; [|reflexivity].
    apply Z.eqb_eq in Hz. lia. }
  rewrite He. unfold bind at 1. unfold print at 1. cbv beta iota.
  unfold bind at 1. cbn [foldM].
  unfold bind at 1, DataQualityChecker.combine_step at 1. rewrite H1.
  unfold ret at 1.
  unfold bind at 1, DataQualityChecker.combine_step at 1. rewrite H2.
  unfold bind at 1, df_union at 1.
  apply Nat.eqb_neq in Hlen. rewrite Hlen. unfold raise.
  eexists. split; [reflexivity|]. split; reflexivity.
Qed.

Lemma run_all_checks_accepts_its_own_output_witness :
  let out := DataQualityChecker.run_all_checks mixed_batch initial_state in
  let p := run_value (mixed_batch, []) out in
  (DataQualityChecker.run_all_checks p.1 out.1).2 = Ok (p.1, []).
Proof.
  intros out p.
  apply (run_all_checks_accepts_its_own_output mixed_batch initial_state
           out.1 p.1 p.2 out.1).
  - vm_compute. reflexivity.
  - vm_compute. discriminate.
Defined.

Lemma checker_dlq_mismatched_batches_raise_witness :
  let d1 := sample_invalid 1 in
  let d2 := mkDF sample_columns [crowded_row 2] in
  exists st',
    DataQualityChecker.write_to_dead_letter_queue "bucket" [d1; d2] None
      initial_state
    = (st', Raise (AnalysisException "union: different number of columns")) /\
    s3 st' = s3 initial_state /\ s3_writes st' = s3_writes initial_state.
Proof.
  intros d1 d2.
  apply (checker_dlq_mismatched_batches_raise "bucket" d1 d2 [] None
           initial_state).
  - reflexivity.
  - reflexivity.
  - vm_compute. discriminate.
Defined.
